(** * Basket optimisation: the cheapest supermarket for a basket of products

    A shallow embedding of [optimize_basket] (basket_optimizer_app.py,
    lines 69-124) together with the small part of pandas it relies on, and
    the properties of the ranking it returns.

    Conventions of the embedding.
    - A float64 cell is [NaN] (pandas' marker of a missing price) or a finite
      value; finite values are exact rationals, so sums and means are the
      mathematical ones and rounding is not modelled.
    - A [Series] is the list of its (label, value) pairs in index order; a
      [DataFrame] is the list of its (column label, column) pairs in column
      order.  The price matrix has one row per product and one column per
      supermarket; [pd.read_csv] makes column labels unique.
    - Python exceptions are values of [exn] carried by the [result] monad.
    - [DataFrame.sort_values] is called with pandas' default
      [kind='quicksort'], which pandas documents as not stable; the sort is
      therefore a parameter [sort_kind] that carries exactly what pandas
      promises: the rows come back permuted, ascending, NaN last.  Two
      instances are given: a stable insertion sort, and numpy's quicksort
      as its portable implementation runs it ([numpy_kind]). *)

From Stdlib Require Import List String ZArith QArith Qminmax Bool.
From Stdlib Require Import Lia Lqa Permutation Sorted DecimalString.
Import ListNotations.

(** ** Floating point cells *)

Module Float64.

Inductive float : Type :=
| NaN
| Fin (q : Q).

Definition isna (x : float) : bool :=
  match x with NaN => true | Fin _ => false end.

Definition fadd (x y : float) : float :=
  match x, y with
  | Fin a, Fin b => Fin (a + b)
  | _, _ => NaN
  end.

Definition fmul (x y : float) : float :=
  match x, y with
  | Fin a, Fin b => Fin (a * b)
  | _, _ => NaN
  end.

Definition of_int (z : Z) : float := Fin (inject_Z z).

(** Same value: both missing, or finite and equal as rationals. *)
Definition feq (x y : float) : Prop :=
  match x, y with
  | NaN, NaN => True
  | Fin a, Fin b => a == b
  | _, _ => False
  end.

(** The order [sort_values] ranks by (ascending, [na_position='last']). *)
Definition fle (x y : float) : Prop :=
  match x, y with
  | _, NaN => True
  | NaN, Fin _ => False
  | Fin a, Fin b => a <= b
  end.

Definition fleb (x y : float) : bool :=
  match x, y with
  | _, NaN => true
  | NaN, Fin _ => false
  | Fin a, Fin b => Qle_bool a b
  end.


End Float64.
Import Float64.

(** ** Exceptions *)

Inductive exn : Type :=
| KeyError (key : string).

Inductive result (A : Type) : Type :=
| Ok (a : A)
| Raise (e : exn).

Arguments Ok {A} a.
Arguments Raise {A} e.

Definition bind {A B : Type} (c : result A) (k : A -> result B) : result B :=
  match c with
  | Ok a => k a
  | Raise e => Raise e
  end.

Notation "x <- c ;; k" := (bind c (fun x => k))
  (at level 61, c at next level, right associativity).

(** A [for] loop whose body may raise: the state is threaded through the
    iterations and the first exception ends the loop. *)
Fixpoint for_each {A S : Type} (xs : list A) (body : S -> A -> result S) (s : S)
  : result S :=
  match xs with
  | [] => Ok s
  | x :: rest => s' <- body s x ;; for_each rest body s'
  end.

(** ** Python built-ins *)

Definition len {A : Type} (l : list A) : Z := Z.of_nat (List.length l).

(** A [dict] with string keys, in insertion order: assigning to a key that
    is present replaces its value in place. *)
Definition dict (V : Type) : Type := list (string * V).

Fixpoint dict_set {V : Type} (k : string) (v : V) (d : dict V) : dict V :=
  match d with
  | [] => [(k, v)]
  | (k', v') :: rest =>
      if String.eqb k' k then (k', v) :: rest else (k', v') :: dict_set k v rest
  end.

(** ** The part of pandas the optimiser uses *)

Module Pandas.

Definition Series : Type := list (string * float).
Definition DataFrame : Type := list (string * Series).

Definition columns (df : DataFrame) : list string := map fst df.

(** [index.isin(values)], as a mask over row labels. *)
Definition isin (values : list string) (label : string) : bool :=
  existsb (String.eqb label) values.

Definition series_loc (mask : string -> bool) (s : Series) : Series :=
  filter (fun kv => mask (fst kv)) s.

(** [df.loc[mask]]: the rows whose label passes the mask, every column kept. *)
Definition loc (df : DataFrame) (mask : string -> bool) : DataFrame :=
  map (fun c => (fst c, series_loc mask (snd c))) df.

(** [df[label]]. *)
Fixpoint getitem (df : DataFrame) (label : string) : result Series :=
  match df with
  | [] => Raise (KeyError label)
  | (c, col) :: rest => if String.eqb c label then Ok col else getitem rest label
  end.

Definition dropna (s : Series) : Series :=
  filter (fun kv => negb (isna (snd kv))) s.

(** The values a reduction sees: pandas reductions skip NaN. *)
Fixpoint defined (s : Series) : list Q :=
  match s with
  | [] => []
  | (_, NaN) :: rest => defined rest
  | (_, Fin q) :: rest => q :: defined rest
  end.

Definition Qsum (l : list Q) : Q := fold_right Qplus 0 l.

Definition Qmean (l : list Q) : Q := Qsum l / inject_Z (len l).

Definition series_sum (s : Series) : float := Fin (Qsum (defined s)).

Definition series_mean (s : Series) : float :=
  match defined s with
  | [] => NaN
  | l => Fin (Qmean l)
  end.

Definition series_max (s : Series) : float :=
  match defined s with
  | [] => NaN
  | x :: l => Fin (fold_left Qmax l x)
  end.

(** [df.mean()] and [df.max()]: one value per column, labelled by the column. *)
Definition frame_mean (df : DataFrame) : Series :=
  map (fun c => (fst c, series_mean (snd c))) df.

Definition frame_max (df : DataFrame) : Series :=
  map (fun c => (fst c, series_max (snd c))) df.

Definition to_dict (s : Series) : dict float :=
  fold_left (fun d kv => dict_set (fst kv) (snd kv) d) s [].

End Pandas.
Import Pandas.

(** ** The optimiser *)

(** The value stored under each supermarket in [supermarket_details]. *)
Record Details : Type := {
  total : float;
  available_products : Z;
  missing_products : Z;
  products : dict float;
  has_penalty : bool
}.

(** A row of [results_df]. *)
Record ResultRow : Type := {
  supermarket : string;
  total_price : float;
  row_available_products : Z;
  row_missing_products : Z
}.

Definition row_le (r1 r2 : ResultRow) : Prop :=
  fle (total_price r1) (total_price r2).

(** What [sort_values('total_price')] promises for any [kind]. *)
Record sort_kind : Type := {
  sort_rows : list ResultRow -> list ResultRow;
  sort_rows_perm : forall l, Permutation l (sort_rows l);
  sort_rows_sorted : forall l, Sorted row_le (sort_rows l)
}.

(** [df.sort_values('total_price')]: a frame built from an empty list of
    records has no column at all, so the lookup of the key raises. *)
Definition sort_values (kind : sort_kind) (df : list ResultRow)
  : result (list ResultRow) :=
  match df with
  | [] => Raise (KeyError "total_price")
  | _ => Ok (sort_rows kind df)
  end.

(** [reset_index(drop=True)]: rows are numbered by position. *)
Definition reset_index (df : list ResultRow) : list ResultRow := df.

Section OptimizeBasket.

Variable kind : sort_kind.
Variable product_list : list string.
Variable price_matrix : DataFrame.
Variable only_complete : bool.
Variable penalty_method : string.

(** Lines 86-109: one iteration of the loop over the supermarkets. *)
Definition loop_body (selected_products : DataFrame) (avg_product_price : float)
  (supermarket_details : dict Details) (supermarket : string)
  : result (dict Details) :=
  column <- getitem selected_products supermarket ;;
  let prices := dropna column in
  let missing_count := (len product_list - len prices)%Z in
  if only_complete && (0 <? missing_count)%Z then
    Ok supermarket_details
  else if (0 <? len prices)%Z then
    let total := series_sum prices in
    let total :=
      if (0 <? missing_count)%Z && String.eqb penalty_method "average" then
        fadd total (fmul (of_int missing_count) avg_product_price)
      else if (0 <? missing_count)%Z && String.eqb penalty_method "highest" then
        let max_price :=
          series_max (frame_max (loc price_matrix (isin product_list))) in
        fadd total (fmul (of_int missing_count) max_price)
      else total in
    Ok (dict_set supermarket
          {| total := total;
             available_products := len prices;
             missing_products := missing_count;
             products := to_dict prices;
             has_penalty :=
               (0 <? missing_count)%Z
               && negb (String.eqb penalty_method "exclude") |}
          supermarket_details)
  else Ok supermarket_details.

Definition results_frame (supermarket_details : dict Details) : list ResultRow :=
  map (fun item =>
         {| supermarket := fst item;
            total_price := total (snd item);
            row_available_products := available_products (snd item);
            row_missing_products := missing_products (snd item) |})
      supermarket_details.

Definition optimize_basket : result (list ResultRow * dict Details) :=
  let selected_products := loc price_matrix (isin product_list) in
  let avg_product_price :=
    series_mean (frame_mean (loc price_matrix (isin product_list))) in
  supermarket_details <-
    for_each (columns selected_products)
             (loop_body selected_products avg_product_price) [] ;;
  let results_df := results_frame supermarket_details in
  results_df <-
    (if (0 <? len results_df)%Z then
       sorted <- sort_values kind results_df ;; Ok (reset_index sorted)
     else Ok results_df) ;;
  Ok (results_df, supermarket_details).

End OptimizeBasket.

(** ** Insertion sort

    The rows are inserted one by one, from the last to the first, into the
    sorted part.  [before x y] tells whether a row of total [x] is placed
    in front of a row of total [y] met while walking the sorted part; it
    decides where a row goes among rows of equal total. *)

Fixpoint insert_row (before : float -> float -> bool) (r : ResultRow)
  (l : list ResultRow) : list ResultRow :=
  match l with
  | [] => [r]
  | r' :: rest =>
      if before (total_price r) (total_price r') then r :: l
      else r' :: insert_row before r rest
  end.

Definition insertion_sort (before : float -> float -> bool)
  (l : list ResultRow) : list ResultRow :=
  fold_right (insert_row before) [] l.

(** ** Reading the result

    The quantities the properties below are stated with.  They are defined
    on the price matrix itself, without the intermediate frames of the
    code. *)

(** The column of a supermarket; empty when the label is unknown. *)
Definition column (df : DataFrame) (label : string) : Series :=
  match getitem df label with
  | Ok c => c
  | Raise _ => []
  end.

(** The defined prices of supermarket [s] on the rows the basket selects. *)
Definition basket_prices (pl : list string) (m : DataFrame) (s : string) : list Q :=
  defined (series_loc (isin pl) (column m s)).

Definition missing_count (pl : list string) (m : DataFrame) (s : string) : Z :=
  (len pl - len (basket_prices pl m s))%Z.

(** Every defined cell of a frame, column after column. *)
Definition flat_defined (df : DataFrame) : list Q :=
  flat_map (fun c => defined (snd c)) df.

(** The mean of all defined cells, flattened across rows and columns. *)
Definition flattened_mean (df : DataFrame) : Q := Qmean (flat_defined df).

(** The mean, over the columns that have a defined cell, of each such
    column's own mean. *)
Definition mean_of_column_means (df : DataFrame) : Q :=
  Qmean (map Qmean
           (filter (fun l => negb (Nat.eqb (List.length l) 0))
                   (map (fun c => defined (snd c)) df))).

(** [x] is a greatest element of [l]. *)
Definition is_max (x : Q) (l : list Q) : Prop :=
  In x l /\ forall y, In y l -> y <= x.

(** Product labels are unique within every column. *)
Definition unique_products (m : DataFrame) : Prop :=
  forall c, In c m -> NoDup (map fst (snd c)).

(** Every defined cell is a non-negative price. *)
Definition nonnegative (m : DataFrame) : Prop :=
  forall c, In c m -> forall q, In q (defined (snd c)) -> 0 <= q.

(** No row of the matrix is labelled with a product of the basket. *)
Definition no_row_matches (pl : list string) (m : DataFrame) : Prop :=
  forall p c, In p pl -> In c m -> ~ In p (map fst (snd c)).

(** What the loop records for supermarket [s], if anything. *)
Definition recorded (pl : list string) (m : DataFrame) (oc : bool) (pm : string)
  (s : string) : option Details :=
  let prices := dropna (series_loc (isin pl) (column m s)) in
  let missing := (len pl - len prices)%Z in
  if oc && (0 <? missing)%Z then None
  else if (0 <? len prices)%Z then
    Some {| total :=
              if (0 <? missing)%Z && String.eqb pm "average" then
                fadd (series_sum prices)
                     (fmul (of_int missing)
                           (series_mean (frame_mean (loc m (isin pl)))))
              else if (0 <? missing)%Z && String.eqb pm "highest" then
                fadd (series_sum prices)
                     (fmul (of_int missing)
                           (series_max (frame_max (loc m (isin pl)))))
              else series_sum prices;
            available_products := len prices;
            missing_products := missing;
            products := to_dict prices;
            has_penalty := (0 <? missing)%Z && negb (String.eqb pm "exclude") |}
  else None.

Definition record_step (pl : list string) (m : DataFrame) (oc : bool) (pm : string)
  (acc : dict Details) (s : string) : dict Details :=
  match recorded pl m oc pm s with
  | Some d => dict_set s d acc
  | None => acc
  end.

(** The dictionary the loop builds, and the frame ranked from it. *)
Definition details_of (pl : list string) (m : DataFrame) (oc : bool) (pm : string)
  : dict Details :=
  fold_left (record_step pl m oc pm) (columns m) [].

Definition ranking (kind : sort_kind) (det : dict Details) : list ResultRow :=
  match results_frame det with
  | [] => []
  | rows => sort_rows kind rows
  end.

(** The place of a supermarket among the columns of the matrix. *)
Fixpoint position (cols : list string) (s : string) : option nat :=
  match cols with
  | [] => None
  | c :: rest =>
      if String.eqb c s then Some 0%nat else option_map S (position rest s)
  end.

(** Rows of equal total appear in the order of their columns. *)
Definition ties_in_column_order (cols : list string) (df : list ResultRow)
  : Prop :=
  forall i j ri rj,
    (i < j)%nat ->
    nth_error df i = Some ri -> nth_error df j = Some rj ->
    feq (total_price ri) (total_price rj) ->
    exists pi pj,
      position cols (supermarket ri) = Some pi
      /\ position cols (supermarket rj) = Some pj
      /\ (pi < pj)%nat.

(** [a] occurs in [l] with a [b] somewhere after it. *)
Inductive precedes {A : Type} (a b : A) : list A -> Prop :=
| precedes_here l : In b l -> precedes a b (a :: l)
| precedes_later x l : precedes a b l -> precedes a b (x :: l).

Definition feqb (x y : float) : bool :=
  match x, y with
  | NaN, NaN => true
  | Fin a, Fin b => Qeq_bool a b
  | _, _ => false
  end.

(** The supermarkets that are recorded, with their details, in the order
    of the labels. *)
Definition recorded_items (pl : list string) (m : DataFrame) (oc : bool)
  (pm : string) (labels : list string) : dict Details :=
  flat_map (fun s => match recorded pl m oc pm s with
                     | Some d => [(s, d)]
                     | None => []
                     end) labels.

(** ** The worked example of the specification

    Milk costs 1.00 at A and 1.20 at B; Bread costs 2.00 at A and is not
    sold by B. *)

Definition example_matrix : DataFrame :=
  [ ("A", [("Milk", Fin 1.00); ("Bread", Fin 2.00)]);
    ("B", [("Milk", Fin 1.20); ("Bread", NaN)]) ]%string.

Definition example_basket : list string := ["Milk"; "Bread"]%string.

(** A matrix in which nobody prices Milk. *)
Definition unpriced_matrix : DataFrame :=
  [ ("A", [("Milk", NaN)]); ("B", [("Milk", NaN)]) ]%string.



(** ** numpy's quicksort

    [sort_values('total_price')] passes the column to [nargsort], which
    sets the NaN aside (they go last) and calls
    [ndarray.argsort(kind='quicksort')] on the other values.  The module
    follows the portable implementation of that sort in numpy
    (npysort/quicksort.cpp, [aquicksort_], and npysort/heapsort.cpp,
    [aheapsort_]): segments of more than 16 cells are partitioned around
    the median of their first, middle and last cell, shorter ones are
    sorted by insertion, and a segment is sorted as a heap when the depth
    2 * floor(log2 n) is used up.  A list stands for the index array, each
    cell carrying its key; cells are read with [get] and written with
    [set], as the C code does through pointers.  The partition exchanges
    cells of equal key, so the sort is not stable; builds of numpy that
    sort with vector instructions leave equal keys in yet another order. *)

Module Numpy.

Local Open Scope nat_scope.

Section Argsort.

Variable A : Type.
Variable d : A.
Variable less : A -> A -> bool.


Fixpoint set (k : nat) (v : A) (a : list A) : list A :=
  match a, k with
  | [], _ => []
  | _ :: rest, O => v :: rest
  | x :: rest, S k' => x :: set k' v rest
  end.

















(** *** Both sorts return the cells permuted and in order *)

Hypothesis less_asym : forall x y, less x y = true -> less y x = false.
Hypothesis less_negtrans :
  forall x y z, less y x = false -> less z y = false -> less z x = false.





















(** *** Sorted lists *)







(** *** The heap sort *)

















(** *** The quick sort *)







End Argsort.
End Numpy.

(** ** Two sorting algorithms that keep pandas' promise

    A stable insertion sort, and the quicksort of numpy that
    [sort_values] runs by default. *)

Section Insertion.

Variable before : float -> float -> bool.
Hypothesis before_true : forall x y, before x y = true -> fle x y.
Hypothesis before_false : forall x y, before x y = false -> fle y x.

Lemma insert_row_perm r l : Permutation (r :: l) (insert_row before r l).
Proof.
  induction l as [|r' rest IH]; simpl.
  - apply Permutation_refl.
  - destruct (before (total_price r) (total_price r')).
    + apply Permutation_refl.
    + eapply perm_trans; [apply perm_swap|].
      now apply perm_skip.
Qed.

Lemma insertion_sort_perm l : Permutation l (insertion_sort before l).
Proof.
  induction l as [|r rest IH]; simpl.
  - constructor.
  - eapply perm_trans; [apply perm_skip, IH|apply insert_row_perm].
Qed.

Lemma insert_row_hd r a l :
  row_le a r -> HdRel row_le a l -> HdRel row_le a (insert_row before r l).
Proof.
  intros Har Hal. destruct l as [|r' rest]; simpl.
  - now constructor.
  - destruct (before (total_price r) (total_price r')); constructor; trivial.
    now inversion Hal.
Qed.

Lemma insert_row_sorted r l : Sorted row_le l -> Sorted row_le (insert_row before r l).
Proof.
  induction 1 as [|r' rest Hs IH Hhd]; simpl.
  - repeat constructor.
  - destruct (before (total_price r) (total_price r')) eqn:E.
    + constructor; [now constructor|].
      constructor. now apply before_true.
    + constructor; [exact IH|].
      apply insert_row_hd; [|exact Hhd].
      now apply before_false.
Qed.

Lemma insertion_sort_sorted l : Sorted row_le (insertion_sort before l).
Proof.
  induction l as [|r rest IH]; simpl.
  - constructor.
  - now apply insert_row_sorted.
Qed.

End Insertion.

Lemma fleb_true x y : fleb x y = true -> fle x y.
Proof.
  destruct x, y; simpl; trivial; try discriminate.
  apply Qle_bool_imp_le.
Qed.

Lemma fleb_false x y : fleb x y = false -> fle y x.
Proof.
  destruct x, y; simpl; trivial; try discriminate.
  intros H. apply Qlt_le_weak, Qnot_le_lt.
  intros Hle. apply Qle_bool_iff in Hle. congruence.
Qed.


(** Ties keep the order of the input (a stable sort). *)
Definition stable_kind : sort_kind :=
  {| sort_rows := insertion_sort fleb;
     sort_rows_perm := insertion_sort_perm fleb;
     sort_rows_sorted := insertion_sort_sorted fleb fleb_true fleb_false |}.











(** ** Lemmas on the pandas operations *)

Lemma columns_loc df mask : columns (loc df mask) = columns df.
Proof.
  unfold columns, loc. rewrite map_map. reflexivity.
Qed.

Lemma getitem_loc df mask s :
  getitem (loc df mask) s =
  match getitem df s with
  | Ok c => Ok (series_loc mask c)
  | Raise e => Raise e
  end.
Proof.
  induction df as [|[c col] rest IH]; simpl; [reflexivity|].
  destruct (String.eqb c s); [reflexivity|exact IH].
Qed.

Lemma getitem_columns df s :
  In s (columns df) -> exists c, getitem df s = Ok c /\ In (s, c) df.
Proof.
  induction df as [|[c col] rest IH]; simpl; [tauto|].
  intros [->|H].
  - rewrite String.eqb_refl. eauto.
  - destruct (String.eqb c s) eqn:E.
    + apply String.eqb_eq in E. subst. eauto.
    + destruct (IH H) as (c' & -> & Hin). eauto.
Qed.

Lemma column_In df s : In s (columns df) -> In (s, column df s) df.
Proof.
  intros H. unfold column.
  destruct (getitem_columns df s H) as (c & -> & Hin). exact Hin.
Qed.

Lemma defined_dropna s : defined (dropna s) = defined s.
Proof.
  induction s as [|[k [|q]] rest IH]; simpl; [reflexivity|exact IH|].
  now rewrite IH.
Qed.

Lemma length_dropna s : List.length (dropna s) = List.length (defined s).
Proof.
  induction s as [|[k [|q]] rest IH]; simpl; [reflexivity|exact IH|].
  now rewrite IH.
Qed.

Lemma len_dropna s : len (dropna s) = len (defined s).
Proof.
  unfold len. now rewrite length_dropna.
Qed.

Lemma defined_In s q : In q (defined s) <-> exists k, In (k, Fin q) s.
Proof.
  induction s as [|[k [|q']] rest IH]; simpl.
  - split; [tauto|]. intros [k []].
  - rewrite IH. split.
    + intros [k' H]. eauto.
    + intros [k' [H|H]]; [discriminate|eauto].
  - rewrite IH. split.
    + intros [->|[k' H]]; eauto.
    + intros [k' [H|H]]; [injection H as _ ->; now left|eauto].
Qed.

(** ** The loop never raises, and what it builds *)

Lemma dict_set_In_inv {V : Type} (k : string) (v : V) (acc : dict V) s d :
  In (s, d) (dict_set k v acc) -> (s = k /\ d = v) \/ In (s, d) acc.
Proof.
  induction acc as [|[k' v'] rest IH]; simpl.
  - intros [H|[]]. injection H as <- <-. now left.
  - destruct (String.eqb k' k) eqn:E; simpl.
    + apply String.eqb_eq in E. subst k'.
      intros [H|H]; [injection H as <- <-; now left|right; now right].
    + intros [H|H]; [right; now left|].
      destruct (IH H) as [?|?]; [now left|right; now right].
Qed.

Lemma dict_set_In_keep {V : Type} (k : string) (v : V) (acc : dict V) s d :
  In (s, d) acc -> (k = s -> v = d) -> In (s, d) (dict_set k v acc).
Proof.
  intros Hin Hsame.
  induction acc as [|[k' v'] rest IH]; simpl in *; [contradiction|].
  destruct (String.eqb k' k) eqn:E; simpl.
  - apply String.eqb_eq in E. subst k'.
    destruct Hin as [H|H]; [|now right].
    injection H as -> ->. left. now rewrite Hsame.
  - destruct Hin as [H|H]; [now left|right; now apply IH].
Qed.

Lemma dict_set_In_new {V : Type} (k : string) (v : V) (acc : dict V) :
  In (k, v) (dict_set k v acc).
Proof.
  induction acc as [|[k' v'] rest IH]; simpl; [now left|].
  destruct (String.eqb k' k) eqn:E; simpl.
  - apply String.eqb_eq in E. subst k'. now left.
  - now right.
Qed.

Lemma for_each_ok {A S : Type} (body : S -> A -> result S) (step : S -> A -> S) xs :
  (forall x, In x xs -> forall s, body s x = Ok (step s x)) ->
  forall s, for_each xs body s = Ok (fold_left step xs s).
Proof.
  induction xs as [|x rest IH]; simpl; intros Hbody s; [reflexivity|].
  rewrite (Hbody x (or_introl eq_refl)). simpl.
  apply IH. intros y Hy. apply Hbody. now right.
Qed.

Lemma loop_body_record pl m oc pm acc s :
  In s (columns m) ->
  loop_body pl m oc pm (loc m (isin pl))
            (series_mean (frame_mean (loc m (isin pl)))) acc s
  = Ok (record_step pl m oc pm acc s).
Proof.
  intros Hs. unfold loop_body, record_step, recorded, column.
  rewrite getitem_loc.
  destruct (getitem_columns m s Hs) as (c & -> & _). simpl.
  destruct (oc && _); [reflexivity|].
  destruct (0 <? len _)%Z; reflexivity.
Qed.

Lemma results_frame_nil det : results_frame det = [] -> det = [].
Proof.
  destruct det; [reflexivity|discriminate].
Qed.

(** [optimize_basket] always returns: the dictionary is [details_of] and
    the frame is its [ranking]. *)
Lemma optimize_basket_eq kind pl m oc pm :
  optimize_basket kind pl m oc pm
  = Ok (ranking kind (details_of pl m oc pm), details_of pl m oc pm).
Proof.
  unfold optimize_basket. rewrite columns_loc.
  rewrite (for_each_ok _ (record_step pl m oc pm)).
  - fold (details_of pl m oc pm). simpl. unfold ranking.
    destruct (results_frame (details_of pl m oc pm)) as [|r rows] eqn:E.
    + reflexivity.
    + unfold len. simpl List.length.
      replace (0 <? Z.of_nat (S (List.length rows)))%Z with true
        by (symmetry; apply Z.ltb_lt; lia).
      reflexivity.
  - intros s Hs acc. now apply loop_body_record.
Qed.

Lemma fold_record_In_inv pl m oc pm labels acc s d :
  In (s, d) (fold_left (record_step pl m oc pm) labels acc) ->
  In (s, d) acc \/ (In s labels /\ recorded pl m oc pm s = Some d).
Proof.
  revert acc. induction labels as [|x rest IH]; simpl; intros acc H.
  - now left.
  - destruct (IH _ H) as [Hacc|[Hin Hrec]]; [|right; tauto].
    unfold record_step in Hacc.
    destruct (recorded pl m oc pm x) as [dx|] eqn:E; [|now left].
    destruct (dict_set_In_inv _ _ _ _ _ Hacc) as [[-> ->]|?]; [|now left].
    right. tauto.
Qed.

Lemma fold_record_In pl m oc pm labels acc s d :
  (forall s' d', In (s', d') acc -> recorded pl m oc pm s' = Some d') ->
  In (s, d) acc \/ (In s labels /\ recorded pl m oc pm s = Some d) ->
  In (s, d) (fold_left (record_step pl m oc pm) labels acc).
Proof.
  revert acc. induction labels as [|x rest IH]; simpl; intros acc Hinv H.
  - destruct H as [H|[[] _]]. exact H.
  - apply IH.
    + intros s' d' Hin. unfold record_step in Hin.
      destruct (recorded pl m oc pm x) as [dx|] eqn:E; [|now apply Hinv].
      destruct (dict_set_In_inv _ _ _ _ _ Hin) as [[-> ->]|?]; [exact E|].
      now apply Hinv.
    + unfold record_step.
      destruct H as [H|[[->|Hin] Hrec]].
      * left. destruct (recorded pl m oc pm x) as [dx|] eqn:E; [|exact H].
        apply dict_set_In_keep; [exact H|].
        intros ->. apply Hinv in H. congruence.
      * left. rewrite Hrec. apply dict_set_In_new.
      * right. tauto.
Qed.

(** The entries of the dictionary are exactly what [recorded] yields on the
    supermarkets of the matrix. *)
Lemma details_of_In pl m oc pm s d :
  In (s, d) (details_of pl m oc pm) <->
  In s (columns m) /\ recorded pl m oc pm s = Some d.
Proof.
  unfold details_of. split.
  - intros H. apply fold_record_In_inv in H. destruct H as [[]|H]. exact H.
  - intros H. apply fold_record_In; [intros ? ? []|now right].
Qed.

Lemma ranking_perm kind det : Permutation (results_frame det) (ranking kind det).
Proof.
  unfold ranking. destruct (results_frame det); [constructor|].
  apply sort_rows_perm.
Qed.

Lemma fle_trans x y z : fle x y -> fle y z -> fle x z.
Proof.
  destruct x, y, z; simpl; trivial; try contradiction.
  apply Qle_trans.
Qed.

Lemma ranking_sorted kind det : StronglySorted row_le (ranking kind det).
Proof.
  apply Sorted_StronglySorted.
  - intros a b c. apply fle_trans.
  - unfold ranking. destruct (results_frame det); [constructor|].
    apply sort_rows_sorted.
Qed.

(** ** Lemmas on the reductions *)

Lemma Qmax_cases x y : Qmax x y = x \/ Qmax x y = y.
Proof.
  unfold Qmax, GenericMinMax.gmax. destruct (x ?= y); auto.
Qed.

Lemma fold_max_In l x : In (fold_left Qmax l x) (x :: l).
Proof.
  revert x. induction l as [|y rest IH]; intros x; simpl; [now left|].
  destruct (IH (Qmax x y)) as [H|H]; [|right; now right].
  destruct (Qmax_cases x y) as [E|E]; [left|right; left];
    rewrite <- H; now symmetry.
Qed.

Lemma fold_max_ge_init l x : x <= fold_left Qmax l x.
Proof.
  revert x. induction l as [|y rest IH]; intros x; simpl; [apply Qle_refl|].
  eapply Qle_trans; [apply Q.le_max_l|apply IH].
Qed.

Lemma fold_max_ge l x y : In y (x :: l) -> y <= fold_left Qmax l x.
Proof.
  revert x. induction l as [|z rest IH]; intros x; simpl.
  - intros [->|[]]. apply Qle_refl.
  - intros [->|[->|H]].
    + eapply Qle_trans; [apply Q.le_max_l|apply fold_max_ge_init].
    + eapply Qle_trans; [apply Q.le_max_r|apply fold_max_ge_init].
    + apply IH. now right.
Qed.

Lemma series_max_is_max s x : series_max s = Fin x -> is_max x (defined s).
Proof.
  unfold series_max. destruct (defined s) as [|y l]; [discriminate|].
  intros H. injection H as <-. split.
  - apply fold_max_In.
  - intros z. apply fold_max_ge.
Qed.

Lemma series_max_defined s :
  defined s <> [] -> exists x, series_max s = Fin x.
Proof.
  unfold series_max. destruct (defined s); [congruence|eauto].
Qed.

Lemma series_mean_defined s :
  defined s <> [] -> series_mean s = Fin (Qmean (defined s)).
Proof.
  unfold series_mean. destruct (defined s); [congruence|reflexivity].
Qed.

Lemma flat_defined_In df q :
  In q (flat_defined df) <-> exists c, In c df /\ In q (defined (snd c)).
Proof.
  unfold flat_defined. apply in_flat_map.
Qed.

Lemma frame_max_In df x :
  In x (defined (frame_max df)) <->
  exists c, In c df /\ series_max (snd c) = Fin x.
Proof.
  rewrite defined_In. unfold frame_max. split.
  - intros (k & H). apply in_map_iff in H. destruct H as (c & E & Hc).
    injection E as _ E. eauto.
  - intros (c & Hc & E). exists (fst c). apply in_map_iff.
    exists c. now rewrite E.
Qed.

(** [df.max().max()] is a greatest defined cell of the frame. *)
Lemma frame_max_max_is_max df x :
  series_max (frame_max df) = Fin x -> is_max x (flat_defined df).
Proof.
  intros H. apply series_max_is_max in H. destruct H as [Hin Hge]. split.
  - apply frame_max_In in Hin. destruct Hin as (c & Hc & E).
    apply flat_defined_In. exists c. split; [exact Hc|].
    now apply series_max_is_max in E as [? _].
  - intros y Hy. apply flat_defined_In in Hy. destruct Hy as (c & Hc & Hy).
    destruct (series_max_defined (snd c)) as [xc E].
    { intros E. rewrite E in Hy. contradiction. }
    eapply Qle_trans.
    + apply series_max_is_max in E as [_ Hle]. apply Hle, Hy.
    + apply Hge. apply frame_max_In. eauto.
Qed.

Lemma frame_max_max_defined df :
  flat_defined df <> [] -> exists x, series_max (frame_max df) = Fin x.
Proof.
  intros H. apply series_max_defined.
  destruct (flat_defined df) as [|q l] eqn:E; [congruence|].
  assert (Hq : In q (flat_defined df)) by (rewrite E; now left).
  apply flat_defined_In in Hq. destruct Hq as (c & Hc & Hq).
  destruct (series_max_defined (snd c)) as [xc Exc].
  { intros E'. rewrite E' in Hq. contradiction. }
  assert (Hin : In xc (defined (frame_max df))) by (apply frame_max_In; eauto).
  intros E'. rewrite E' in Hin. contradiction.
Qed.

(** [df.mean()] keeps one mean per column that has a defined cell. *)
Lemma defined_frame_mean df :
  defined (frame_mean df)
  = map Qmean
        (filter (fun l => negb (Nat.eqb (List.length l) 0))
                (map (fun c => defined (snd c)) df)).
Proof.
  induction df as [|[k col] rest IH]; simpl; [reflexivity|].
  unfold series_mean. destruct (defined col) as [|q l]; simpl; [exact IH|].
  now rewrite IH.
Qed.

Lemma frame_mean_mean_defined df c :
  In c df -> defined (snd c) <> [] ->
  series_mean (frame_mean df) = Fin (mean_of_column_means df).
Proof.
  intros Hc Hne. rewrite series_mean_defined.
  - now rewrite defined_frame_mean.
  - rewrite defined_frame_mean. intros E. apply map_eq_nil in E.
    assert (Hin : In (defined (snd c))
                     (filter (fun l => negb (Nat.eqb (List.length l) 0))
                             (map (fun c => defined (snd c)) df))).
    { apply filter_In. split; [apply in_map_iff; eauto|].
      destruct (defined (snd c)); [congruence|reflexivity]. }
    rewrite E in Hin. contradiction.
Qed.

Lemma Qsum_nonneg l : (forall q, In q l -> 0 <= q) -> 0 <= Qsum l.
Proof.
  induction l as [|x rest IH]; simpl; intros H; [apply Qle_refl|].
  assert (0 <= x) by (apply H; now left).
  assert (0 <= Qsum rest) by (apply IH; intros; apply H; now right).
  lra.
Qed.

Lemma Qmean_nonneg l : (forall q, In q l -> 0 <= q) -> 0 <= Qmean l.
Proof.
  intros H. unfold Qmean, Qdiv. apply Qmult_le_0_compat.
  - now apply Qsum_nonneg.
  - apply Qinv_le_0_compat. unfold len.
    rewrite <- (Zle_Qle 0). lia.
Qed.

Lemma mean_of_column_means_nonneg df :
  nonnegative df -> 0 <= mean_of_column_means df.
Proof.
  intros Hnn. unfold mean_of_column_means. apply Qmean_nonneg.
  intros q Hq. apply in_map_iff in Hq. destruct Hq as (l & <- & Hl).
  apply filter_In in Hl. destruct Hl as [Hl _].
  apply in_map_iff in Hl. destruct Hl as (c & <- & Hc).
  apply Qmean_nonneg. intros q. now apply Hnn.
Qed.

(** ** What is recorded for one supermarket *)

Lemma recorded_eq pl m oc pm s :
  recorded pl m oc pm s =
  let prices := basket_prices pl m s in
  let missing := missing_count pl m s in
  if oc && (0 <? missing)%Z then None
  else if (0 <? len prices)%Z then
    Some {| total :=
              if (0 <? missing)%Z && String.eqb pm "average" then
                fadd (Fin (Qsum prices))
                     (fmul (of_int missing)
                           (series_mean (frame_mean (loc m (isin pl)))))
              else if (0 <? missing)%Z && String.eqb pm "highest" then
                fadd (Fin (Qsum prices))
                     (fmul (of_int missing)
                           (series_max (frame_max (loc m (isin pl)))))
              else Fin (Qsum prices);
            available_products := len prices;
            missing_products := missing;
            products := to_dict (dropna (series_loc (isin pl) (column m s)));
            has_penalty := (0 <? missing)%Z && negb (String.eqb pm "exclude") |}
  else None.
Proof.
  unfold recorded, missing_count, basket_prices, series_sum.
  rewrite len_dropna, defined_dropna. reflexivity.
Qed.

(** Whether a supermarket is recorded does not depend on the penalty
    method, and the counts it is recorded with do not either. *)
Lemma recorded_counts pl m oc pm s d :
  recorded pl m oc pm s = Some d ->
  available_products d = len (basket_prices pl m s)
  /\ missing_products d = missing_count pl m s
  /\ (0 < len (basket_prices pl m s))%Z
  /\ (oc = true -> (missing_count pl m s <= 0)%Z).
Proof.
  rewrite recorded_eq. cbv zeta.
  destruct (0 <? missing_count pl m s)%Z eqn:Em;
    destruct oc; simpl; try discriminate;
    destruct (0 <? len (basket_prices pl m s))%Z eqn:Ea; try discriminate;
    intros H; injection H as <-; simpl;
    apply Z.ltb_lt in Ea; repeat split; trivial; try discriminate.
  intros _. apply Z.ltb_ge in Em. exact Em.
Qed.

Lemma recorded_exists pl m pm s :
  basket_prices pl m s <> [] -> exists d, recorded pl m false pm s = Some d.
Proof.
  intros Hne. rewrite recorded_eq. cbv zeta. simpl.
  replace (0 <? len (basket_prices pl m s))%Z with true; [eauto|].
  symmetry. apply Z.ltb_lt. unfold len.
  destruct (basket_prices pl m s); [congruence|simpl; lia].
Qed.

Lemma len_pos_nonempty {A : Type} (l : list A) : (0 < len l)%Z -> l <> [].
Proof.
  destruct l; [unfold len; simpl; lia|discriminate].
Qed.

Lemma loc_In m mask s :
  In s (columns m) -> In (s, series_loc mask (column m s)) (loc m mask).
Proof.
  intros H. apply column_In in H. unfold loc.
  apply in_map_iff. exists (s, column m s). split; [reflexivity|exact H].
Qed.

Lemma defined_series_loc mask col q :
  In q (defined (series_loc mask col)) -> In q (defined col).
Proof.
  rewrite !defined_In. intros (k & H). exists k.
  unfold series_loc in H. now apply filter_In in H.
Qed.

Lemma nonnegative_loc m mask : nonnegative m -> nonnegative (loc m mask).
Proof.
  intros Hnn c Hc q Hq. unfold loc in Hc. apply in_map_iff in Hc.
  destruct Hc as (c0 & <- & Hc0). simpl in Hq.
  apply (Hnn c0 Hc0). now apply defined_series_loc in Hq.
Qed.

(** A supermarket with a price on the selected rows makes both penalty
    bases defined. *)
Lemma average_base_defined pl m s :
  In s (columns m) -> basket_prices pl m s <> [] ->
  series_mean (frame_mean (loc m (isin pl)))
  = Fin (mean_of_column_means (loc m (isin pl))).
Proof.
  intros Hs Hne.
  apply (frame_mean_mean_defined _ (s, series_loc (isin pl) (column m s))).
  - now apply loc_In.
  - exact Hne.
Qed.

Lemma highest_base_defined pl m s :
  In s (columns m) -> basket_prices pl m s <> [] ->
  exists x, series_max (frame_max (loc m (isin pl))) = Fin x
            /\ is_max x (flat_defined (loc m (isin pl))).
Proof.
  intros Hs Hne.
  destruct (frame_max_max_defined (loc m (isin pl))) as [x E].
  - intros E. unfold basket_prices in Hne.
    destruct (defined (series_loc (isin pl) (column m s))) as [|q l] eqn:Eq;
      [congruence|].
    assert (Hq : In q (flat_defined (loc m (isin pl)))).
    { apply flat_defined_In. exists (s, series_loc (isin pl) (column m s)).
      split; [now apply loc_In|]. simpl. rewrite Eq. now left. }
    rewrite E in Hq. contradiction.
  - exists x. split; [exact E|now apply frame_max_max_is_max].
Qed.

(** A supermarket is recorded exactly when it has a price on the selected
    rows and is not dropped for missing a product. *)
Lemma recorded_Some_iff pl m oc pm s :
  (exists d, recorded pl m oc pm s = Some d) <->
  basket_prices pl m s <> []
  /\ (oc = false \/ (missing_count pl m s <= 0)%Z).
Proof.
  split.
  - intros [d Hd].
    destruct (recorded_counts _ _ _ _ _ _ Hd) as (_ & _ & Hpos & Hoc).
    split; [now apply len_pos_nonempty|].
    destruct oc; [right; now apply Hoc|now left].
  - intros [Hne Hoc]. rewrite recorded_eq. cbv zeta.
    replace (oc && (0 <? missing_count pl m s)%Z) with false.
    2: { symmetry. destruct Hoc as [->|Hle]; [reflexivity|].
         apply andb_false_iff. right. now apply Z.ltb_ge. }
    replace (0 <? len (basket_prices pl m s))%Z with true; [eauto|].
    symmetry. apply Z.ltb_lt. unfold len.
    destruct (basket_prices pl m s); [congruence|simpl; lia].
Qed.

Lemma recorded_flag pl m oc pm s d :
  recorded pl m oc pm s = Some d ->
  has_penalty d
  = (0 <? missing_count pl m s)%Z && negb (String.eqb pm "exclude").
Proof.
  rewrite recorded_eq. cbv zeta.
  destruct (oc && _); [discriminate|].
  destruct (0 <? len _)%Z; [|discriminate].
  intros H. injection H as <-. reflexivity.
Qed.

Lemma recorded_no_penalty pl m oc pm s d :
  recorded pl m oc pm s = Some d ->
  (missing_products d <= 0)%Z ->
  total d = Fin (Qsum (basket_prices pl m s)).
Proof.
  intros Hrec Hmiss.
  destruct (recorded_counts _ _ _ _ _ _ Hrec) as (_ & Em & _).
  rewrite Em in Hmiss. apply Z.ltb_ge in Hmiss.
  rewrite recorded_eq in Hrec. cbv zeta in Hrec. rewrite Hmiss in Hrec.
  rewrite andb_false_r in Hrec. simpl in Hrec.
  destruct (0 <? len _)%Z; [|discriminate].
  injection Hrec as <-. reflexivity.
Qed.

Lemma details_row_in_ranking kind det s d :
  In (s, d) det ->
  exists row, In row (ranking kind det)
              /\ supermarket row = s
              /\ total_price row = total d
              /\ row_missing_products row = missing_products d.
Proof.
  intros Hin.
  exists {| supermarket := s; total_price := total d;
            row_available_products := available_products d;
            row_missing_products := missing_products d |}.
  split; [|repeat split].
  apply (Permutation_in _ (ranking_perm kind det)).
  unfold results_frame. apply in_map_iff. now exists (s, d).
Qed.

(** ** C1: the [average] penalty *)

(** C1, as stated, fails on the worked example of the specification: with
    Milk at 1.00 (A) and 1.20 (B) and Bread at 2.00 (A only), the mean of
    all defined cells is 1.40, but supermarket B, which misses one product,
    is recorded with total 2.55, not 1.20 + 1 x 1.40 = 2.60. *)
Lemma C1_flattened_mean_counterexample :
  exists df det d,
    optimize_basket stable_kind example_basket example_matrix false "average"
    = Ok (df, det)
    /\ In ("B"%string, d) det
    /\ missing_products d = 1%Z
    /\ flattened_mean (loc example_matrix (isin example_basket)) == 1.40
    /\ feq (total d) (Fin 2.55)
    /\ ~ feq (total d)
         (Fin (Qsum (basket_prices example_basket example_matrix "B")
               + inject_Z (missing_products d)
                 * flattened_mean (loc example_matrix (isin example_basket)))).
Proof.
  rewrite optimize_basket_eq.
  eexists. eexists.
  exists {| total := Fin (1.20 + 0 + inject_Z 1 * mean_of_column_means
                            (loc example_matrix (isin example_basket)));
            available_products := 1;
            missing_products := 1;
            products := [("Milk"%string, Fin 1.20)];
            has_penalty := true |}.
  split; [reflexivity|].
  split; [vm_compute; right; left; reflexivity|].
  split; [reflexivity|].
  split; [vm_compute; reflexivity|].
  split; [vm_compute; reflexivity|].
  vm_compute. discriminate.
Qed.

Lemma recorded_average pl m s d :
  In s (columns m) ->
  recorded pl m false "average" s = Some d ->
  (0 < missing_products d)%Z ->
  total d = Fin (Qsum (basket_prices pl m s)
                 + inject_Z (missing_products d)
                   * mean_of_column_means (loc m (isin pl))).
Proof.
  intros Hs Hrec Hmiss.
  destruct (recorded_counts _ _ _ _ _ _ Hrec) as (_ & Em & Hpos & _).
  rewrite Em in Hmiss. apply Z.ltb_lt in Hmiss. clear Em.
  rewrite recorded_eq in Hrec. cbv zeta in Hrec. simpl in Hrec.
  destruct (0 <? len (basket_prices pl m s))%Z; [|discriminate].
  injection Hrec as <-. simpl. rewrite Hmiss. simpl.
  rewrite (average_base_defined pl m s Hs (len_pos_nonempty _ Hpos)).
  reflexivity.
Qed.

(** C1 (amended).  With [only_complete] off and the [average] method,
    [optimize_basket] returns, and the supermarkets it records are exactly
    those with a price on the selected rows.  Each is recorded, and ranked,
    with the missing count: length of the basket minus its number of
    defined prices there.  When that count is positive its total is the
    sum of its defined prices on the selected rows plus the count times
    the mean, taken over the supermarkets that have a defined price on the
    selected rows, of each such supermarket's own mean price there; when
    it is not, the total is the plain sum. *)
Theorem C1_average_penalty (kind : sort_kind) (pl : list string) (m : DataFrame) :
  exists df det,
    optimize_basket kind pl m false "average" = Ok (df, det)
    /\ (forall s, In s (columns m) -> basket_prices pl m s <> [] ->
        exists d, In (s, d) det)
    /\ (forall s d, In (s, d) det ->
        In s (columns m)
        /\ basket_prices pl m s <> []
        /\ missing_products d = missing_count pl m s
        /\ has_penalty d = (0 <? missing_count pl m s)%Z
        /\ ((0 < missing_count pl m s)%Z ->
            total d = Fin (Qsum (basket_prices pl m s)
                           + inject_Z (missing_count pl m s)
                             * mean_of_column_means (loc m (isin pl))))
        /\ ((missing_count pl m s <= 0)%Z ->
            total d = Fin (Qsum (basket_prices pl m s))))
    /\ (forall s d, In (s, d) det ->
        exists row, In row df
                    /\ supermarket row = s
                    /\ total_price row = total d
                    /\ row_missing_products row = missing_products d).
Proof.
  exists (ranking kind (details_of pl m false "average")).
  exists (details_of pl m false "average").
  split; [apply optimize_basket_eq|]. split; [|split].
  - intros s Hs Hne.
    destruct (recorded_exists pl m "average" s Hne) as [d Hd].
    exists d. apply details_of_In. now split.
  - intros s d Hin. apply details_of_In in Hin. destruct Hin as [Hs Hrec].
    destruct (recorded_counts _ _ _ _ _ _ Hrec) as (_ & Em & Hpos & _).
    split; [exact Hs|]. split; [now apply len_pos_nonempty|].
    split; [exact Em|].
    split; [now rewrite (recorded_flag _ _ _ _ _ _ Hrec), andb_true_r|].
    split.
    + intros Hmiss. rewrite <- Em. apply recorded_average; trivial.
      now rewrite Em.
    + intros Hle. apply (recorded_no_penalty _ _ _ _ _ _ Hrec).
      now rewrite Em.
  - intros s d Hin. now apply details_row_in_ranking.
Qed.

(** On the worked example the penalty base is (1.50 + 1.20) / 2 = 1.35 and
    [optimize_basket] records supermarket B, which misses Bread, with
    missing count 1, the penalty flag and total 1.20 + 1 x 1.35 = 2.55;
    the ranked frame has a row for B with that total. *)
Lemma C1_average_penalty_witness :
  mean_of_column_means (loc example_matrix (isin example_basket)) == 1.35
  /\ exists df det d row,
       optimize_basket stable_kind example_basket example_matrix false
                       "average"
       = Ok (df, det)
       /\ In ("B"%string, d) det
       /\ missing_products d = 1%Z
       /\ has_penalty d = true
       /\ feq (total d) (Fin 2.55)
       /\ In row df
       /\ supermarket row = "B"%string
       /\ feq (total_price row) (Fin 2.55).
Proof.
  split; [vm_compute; reflexivity|].
  destruct (C1_average_penalty stable_kind example_basket example_matrix)
    as (df & det & Hrun & Hall & Hentry & Hrow).
  destruct (Hall "B"%string) as [d Hd];
    [vm_compute; tauto|vm_compute; discriminate|].
  destruct (Hentry _ _ Hd) as (_ & _ & Hm & Hp & Ht & _).
  destruct (Hrow _ _ Hd) as (row & Hin & Hs & Hprice & _).
  assert (Htotal : feq (total d) (Fin 2.55)).
  { rewrite Ht by (vm_compute; reflexivity). vm_compute. reflexivity. }
  exists df, det, d, row.
  split; [exact Hrun|]. split; [exact Hd|].
  split; [rewrite Hm; reflexivity|].
  split; [rewrite Hp; reflexivity|].
  split; [exact Htotal|].
  split; [exact Hin|]. split; [exact Hs|]. now rewrite Hprice.
Defined.

(** ** C4: the [highest] penalty *)

Lemma recorded_highest pl m s d :
  In s (columns m) ->
  recorded pl m false "highest" s = Some d ->
  (0 < missing_products d)%Z ->
  exists mx,
    is_max mx (flat_defined (loc m (isin pl)))
    /\ total d = Fin (Qsum (basket_prices pl m s)
                      + inject_Z (missing_products d) * mx).
Proof.
  intros Hs Hrec Hmiss.
  destruct (recorded_counts _ _ _ _ _ _ Hrec) as (_ & Em & Hpos & _).
  rewrite Em in Hmiss. apply Z.ltb_lt in Hmiss. clear Em.
  destruct (highest_base_defined pl m s Hs (len_pos_nonempty _ Hpos))
    as (mx & Emx & Hmx).
  exists mx. split; [exact Hmx|].
  rewrite recorded_eq in Hrec. cbv zeta in Hrec. simpl in Hrec.
  destruct (0 <? len (basket_prices pl m s))%Z; [|discriminate].
  injection Hrec as <-. simpl. rewrite Hmiss. simpl. rewrite Emx.
  reflexivity.
Qed.

(** C4.  With [only_complete] off and the [highest] method,
    [optimize_basket] returns, and the supermarkets it records are exactly
    those with a price on the selected rows.  Each is recorded, and ranked,
    with the missing count: length of the basket minus its number of
    defined prices there.  When that count is positive its total is the
    sum of its defined prices on the selected rows plus the count times a
    greatest defined cell of all the selected rows, whichever supermarket
    that cell belongs to; when it is not, the total is the plain sum. *)
Theorem C4_highest_penalty (kind : sort_kind) (pl : list string) (m : DataFrame) :
  exists df det,
    optimize_basket kind pl m false "highest" = Ok (df, det)
    /\ (forall s, In s (columns m) -> basket_prices pl m s <> [] ->
        exists d, In (s, d) det)
    /\ (forall s d, In (s, d) det ->
        In s (columns m)
        /\ basket_prices pl m s <> []
        /\ missing_products d = missing_count pl m s
        /\ has_penalty d = (0 <? missing_count pl m s)%Z
        /\ ((0 < missing_count pl m s)%Z ->
            exists mx,
              is_max mx (flat_defined (loc m (isin pl)))
              /\ total d = Fin (Qsum (basket_prices pl m s)
                                + inject_Z (missing_count pl m s) * mx))
        /\ ((missing_count pl m s <= 0)%Z ->
            total d = Fin (Qsum (basket_prices pl m s))))
    /\ (forall s d, In (s, d) det ->
        exists row, In row df
                    /\ supermarket row = s
                    /\ total_price row = total d
                    /\ row_missing_products row = missing_products d).
Proof.
  exists (ranking kind (details_of pl m false "highest")).
  exists (details_of pl m false "highest").
  split; [apply optimize_basket_eq|]. split; [|split].
  - intros s Hs Hne.
    destruct (recorded_exists pl m "highest" s Hne) as [d Hd].
    exists d. apply details_of_In. now split.
  - intros s d Hin. apply details_of_In in Hin. destruct Hin as [Hs Hrec].
    destruct (recorded_counts _ _ _ _ _ _ Hrec) as (_ & Em & Hpos & _).
    split; [exact Hs|]. split; [now apply len_pos_nonempty|].
    split; [exact Em|].
    split; [now rewrite (recorded_flag _ _ _ _ _ _ Hrec), andb_true_r|].
    split.
    + intros Hmiss. rewrite <- Em. apply recorded_highest; trivial.
      now rewrite Em.
    + intros Hle. apply (recorded_no_penalty _ _ _ _ _ _ Hrec).
      now rewrite Em.
  - intros s d Hin. now apply details_row_in_ranking.
Qed.

(** On the worked example the greatest selected cell is 2.00, a price of
    supermarket A, and [optimize_basket] records supermarket B with
    missing count 1, the penalty flag and total 1.20 + 1 x 2.00 = 3.20;
    the ranked frame has a row for B with that total. *)
Lemma C4_highest_penalty_witness :
  is_max 2.00 (flat_defined (loc example_matrix (isin example_basket)))
  /\ exists df det d row,
       optimize_basket stable_kind example_basket example_matrix false
                       "highest"
       = Ok (df, det)
       /\ In ("B"%string, d) det
       /\ missing_products d = 1%Z
       /\ has_penalty d = true
       /\ feq (total d) (Fin 3.20)
       /\ In row df
       /\ supermarket row = "B"%string
       /\ feq (total_price row) (Fin 3.20).
Proof.
  split.
  { split; [vm_compute; tauto|].
    intros y Hy. vm_compute in Hy.
    destruct Hy as [<-|[<-|[<-|[]]]]; vm_compute; discriminate. }
  destruct (C4_highest_penalty stable_kind example_basket example_matrix)
    as (df & det & Hrun & Hall & Hentry & Hrow).
  destruct (Hall "B"%string) as [d Hd];
    [vm_compute; tauto|vm_compute; discriminate|].
  destruct (Hentry _ _ Hd) as (_ & _ & Hm & Hp & Ht & _).
  destruct (Hrow _ _ Hd) as (row & Hin & Hs & Hprice & _).
  assert (Htotal : feq (total d) (Fin 3.20)).
  { destruct Ht as (mx & [Hmx Hge] & ->); [vm_compute; reflexivity|].
    assert (H2 : 2.00 <= mx) by (apply Hge; vm_compute; tauto).
    vm_compute in Hmx.
    destruct Hmx as [<-|[<-|[<-|[]]]];
      try (exfalso; revert H2; vm_compute; intros H2; now apply H2).
    vm_compute. reflexivity. }
  exists df, det, d, row.
  split; [exact Hrun|]. split; [exact Hd|].
  split; [rewrite Hm; reflexivity|].
  split; [rewrite Hp; reflexivity|].
  split; [exact Htotal|].
  split; [exact Hin|]. split; [exact Hs|]. now rewrite Hprice.
Defined.

(** ** C6: the [exclude] method *)

Lemma recorded_exclude pl m oc s d :
  recorded pl m oc "exclude" s = Some d ->
  has_penalty d = false /\ total d = Fin (Qsum (basket_prices pl m s)).
Proof.
  rewrite recorded_eq. cbv zeta. simpl.
  destruct (oc && _); [discriminate|].
  destruct (0 <? len (basket_prices pl m s))%Z; [|discriminate].
  intros H. injection H as <-. simpl.
  rewrite !andb_false_r. now split.
Qed.

(** C6.  With the [exclude] method, whatever [only_complete] is,
    [optimize_basket] returns; it records every supermarket that has a
    price on the selected rows and is not dropped for missing a product,
    and no other; every recorded supermarket has no penalty flag and a
    total equal to the sum of its defined prices on the rows the basket
    selects, missing products adding nothing; the ranked frame has one row
    per recorded supermarket, with the same total. *)
Theorem C6_exclude_total (kind : sort_kind) (pl : list string) (m : DataFrame)
  (oc : bool) :
  exists df det,
    optimize_basket kind pl m oc "exclude" = Ok (df, det)
    /\ (forall s, In s (columns m) -> basket_prices pl m s <> [] ->
        oc = false \/ (missing_count pl m s <= 0)%Z ->
        exists d, In (s, d) det)
    /\ (forall s d, In (s, d) det ->
        In s (columns m)
        /\ basket_prices pl m s <> []
        /\ (oc = false \/ (missing_count pl m s <= 0)%Z)
        /\ missing_products d = missing_count pl m s
        /\ has_penalty d = false
        /\ total d = Fin (Qsum (basket_prices pl m s)))
    /\ (forall s d, In (s, d) det ->
        exists row, In row df
                    /\ supermarket row = s
                    /\ total_price row = total d
                    /\ row_missing_products row = missing_products d)
    /\ (forall r, In r df ->
        total_price r = Fin (Qsum (basket_prices pl m (supermarket r)))).
Proof.
  exists (ranking kind (details_of pl m oc "exclude")).
  exists (details_of pl m oc "exclude").
  split; [apply optimize_basket_eq|]. split; [|split; [|split]].
  - intros s Hs Hne Hoc.
    destruct (proj2 (recorded_Some_iff pl m oc "exclude" s)) as [d Hd];
      [now split|].
    exists d. apply details_of_In. now split.
  - intros s d Hin. apply details_of_In in Hin. destruct Hin as [Hs Hrec].
    destruct (proj1 (recorded_Some_iff pl m oc "exclude" s)) as [Hne Hoc];
      [eauto|].
    destruct (recorded_counts _ _ _ _ _ _ Hrec) as (_ & Em & _).
    destruct (recorded_exclude _ _ _ _ _ Hrec) as [Hp Ht].
    repeat split; assumption.
  - intros s d Hin. now apply details_row_in_ranking.
  - intros r Hr.
    apply (Permutation_in _ (Permutation_sym (ranking_perm kind _))) in Hr.
    unfold results_frame in Hr. apply in_map_iff in Hr.
    destruct Hr as ([s d] & <- & Hin). simpl.
    apply details_of_In in Hin. destruct Hin as [_ Hrec].
    now apply recorded_exclude in Hrec.
Qed.

(** On the worked example [optimize_basket] records supermarket B, which
    misses Bread, with missing count 1, total 1.20 and no penalty flag,
    and ranks it with that total. *)
Lemma C6_exclude_total_witness :
  exists df det d row,
    optimize_basket stable_kind example_basket example_matrix false "exclude"
    = Ok (df, det)
    /\ In ("B"%string, d) det
    /\ missing_products d = 1%Z
    /\ has_penalty d = false
    /\ feq (total d) (Fin 1.20)
    /\ In row df
    /\ supermarket row = "B"%string
    /\ feq (total_price row) (Fin 1.20).
Proof.
  destruct (C6_exclude_total stable_kind example_basket example_matrix false)
    as (df & det & Hrun & Hall & Hentry & Hrow & _).
  destruct (Hall "B"%string) as [d Hd];
    [vm_compute; tauto|vm_compute; discriminate|now left|].
  destruct (Hentry _ _ Hd) as (_ & _ & _ & Hm & Hp & Ht).
  destruct (Hrow _ _ Hd) as (row & Hin & Hs & Hprice & _).
  assert (Htotal : feq (total d) (Fin 1.20)).
  { rewrite Ht. vm_compute. reflexivity. }
  exists df, det, d, row.
  split; [exact Hrun|]. split; [exact Hd|].
  split; [rewrite Hm; reflexivity|].
  split; [exact Hp|].
  split; [exact Htotal|].
  split; [exact Hin|]. split; [exact Hs|]. now rewrite Hprice.
Defined.

(** ** C7: a penalty never lowers a total *)

Lemma penalty_nonneg (z : Z) (x : Q) : (0 < z)%Z -> 0 <= x -> 0 <= inject_Z z * x.
Proof.
  intros Hz Hx. apply Qmult_le_0_compat; [|exact Hx].
  rewrite <- (Zle_Qle 0). lia.
Qed.

Lemma recorded_missing_oc pl m oc pm s d :
  recorded pl m oc pm s = Some d -> (0 < missing_products d)%Z -> oc = false.
Proof.
  intros Hrec Hmiss.
  destruct (recorded_counts _ _ _ _ _ _ Hrec) as (_ & Em & _ & Hoc).
  destruct oc; [|reflexivity]. specialize (Hoc eq_refl). lia.
Qed.

(** C7.  On a matrix whose defined cells are non-negative, the three
    methods all return, and a supermarket recorded with missing products
    has, under [average] and under [highest], a finite total that is at
    least its total under [exclude]. *)
Theorem C7_penalty_totals_dominate_exclude (kind : sort_kind)
  (pl : list string) (m : DataFrame) (oc : bool) :
  nonnegative m ->
  exists df_e det_e df_a det_a df_h det_h,
    optimize_basket kind pl m oc "exclude" = Ok (df_e, det_e)
    /\ optimize_basket kind pl m oc "average" = Ok (df_a, det_a)
    /\ optimize_basket kind pl m oc "highest" = Ok (df_h, det_h)
    /\ forall s d_e d_a d_h,
         In (s, d_e) det_e -> In (s, d_a) det_a -> In (s, d_h) det_h ->
         (0 < missing_products d_e)%Z ->
         exists e a h,
           total d_e = Fin e /\ total d_a = Fin a /\ total d_h = Fin h
           /\ e <= a /\ e <= h.
Proof.
  intros Hnn.
  exists (ranking kind (details_of pl m oc "exclude")).
  exists (details_of pl m oc "exclude").
  exists (ranking kind (details_of pl m oc "average")).
  exists (details_of pl m oc "average").
  exists (ranking kind (details_of pl m oc "highest")).
  exists (details_of pl m oc "highest").
  repeat (split; [apply optimize_basket_eq|]).
  intros s d_e d_a d_h He Ha Hh Hmiss.
  apply details_of_In in He, Ha, Hh.
  destruct He as [Hs He], Ha as [_ Ha], Hh as [_ Hh].
  assert (Hoc : oc = false) by exact (recorded_missing_oc _ _ _ _ _ _ He Hmiss).
  subst oc.
  assert (Hma : (0 < missing_products d_a)%Z).
  { apply recorded_counts in Ha as (_ & -> & _).
    now apply recorded_counts in He as (_ & <- & _). }
  assert (Hmh : (0 < missing_products d_h)%Z).
  { apply recorded_counts in Hh as (_ & -> & _).
    now apply recorded_counts in He as (_ & <- & _). }
  apply recorded_exclude in He. destruct He as [_ He].
  pose proof (recorded_average _ _ _ _ Hs Ha Hma) as Hta.
  destruct (recorded_highest _ _ _ _ Hs Hh Hmh) as (mx & [Hin _] & Hth).
  do 3 eexists. split; [exact He|]. split; [exact Hta|]. split; [exact Hth|].
  pose proof (nonnegative_loc _ (isin pl) Hnn) as Hnn'.
  assert (0 <= mean_of_column_means (loc m (isin pl)))
    by now apply mean_of_column_means_nonneg.
  assert (0 <= mx).
  { apply flat_defined_In in Hin. destruct Hin as (c & Hc & Hq).
    exact (Hnn' c Hc mx Hq). }
  pose proof (penalty_nonneg _ _ Hma H).
  pose proof (penalty_nonneg _ _ Hmh H0).
  split; lra.
Qed.

(** On the worked example supermarket B has totals 1.20, 2.55 and 3.20
    under the three methods. *)
Lemma C7_penalty_totals_dominate_exclude_witness :
  nonnegative example_matrix
  /\ exists d_e d_a d_h e a h,
       In ("B"%string, d_e)
          (details_of example_basket example_matrix false "exclude")
       /\ In ("B"%string, d_a)
             (details_of example_basket example_matrix false "average")
       /\ In ("B"%string, d_h)
             (details_of example_basket example_matrix false "highest")
       /\ total d_e = Fin e /\ total d_a = Fin a /\ total d_h = Fin h
       /\ e <= a /\ e <= h.
Proof.
  assert (Hnn : nonnegative example_matrix).
  { intros c Hc q Hq. vm_compute in Hc.
    destruct Hc as [<-|[<-|[]]]; vm_compute in Hq;
      repeat (destruct Hq as [<-|Hq]; [vm_compute; discriminate|]);
      contradiction. }
  split; [exact Hnn|].
  destruct (C7_penalty_totals_dominate_exclude
              stable_kind example_basket example_matrix false Hnn)
    as (df_e & det_e & df_a & det_a & df_h & det_h & He & Ha & Hh & Hall).
  rewrite optimize_basket_eq in He, Ha, Hh.
  injection He as _ <-. injection Ha as _ <-. injection Hh as _ <-.
  do 3 eexists.
  match goal with
  | |- exists e a h, In (_, ?de) _ /\ In (_, ?da) _ /\ In (_, ?dh) _ /\ _ =>
      destruct (Hall "B"%string de da dh) as (e & a & h & H1 & H2 & H3 & H4 & H5)
  end.
  5: { exists e, a, h. repeat split; try eassumption.
       all: vm_compute; right; left; reflexivity. }
  all: try (vm_compute; right; left; reflexivity).
  reflexivity.
Defined.

(** ** C9 and C10: how products are counted *)

Lemma isin_In pl k : isin pl k = true <-> In k pl.
Proof.
  unfold isin. rewrite existsb_exists. split.
  - intros (x & Hx & E). apply String.eqb_eq in E. now subst.
  - intros H. exists k. split; [exact H|apply String.eqb_refl].
Qed.

Lemma isin_insert pl1 p pl2 k :
  k <> p \/ In p (pl1 ++ pl2) ->
  isin (pl1 ++ p :: pl2) k = isin (pl1 ++ pl2) k.
Proof.
  intros H. apply Bool.eq_iff_eq_true. rewrite !isin_In, !in_app_iff. simpl.
  split; [|tauto].
  intros [?|[E|?]]; [tauto| |tauto]. subst k.
  destruct H as [H|H]; [congruence|]. now apply in_app_iff in H.
Qed.

Lemma series_loc_ext mask1 mask2 col :
  (forall k, In k (map fst col) -> mask1 k = mask2 k) ->
  series_loc mask1 col = series_loc mask2 col.
Proof.
  intros H. unfold series_loc. apply filter_ext_in.
  intros kv Hkv. apply H. now apply in_map.
Qed.

Lemma len_insert (pl1 : list string) p pl2 :
  len (pl1 ++ p :: pl2) = (len (pl1 ++ pl2) + 1)%Z.
Proof.
  unfold len. rewrite !length_app. simpl. lia.
Qed.

(** A product that labels no row of the matrix selects no further row. *)
Lemma selected_insert_unknown pl1 p pl2 m s :
  In s (columns m) ->
  (forall c, In c m -> ~ In p (map fst (snd c))) ->
  series_loc (isin (pl1 ++ p :: pl2)) (column m s)
  = series_loc (isin (pl1 ++ pl2)) (column m s).
Proof.
  intros Hs Hp. apply series_loc_ext. intros k Hk.
  apply isin_insert. left. intros ->.
  exact (Hp _ (column_In m s Hs) Hk).
Qed.

(** A product that is already in the basket selects no further row. *)
Lemma selected_insert_duplicate pl1 p pl2 col :
  In p (pl1 ++ pl2) ->
  series_loc (isin (pl1 ++ p :: pl2)) col = series_loc (isin (pl1 ++ pl2)) col.
Proof.
  intros Hp. apply series_loc_ext. intros k _.
  apply isin_insert. now right.
Qed.

Lemma ranking_row_In kind det r :
  In r (ranking kind det) ->
  exists s d, In (s, d) det
              /\ supermarket r = s
              /\ total_price r = total d
              /\ row_available_products r = available_products d
              /\ row_missing_products r = missing_products d.
Proof.
  intros Hr.
  apply (Permutation_in _ (Permutation_sym (ranking_perm kind det))) in Hr.
  unfold results_frame in Hr. apply in_map_iff in Hr.
  destruct Hr as ([s d] & <- & Hin). exists s, d. simpl. tauto.
Qed.

(** C9.  [optimize_basket] returns for every input; it records every
    supermarket that has a price on the selected rows and is not dropped
    for missing a product; every recorded supermarket has as available
    count its number of defined prices on the rows the basket selects and
    as missing count the length of the basket minus that number, in the
    dictionary and in the ranked frame.  A basket entry that labels no row
    of the matrix changes no available count and adds one to every missing
    count: with [only_complete] off every supermarket with a price on the
    rows of the other entries is still recorded, with those counts. *)
Theorem C9_missing_count :
  (forall (kind : sort_kind) (pl : list string) (m : DataFrame) (oc : bool)
          (pm : string),
    exists df det,
      optimize_basket kind pl m oc pm = Ok (df, det)
      /\ (forall s, In s (columns m) -> basket_prices pl m s <> [] ->
          oc = false \/ (len pl - len (basket_prices pl m s) <= 0)%Z ->
          exists d, In (s, d) det)
      /\ (forall s d, In (s, d) det ->
          available_products d = len (basket_prices pl m s)
          /\ missing_products d = (len pl - len (basket_prices pl m s))%Z)
      /\ (forall s d, In (s, d) det ->
          exists row, In row df
                      /\ supermarket row = s
                      /\ row_missing_products row = missing_products d)
      /\ (forall r, In r df ->
          row_missing_products r
          = (len pl - len (basket_prices pl m (supermarket r)))%Z))
  /\ (forall (kind : sort_kind) (pl1 : list string) (p : string)
             (pl2 : list string) (m : DataFrame) (oc : bool) (pm : string),
      (forall c, In c m -> ~ In p (map fst (snd c))) ->
      exists df det,
        optimize_basket kind (pl1 ++ p :: pl2) m oc pm = Ok (df, det)
        /\ (forall s, In s (columns m) ->
            basket_prices (pl1 ++ pl2) m s <> [] -> oc = false ->
            exists d, In (s, d) det)
        /\ forall s d, In (s, d) det ->
             available_products d = len (basket_prices (pl1 ++ pl2) m s)
             /\ missing_products d
                = (len (pl1 ++ pl2) - len (basket_prices (pl1 ++ pl2) m s)
                   + 1)%Z).
Proof.
  split.
  - intros kind pl m oc pm.
    exists (ranking kind (details_of pl m oc pm)), (details_of pl m oc pm).
    split; [apply optimize_basket_eq|]. split; [|split; [|split]].
    + intros s Hs Hne Hoc.
      destruct (proj2 (recorded_Some_iff pl m oc pm s)) as [d Hd];
        [now split|].
      exists d. apply details_of_In. now split.
    + intros s d Hin. apply details_of_In in Hin. destruct Hin as [_ Hrec].
      apply recorded_counts in Hrec as (Ha & Hm & _). now split.
    + intros s d Hin.
      destruct (details_row_in_ranking kind _ s d Hin)
        as (row & Hrow & Hs & _ & Hm).
      exists row. now repeat split.
    + intros r Hr. apply ranking_row_In in Hr.
      destruct Hr as (s & d & Hin & -> & _ & _ & ->).
      apply details_of_In in Hin. destruct Hin as [_ Hrec].
      now apply recorded_counts in Hrec as (_ & Hm & _).
  - intros kind pl1 p pl2 m oc pm Hp.
    exists (ranking kind (details_of (pl1 ++ p :: pl2) m oc pm)).
    exists (details_of (pl1 ++ p :: pl2) m oc pm).
    split; [apply optimize_basket_eq|]. split.
    + intros s Hs Hne ->.
      destruct (recorded_exists (pl1 ++ p :: pl2) m pm s) as [d Hd].
      { unfold basket_prices in *.
        now rewrite (selected_insert_unknown pl1 p pl2 m s Hs Hp). }
      exists d. apply details_of_In. now split.
    + intros s d Hin. apply details_of_In in Hin. destruct Hin as [Hs Hrec].
      apply recorded_counts in Hrec as (Ha & Hm & _).
      unfold missing_count, basket_prices in *.
      rewrite (selected_insert_unknown pl1 p pl2 m s Hs Hp) in Ha, Hm.
      rewrite len_insert in Hm. split; [exact Ha|]. rewrite Hm. lia.
Qed.

(** Eggs is in no row of the worked example: with the basket Milk, Eggs,
    Bread, [optimize_basket] still records supermarket A with two
    available products, and one missing. *)
Lemma C9_missing_count_witness :
  exists df det d,
    optimize_basket stable_kind ["Milk"; "Eggs"; "Bread"]%string
                    example_matrix false "exclude"
    = Ok (df, det)
    /\ In ("A"%string, d) det
    /\ available_products d = 2%Z
    /\ missing_products d = 1%Z.
Proof.
  destruct C9_missing_count as [_ Hunknown].
  destruct (Hunknown stable_kind ["Milk"%string] "Eggs"%string
                     ["Bread"%string] example_matrix false "exclude"%string)
    as (df & det & Hrun & Hex & Hall).
  { intros c Hc. vm_compute in Hc.
    destruct Hc as [<-|[<-|[]]]; vm_compute;
      intros H; repeat (destruct H as [H|H]; [discriminate|]); exact H. }
  destruct (Hex "A"%string) as [d Hd];
    [vm_compute; tauto|vm_compute; discriminate|reflexivity|].
  destruct (Hall _ _ Hd) as [Ha Hm].
  exists df, det, d.
  split; [exact Hrun|]. split; [exact Hd|].
  split; [rewrite Ha|rewrite Hm]; reflexivity.
Defined.

Lemma recorded_insert_duplicate pl1 p pl2 m oc pm s d' :
  In p (pl1 ++ pl2) ->
  recorded (pl1 ++ p :: pl2) m oc pm s = Some d' ->
  basket_prices (pl1 ++ p :: pl2) m s = basket_prices (pl1 ++ pl2) m s
  /\ missing_products d' = (missing_count (pl1 ++ pl2) m s + 1)%Z
  /\ exists d,
       recorded (pl1 ++ pl2) m oc pm s = Some d
       /\ available_products d' = available_products d
       /\ missing_products d' = (missing_products d + 1)%Z
       /\ products d' = products d
       /\ (pm = "exclude"%string -> total d' = total d).
Proof.
  intros Hp Hrec.
  assert (Eprices : basket_prices (pl1 ++ p :: pl2) m s
                    = basket_prices (pl1 ++ pl2) m s).
  { unfold basket_prices. now rewrite selected_insert_duplicate. }
  assert (Emiss : missing_count (pl1 ++ p :: pl2) m s
                  = (missing_count (pl1 ++ pl2) m s + 1)%Z).
  { unfold missing_count. rewrite Eprices, len_insert. lia. }
  destruct (recorded_counts _ _ _ _ _ _ Hrec) as (Ha & Hm & Hpos & Hoc).
  rewrite Eprices in Ha, Hpos. rewrite Emiss in Hm, Hoc.
  split; [exact Eprices|]. split; [exact Hm|].
  assert (Hcond : oc && (0 <? missing_count (pl1 ++ pl2) m s)%Z = false).
  { destruct oc; [|reflexivity]. simpl. apply Z.ltb_ge.
    specialize (Hoc eq_refl). lia. }
  assert (Hlen : (0 <? len (basket_prices (pl1 ++ pl2) m s))%Z = true)
    by now apply Z.ltb_lt.
  rewrite recorded_eq. cbv zeta. rewrite Hcond, Hlen.
  eexists. split; [reflexivity|]. simpl.
  split; [exact Ha|]. split; [exact Hm|]. split.
  - rewrite recorded_eq in Hrec. cbv zeta in Hrec.
    destruct (oc && _); [discriminate|].
    destruct (0 <? len _)%Z; [|discriminate].
    injection Hrec as <-. simpl. now rewrite selected_insert_duplicate.
  - intros ->. apply recorded_exclude in Hrec. destruct Hrec as [_ ->].
    rewrite Eprices. simpl. now rewrite !andb_false_r.
Qed.

(** C10.  Inserting into a basket a product it already contains leaves the
    defined prices of every supermarket on the selected rows unchanged.
    With [only_complete] off every supermarket with a price on the
    selected rows is recorded for the longer basket, whether or not it
    sells the repeated product; and every supermarket recorded for the
    longer basket is recorded for the shorter one with the same available
    count, the same prices per product, and a missing count smaller by
    one; under [exclude] its total is the same, the sum of its defined
    prices with the repeated product counted once. *)
Theorem C10_duplicate_inflates_missing (kind : sort_kind) (pl1 : list string)
  (p : string) (pl2 : list string) (m : DataFrame) (oc : bool) (pm : string) :
  In p (pl1 ++ pl2) ->
  exists df det df' det',
    optimize_basket kind (pl1 ++ pl2) m oc pm = Ok (df, det)
    /\ optimize_basket kind (pl1 ++ p :: pl2) m oc pm = Ok (df', det')
    /\ (forall s, In s (columns m) ->
        basket_prices (pl1 ++ pl2) m s <> [] -> oc = false ->
        exists d', In (s, d') det')
    /\ forall s d', In (s, d') det' ->
         basket_prices (pl1 ++ p :: pl2) m s = basket_prices (pl1 ++ pl2) m s
         /\ available_products d' = len (basket_prices (pl1 ++ pl2) m s)
         /\ missing_products d' = (missing_count (pl1 ++ pl2) m s + 1)%Z
         /\ (pm = "exclude"%string ->
             total d' = Fin (Qsum (basket_prices (pl1 ++ pl2) m s)))
         /\ exists d,
              In (s, d) det
              /\ available_products d' = available_products d
              /\ missing_products d' = (missing_products d + 1)%Z
              /\ products d' = products d
              /\ (pm = "exclude"%string -> total d' = total d).
Proof.
  intros Hp.
  exists (ranking kind (details_of (pl1 ++ pl2) m oc pm)).
  exists (details_of (pl1 ++ pl2) m oc pm).
  exists (ranking kind (details_of (pl1 ++ p :: pl2) m oc pm)).
  exists (details_of (pl1 ++ p :: pl2) m oc pm).
  split; [apply optimize_basket_eq|]. split; [apply optimize_basket_eq|].
  split.
  - intros s Hs Hne ->.
    destruct (recorded_exists (pl1 ++ p :: pl2) m pm s) as [d' Hd'].
    { unfold basket_prices in *. now rewrite selected_insert_duplicate. }
    exists d'. apply details_of_In. now split.
  - intros s d' Hin. apply details_of_In in Hin. destruct Hin as [Hs Hrec].
    destruct (recorded_insert_duplicate _ _ _ _ _ _ _ _ Hp Hrec)
      as (E1 & E2 & d & Hd & Hrest).
    split; [exact E1|].
    split.
    { apply recorded_counts in Hrec as (Ha & _). now rewrite Ha, E1. }
    split; [exact E2|].
    split.
    { intros ->. apply recorded_exclude in Hrec as [_ Ht]. now rewrite Ht, E1. }
    exists d. split; [|exact Hrest]. apply details_of_In. now split.
Qed.

(** Supermarket A of the worked example sells Milk, yet for the basket
    Milk, Milk [optimize_basket] records it with one available and one
    missing product, and with the price of Milk counted once. *)
Lemma C10_duplicate_inflates_missing_witness :
  exists df det df' det' d',
    optimize_basket stable_kind ["Milk"]%string example_matrix false "exclude"
    = Ok (df, det)
    /\ optimize_basket stable_kind ["Milk"; "Milk"]%string example_matrix
                       false "exclude"
       = Ok (df', det')
    /\ In ("A"%string, d') det'
    /\ available_products d' = 1%Z
    /\ missing_products d' = 1%Z
    /\ feq (total d') (Fin 1.00).
Proof.
  destruct (C10_duplicate_inflates_missing
              stable_kind ["Milk"%string] "Milk"%string [] example_matrix
              false "exclude"%string)
    as (df & det & df' & det' & Hrun & Hrun' & Hex & Hall).
  { simpl. now left. }
  destruct (Hex "A"%string) as [d' Hd'];
    [vm_compute; tauto|vm_compute; discriminate|reflexivity|].
  destruct (Hall _ _ Hd') as (_ & Ha & Hm & Ht & _).
  exists df, det, df', det', d'.
  split; [exact Hrun|]. split; [exact Hrun'|]. split; [exact Hd'|].
  split; [rewrite Ha; reflexivity|].
  split; [rewrite Hm; reflexivity|].
  rewrite (Ht eq_refl). vm_compute. reflexivity.
Defined.

(** ** C5: complete supermarkets only *)

Lemma NoDup_labels_filter (f : string * float -> bool) (col : Series) :
  NoDup (map fst col) -> NoDup (map fst (filter f col)).
Proof.
  induction col as [|kv rest IH]; simpl; intros H; [constructor|].
  inversion H as [|? ? Hnotin Hrest]; subst.
  destruct (f kv); simpl; [|now apply IH].
  constructor; [|now apply IH].
  intros Hin. apply Hnotin.
  apply in_map_iff in Hin. destruct Hin as (x & E & Hx).
  apply filter_In in Hx. apply in_map_iff. exists x. tauto.
Qed.

Lemma length_defined_labels (col : Series) :
  List.length (defined col) = List.length (map fst (dropna col)).
Proof.
  now rewrite length_map, length_dropna.
Qed.

(** A supermarket that misses nothing, in a matrix with unique product
    labels, prices every product of the basket. *)
Lemma complete_has_all pl m s :
  unique_products m -> In s (columns m) ->
  (missing_count pl m s <= 0)%Z ->
  missing_count pl m s = 0%Z
  /\ forall p, In p pl -> exists q, In (p, Fin q) (column m s).
Proof.
  intros Huniq Hs Hmiss.
  pose (labels := map fst (dropna (series_loc (isin pl) (column m s)))).
  assert (Hnd : NoDup labels).
  { unfold labels, dropna, series_loc.
    do 2 apply NoDup_labels_filter.
    exact (Huniq _ (column_In m s Hs)). }
  assert (Hincl : incl labels pl).
  { intros k Hk. unfold labels in Hk. apply in_map_iff in Hk.
    destruct Hk as ([k' v] & <- & Hkv). unfold dropna in Hkv.
    apply filter_In in Hkv. destruct Hkv as [Hkv _].
    unfold series_loc in Hkv. apply filter_In in Hkv.
    destruct Hkv as [_ Hmask]. now apply isin_In in Hmask. }
  assert (Hlen : List.length (basket_prices pl m s) = List.length labels).
  { unfold basket_prices, labels. apply length_defined_labels. }
  pose proof (NoDup_incl_length Hnd Hincl) as Hle.
  unfold missing_count, len in *. rewrite Hlen in *.
  split; [lia|].
  assert (Hall : incl pl labels).
  { apply NoDup_length_incl; [exact Hnd|lia|exact Hincl]. }
  intros p Hp. apply Hall in Hp. unfold labels in Hp.
  apply in_map_iff in Hp. destruct Hp as ([k v] & E & Hkv). simpl in E. subst k.
  unfold dropna in Hkv. apply filter_In in Hkv. destruct Hkv as [Hkv Hv].
  unfold series_loc in Hkv. apply filter_In in Hkv. destruct Hkv as [Hkv _].
  destruct v as [|q]; [discriminate|]. eauto.
Qed.

(** C5.  On a matrix whose product labels are unique, with [only_complete]
    on and whatever the penalty method, [optimize_basket] returns, and every
    recorded supermarket has missing count 0 and a defined price for every
    product of the basket; every row of the ranked frame has missing count
    0 too. *)
Theorem C5_only_complete (kind : sort_kind) (pl : list string) (m : DataFrame)
  (pm : string) :
  unique_products m ->
  exists df det,
    optimize_basket kind pl m true pm = Ok (df, det)
    /\ (forall s d, In (s, d) det ->
        missing_products d = 0%Z
        /\ forall p, In p pl -> exists q, In (p, Fin q) (column m s))
    /\ (forall r, In r df -> row_missing_products r = 0%Z).
Proof.
  intros Huniq.
  assert (Hdet : forall s d, In (s, d) (details_of pl m true pm) ->
                 missing_products d = 0%Z
                 /\ forall p, In p pl -> exists q, In (p, Fin q) (column m s)).
  { intros s d Hin. apply details_of_In in Hin. destruct Hin as [Hs Hrec].
    apply recorded_counts in Hrec as (_ & -> & _ & Hoc).
    apply complete_has_all; auto. }
  exists (ranking kind (details_of pl m true pm)), (details_of pl m true pm).
  split; [apply optimize_basket_eq|]. split; [exact Hdet|].
  intros r Hr. apply ranking_row_In in Hr.
  destruct Hr as (s & d & Hin & _ & _ & _ & ->).
  now apply Hdet in Hin.
Qed.

Lemma example_matrix_unique : unique_products example_matrix.
Proof.
  intros c Hc. vm_compute in Hc. destruct Hc as [<-|[<-|[]]]; simpl;
    repeat constructor; simpl; intuition discriminate.
Qed.

(** On the worked example only supermarket A qualifies, with total 3.00
    and nothing missing. *)
Lemma C5_only_complete_witness :
  unique_products example_matrix
  /\ exists d,
       details_of example_basket example_matrix true "exclude"
       = [("A"%string, d)]
       /\ missing_products d = 0%Z
       /\ feq (total d) (Fin 3.00).
Proof.
  split; [exact example_matrix_unique|].
  destruct (C5_only_complete stable_kind example_basket example_matrix
                             "exclude"%string example_matrix_unique)
    as (df & det & Hrun & Hall & _).
  rewrite optimize_basket_eq in Hrun. injection Hrun as _ <-.
  eexists. split; [vm_compute; reflexivity|].
  match goal with
  | |- missing_products ?d = _ /\ _ =>
      destruct (Hall "A"%string d) as [Hm _]; [vm_compute; left; reflexivity|]
  end.
  split; [exact Hm|]. vm_compute. reflexivity.
Defined.

(** Without unique product labels a count can go below zero: with two rows
    labelled Milk and the basket Milk, supermarket A is recorded, under
    [only_complete], with two available products and -1 missing. *)
Example duplicate_row_negative_missing :
  exists d,
    details_of ["Milk"]%string
               [("A", [("Milk", Fin 1.00); ("Milk", Fin 1.10)])]%string
               true "exclude"
    = [("A"%string, d)]
    /\ available_products d = 2%Z
    /\ missing_products d = (-1)%Z.
Proof.
  eexists. split; [vm_compute; reflexivity|]. split; reflexivity.
Qed.

(** ** C8 and C3: inputs that select no price *)

Lemma details_of_nil pl m oc pm :
  (forall s, In s (columns m) -> basket_prices pl m s = []) ->
  details_of pl m oc pm = [].
Proof.
  intros Hnone. destruct (details_of pl m oc pm) as [|[s d] rest] eqn:E;
    [reflexivity|].
  assert (Hin : In (s, d) (details_of pl m oc pm)) by (rewrite E; now left).
  apply details_of_In in Hin. destruct Hin as [Hs Hrec].
  apply recorded_counts in Hrec as (_ & _ & Hpos & _).
  rewrite (Hnone s Hs) in Hpos. unfold len in Hpos. simpl in Hpos. lia.
Qed.

Lemma optimize_basket_nil kind pl m oc pm :
  (forall s, In s (columns m) -> basket_prices pl m s = []) ->
  optimize_basket kind pl m oc pm = Ok ([], []).
Proof.
  intros Hnone. rewrite optimize_basket_eq.
  now rewrite (details_of_nil pl m oc pm Hnone).
Qed.

Lemma filter_none {A : Type} (f : A -> bool) (l : list A) :
  (forall x, In x l -> f x = false) -> filter f l = [].
Proof.
  induction l as [|x rest IH]; simpl; intros H; [reflexivity|].
  rewrite (H x (or_introl eq_refl)). apply IH.
  intros y Hy. apply H. now right.
Qed.

Lemma no_row_matches_prices pl m s :
  no_row_matches pl m -> In s (columns m) -> basket_prices pl m s = [].
Proof.
  intros Hno Hs. unfold basket_prices, series_loc.
  rewrite filter_none; [reflexivity|].
  intros kv Hkv. destruct (isin pl (fst kv)) eqn:Ek; [|reflexivity].
  apply isin_In in Ek. exfalso.
  apply (Hno (fst kv) (s, column m s) Ek (column_In m s Hs)).
  simpl. now apply in_map.
Qed.

(** C8.  For every matrix, sorting algorithm, [only_complete] and penalty
    method, [optimize_basket] on an empty basket, or on a basket none of
    whose products labels a row of the matrix, returns the empty frame and
    the empty dictionary; it does not raise. *)
Theorem C8_no_match_empty_result :
  (forall (kind : sort_kind) (m : DataFrame) (oc : bool) (pm : string),
    optimize_basket kind [] m oc pm = Ok ([], []))
  /\ (forall (kind : sort_kind) (pl : list string) (m : DataFrame) (oc : bool)
             (pm : string),
      no_row_matches pl m -> optimize_basket kind pl m oc pm = Ok ([], [])).
Proof.
  assert (H : forall kind pl m oc pm,
             no_row_matches pl m -> optimize_basket kind pl m oc pm = Ok ([], [])).
  { intros kind pl m oc pm Hno. apply optimize_basket_nil.
    intros s Hs. now apply no_row_matches_prices. }
  split; [|exact H].
  intros kind m oc pm. apply H. intros p c [].
Qed.

(** Eggs labels no row of the worked example. *)
Lemma C8_no_match_empty_result_witness :
  no_row_matches ["Eggs"]%string example_matrix
  /\ optimize_basket stable_kind ["Eggs"]%string example_matrix false "average"
     = Ok ([], [])
  /\ optimize_basket stable_kind [] example_matrix true "exclude" = Ok ([], []).
Proof.
  assert (Hno : no_row_matches ["Eggs"]%string example_matrix).
  { intros p c [<-|[]] Hc. vm_compute in Hc.
    destruct Hc as [<-|[<-|[]]]; vm_compute;
      intros H; repeat (destruct H as [H|H]; [discriminate|]); exact H. }
  destruct C8_no_match_empty_result as [Hempty Hnone].
  split; [exact Hno|]. split; [now apply Hnone|apply Hempty].
Defined.

(** C3, as stated, fails: Milk is a row of [unpriced_matrix] with no
    defined cell, and with [only_complete] off both the [average] and the
    [highest] method return normally, with the very result of an empty
    basket; no exception is raised. *)
Lemma C3_no_signal_counterexample :
  flat_defined (loc unpriced_matrix (isin ["Milk"%string])) = []
  /\ optimize_basket stable_kind ["Milk"%string] unpriced_matrix false "average"
     = Ok ([], [])
  /\ optimize_basket stable_kind ["Milk"%string] unpriced_matrix false "highest"
     = Ok ([], [])
  /\ optimize_basket stable_kind [] unpriced_matrix false "average"
     = Ok ([], [])
  /\ forall e,
       optimize_basket stable_kind ["Milk"%string] unpriced_matrix false
                       "average"
       <> Raise e.
Proof.
  repeat split; try (vm_compute; reflexivity).
  intros e. vm_compute. discriminate.
Qed.

(** C3 (amended).  With [only_complete] off and the [average] or the
    [highest] method, when the rows the basket selects hold no defined
    cell, [optimize_basket] signals nothing: it returns, without raising,
    the empty frame and the empty dictionary, which is what it returns for
    an empty basket; no supermarket is recorded, so no total is computed
    from the undefined penalty base. *)
Theorem C3_no_price_data_empty_result (kind : sort_kind) (pl : list string)
  (m : DataFrame) (pm : string) :
  pm = "average"%string \/ pm = "highest"%string ->
  flat_defined (loc m (isin pl)) = [] ->
  optimize_basket kind pl m false pm = Ok ([], [])
  /\ optimize_basket kind pl m false pm = optimize_basket kind [] m false pm
  /\ forall e, optimize_basket kind pl m false pm <> Raise e.
Proof.
  intros _ Hflat.
  assert (H : optimize_basket kind pl m false pm = Ok ([], [])).
  { apply optimize_basket_nil. intros s Hs.
    destruct (basket_prices pl m s) as [|q l] eqn:E; [reflexivity|].
    assert (Hq : In q (flat_defined (loc m (isin pl)))).
    { apply flat_defined_In. exists (s, series_loc (isin pl) (column m s)).
      split; [now apply loc_In|]. simpl.
      unfold basket_prices in E. rewrite E. now left. }
    rewrite Hflat in Hq. contradiction. }
  split; [exact H|]. split.
  - rewrite H. symmetry.
    apply optimize_basket_nil. intros s Hs.
    apply no_row_matches_prices; [|exact Hs]. intros p c [].
  - intros e. rewrite H. discriminate.
Qed.

(** Nobody prices Milk in [unpriced_matrix]: under [highest] the optimiser
    returns the empty result, as for the empty basket. *)
Lemma C3_no_price_data_empty_result_witness :
  optimize_basket stable_kind ["Milk"%string] unpriced_matrix false "highest"
  = Ok ([], [])
  /\ optimize_basket stable_kind ["Milk"%string] unpriced_matrix false
                     "highest"
     = optimize_basket stable_kind [] unpriced_matrix false "highest".
Proof.
  destruct (C3_no_price_data_empty_result
              stable_kind ["Milk"%string] unpriced_matrix "highest"%string)
    as (Hrun & Hsame & _); [now right|reflexivity|].
  split; [exact Hrun|exact Hsame].
Defined.

(** With exact prices, a recorded total is never NaN: the penalty base is
    only used for a supermarket that has a price on the selected rows, and
    then it is defined.  (Overflow to an infinite float is outside the
    embedding.) *)
Lemma recorded_total_finite pl m oc pm s d :
  In s (columns m) -> recorded pl m oc pm s = Some d ->
  exists q, total d = Fin q.
Proof.
  intros Hs Hrec.
  destruct (recorded_counts _ _ _ _ _ _ Hrec) as (_ & _ & Hpos & _).
  apply len_pos_nonempty in Hpos.
  destruct (highest_base_defined pl m s Hs Hpos) as (mx & Emx & _).
  rewrite recorded_eq in Hrec. cbv zeta in Hrec.
  destruct (oc && _); [discriminate|].
  destruct (0 <? len _)%Z; [|discriminate].
  injection Hrec as <-. simpl.
  rewrite (average_base_defined pl m s Hs Hpos), Emx.
  destruct (_ && String.eqb pm "average"); [simpl; eauto|].
  destruct (_ && String.eqb pm "highest"); simpl; eauto.
Qed.

(** ** C2: the ranking *)


(** *** Ties under a stable sort

    What the claim says of ties would hold had the code asked for a stable
    sort: the dictionary is filled in column order and a stable sort keeps
    rows of equal total in the order it received them. *)

Lemma precedes_In {A : Type} (a b : A) l : precedes a b l -> In a l /\ In b l.
Proof.
  induction 1 as [l Hb|x l _ [Ha Hb]]; simpl; auto.
Qed.

Lemma precedes_nth {A : Type} (l : list A) i j a b :
  (i < j)%nat -> nth_error l i = Some a -> nth_error l j = Some b ->
  precedes a b l.
Proof.
  revert i j. induction l as [|x rest IH]; intros i j Hij Hi Hj.
  - destruct i; discriminate.
  - destruct j as [|j]; [lia|]. simpl in Hj. destruct i as [|i]; simpl in Hi.
    + injection Hi as ->. constructor. eapply nth_error_In, Hj.
    + apply precedes_later. apply (IH i j); [lia|assumption|assumption].
Qed.

Lemma precedes_filter {A : Type} (P : A -> bool) (a b : A) l :
  precedes a b l -> P a = true -> P b = true -> precedes a b (filter P l).
Proof.
  intros H Ha Hb. induction H as [l Hin|x l _ IH]; simpl.
  - rewrite Ha. constructor. apply filter_In. now split.
  - destruct (P x); [now apply precedes_later|exact IH].
Qed.

Lemma precedes_filter_inv {A : Type} (P : A -> bool) (a b : A) l :
  precedes a b (filter P l) -> precedes a b l.
Proof.
  induction l as [|x rest IH]; simpl; intros H; [inversion H|].
  destruct (P x).
  - inversion H as [l' Hin|x' l' Hp]; subst.
    + constructor. now apply filter_In in Hin.
    + apply precedes_later. now apply IH.
  - apply precedes_later. now apply IH.
Qed.

Lemma precedes_map {A B : Type} (f : A -> B) (a b : A) l :
  precedes a b l -> precedes (f a) (f b) (map f l).
Proof.
  induction 1 as [l Hin|x l _ IH]; simpl.
  - constructor. now apply in_map.
  - now apply precedes_later.
Qed.

Lemma position_In cols s : In s cols -> exists n, position cols s = Some n.
Proof.
  induction cols as [|c rest IH]; simpl; [tauto|].
  destruct (String.eqb c s) eqn:E; [eauto|].
  intros [->|H]; [rewrite String.eqb_refl in E; discriminate|].
  destruct (IH H) as [n ->]. simpl. eauto.
Qed.

Lemma precedes_position cols a b :
  NoDup cols -> precedes a b cols ->
  exists pi pj,
    position cols a = Some pi /\ position cols b = Some pj /\ (pi < pj)%nat.
Proof.
  intros Hnd H. induction H as [l Hin|x l Hp IH]; simpl.
  - inversion Hnd as [|? ? Hnotin _]; subst.
    rewrite String.eqb_refl.
    destruct (String.eqb a b) eqn:E.
    + apply String.eqb_eq in E. subst. contradiction.
    + destruct (position_In l b Hin) as [n ->]. simpl.
      exists 0%nat, (S n). repeat split. lia.
  - inversion Hnd as [|? ? Hnotin Hnd']; subst.
    destruct (precedes_In _ _ _ Hp) as [Ha Hb].
    destruct (String.eqb x a) eqn:Ea;
      [apply String.eqb_eq in Ea; subst; contradiction|].
    destruct (String.eqb x b) eqn:Eb;
      [apply String.eqb_eq in Eb; subst; contradiction|].
    destruct (IH Hnd') as (pi & pj & -> & -> & Hlt). simpl.
    exists (S pi), (S pj). repeat split. lia.
Qed.

Lemma dict_set_fresh {V : Type} (k : string) (v : V) (acc : dict V) :
  ~ In k (map fst acc) -> dict_set k v acc = acc ++ [(k, v)].
Proof.
  induction acc as [|[k' v'] rest IH]; simpl; intros H; [reflexivity|].
  destruct (String.eqb k' k) eqn:E.
  - apply String.eqb_eq in E. subst. tauto.
  - rewrite IH; [reflexivity|tauto].
Qed.

Lemma recorded_items_keys pl m oc pm labels :
  map fst (recorded_items pl m oc pm labels)
  = filter (fun s => match recorded pl m oc pm s with
                     | Some _ => true
                     | None => false
                     end) labels.
Proof.
  induction labels as [|x rest IH]; simpl; [reflexivity|].
  destruct (recorded pl m oc pm x); simpl; now rewrite IH.
Qed.

Lemma fold_record_fresh pl m oc pm labels acc :
  NoDup labels ->
  (forall k, In k (map fst acc) -> ~ In k labels) ->
  fold_left (record_step pl m oc pm) labels acc
  = acc ++ recorded_items pl m oc pm labels.
Proof.
  revert acc. induction labels as [|x rest IH]; simpl; intros acc Hnd Hacc.
  - now rewrite app_nil_r.
  - inversion Hnd as [|? ? Hnotin Hnd']; subst.
    unfold record_step at 2.
    destruct (recorded pl m oc pm x) as [d|].
    + rewrite dict_set_fresh by (intros H; apply (Hacc x H); now left).
      rewrite IH; [now rewrite <- app_assoc|exact Hnd'|].
      intros k Hk Hin. rewrite map_app, in_app_iff in Hk. simpl in Hk.
      destruct Hk as [Hk|[<-|[]]]; [|contradiction].
      apply (Hacc k Hk). now right.
    + apply IH; [exact Hnd'|].
      intros k Hk Hin. apply (Hacc k Hk). now right.
Qed.

(** With unique column labels the dictionary lists the recorded
    supermarkets in column order. *)
Lemma details_of_items pl m oc pm :
  NoDup (columns m) ->
  details_of pl m oc pm = recorded_items pl m oc pm (columns m).
Proof.
  intros Hnd. unfold details_of.
  rewrite fold_record_fresh; [reflexivity|exact Hnd|intros k []].
Qed.

Lemma feqb_fleb x y t :
  feqb x t = true -> feqb y t = true -> fleb x y = true.
Proof.
  destruct x, y, t; simpl; try discriminate; trivial.
  intros H1 H2. apply Qeq_bool_iff in H1, H2. apply Qle_bool_iff.
  rewrite H1, H2. apply Qle_refl.
Qed.

Lemma feqb_feq x y : feq x y -> feqb x y = true.
Proof.
  destruct x, y; simpl; trivial; try contradiction.
  apply Qeq_bool_iff.
Qed.

Lemma feq_refl x : feq x x.
Proof.
  destruct x; simpl; [trivial|apply Qeq_refl].
Qed.

(** The stable insertion sort leaves the rows of any given total in the
    order it received them. *)
Lemma insert_row_stable t r l :
  filter (fun x => feqb (total_price x) t) (insert_row fleb r l)
  = filter (fun x => feqb (total_price x) t) (r :: l).
Proof.
  induction l as [|r' rest IH]; [reflexivity|].
  simpl insert_row.
  destruct (fleb (total_price r) (total_price r')) eqn:E; [reflexivity|].
  simpl in *. rewrite IH.
  destruct (feqb (total_price r) t) eqn:Er;
    destruct (feqb (total_price r') t) eqn:Er'; try reflexivity.
  rewrite (feqb_fleb _ _ _ Er Er') in E. discriminate.
Qed.

Lemma insertion_sort_stable t l :
  filter (fun x => feqb (total_price x) t) (insertion_sort fleb l)
  = filter (fun x => feqb (total_price x) t) l.
Proof.
  induction l as [|r rest IH]; [reflexivity|].
  simpl insertion_sort. rewrite insert_row_stable. simpl. now rewrite IH.
Qed.

Lemma ranking_stable det :
  ranking stable_kind det = insertion_sort fleb (results_frame det).
Proof.
  unfold ranking. destruct (results_frame det); reflexivity.
Qed.

Lemma stable_ties_in_column_order pl m oc pm :
  NoDup (columns m) ->
  ties_in_column_order (columns m)
                       (ranking stable_kind (details_of pl m oc pm)).
Proof.
  intros Hnd i j ri rj Hij Hi Hj Heq.
  pose proof (precedes_nth _ _ _ _ _ Hij Hi Hj) as Hp.
  set (P := fun x => feqb (total_price x) (total_price rj)).
  apply (precedes_filter P) in Hp;
    [|now apply feqb_feq|apply feqb_feq, feq_refl].
  rewrite ranking_stable in Hp. unfold P in Hp.
  rewrite insertion_sort_stable in Hp.
  apply precedes_filter_inv in Hp.
  apply (precedes_map supermarket) in Hp.
  unfold results_frame in Hp. rewrite map_map in Hp. simpl in Hp.
  change (map (fun x : string * Details => fst x))
    with (@map _ _ (@fst string Details)) in Hp.
  rewrite details_of_items, recorded_items_keys in Hp by exact Hnd.
  apply precedes_filter_inv in Hp.
  now apply precedes_position.
Qed.



(** * Further properties of [optimize_basket] *)

Lemma details_of_ext pl m oc pm pm' :
  (forall s, recorded pl m oc pm s = recorded pl m oc pm' s) ->
  details_of pl m oc pm = details_of pl m oc pm'.
Proof.
  intros H. unfold details_of. generalize (@nil (string * Details)).
  induction (columns m) as [|x rest IH]; intros acc; simpl; [reflexivity|].
  unfold record_step at 2 4. rewrite H. apply IH.
Qed.

Lemma dict_set_keys_In {V : Type} (k : string) (v : V) (acc : dict V) x :
  In x (map fst (dict_set k v acc)) <-> x = k \/ In x (map fst acc).
Proof.
  induction acc as [|[k' v'] rest IH]; simpl.
  - intuition.
  - destruct (String.eqb k' k) eqn:E; simpl.
    + apply String.eqb_eq in E. subst. intuition.
    + rewrite IH. intuition.
Qed.

Lemma dict_set_NoDup {V : Type} (k : string) (v : V) (acc : dict V) :
  NoDup (map fst acc) -> NoDup (map fst (dict_set k v acc)).
Proof.
  induction acc as [|[k' v'] rest IH]; simpl; intros H.
  - repeat constructor. intros [].
  - inversion H as [|? ? Hnotin Hrest]; subst.
    destruct (String.eqb k' k) eqn:E; simpl.
    + now constructor.
    + constructor; [|now apply IH].
      rewrite dict_set_keys_In. intros [->|Hin]; [|contradiction].
      rewrite String.eqb_refl in E. discriminate.
Qed.

Lemma details_of_NoDup pl m oc pm : NoDup (map fst (details_of pl m oc pm)).
Proof.
  unfold details_of.
  assert (H : NoDup (map fst (@nil (string * Details)))) by constructor.
  revert H. generalize (@nil (string * Details)).
  induction (columns m) as [|x rest IH]; intros acc Hacc; simpl; [exact Hacc|].
  apply IH. unfold record_step.
  destruct (recorded pl m oc pm x); [now apply dict_set_NoDup|exact Hacc].
Qed.

Lemma results_frame_supermarkets det :
  map supermarket (results_frame det) = map fst det.
Proof.
  unfold results_frame. rewrite map_map. reflexivity.
Qed.

(** X2.  Every recorded supermarket has at least one available product,
    and its available and missing counts add up to the length of the
    basket list. *)
Theorem X2_counts_add_up (kind : sort_kind) (pl : list string)
  (m : DataFrame) (oc : bool) (pm : string) :
  exists df det,
    optimize_basket kind pl m oc pm = Ok (df, det)
    /\ (forall s d, In (s, d) det ->
        (0 < available_products d)%Z
        /\ (available_products d + missing_products d = len pl)%Z)
    /\ (forall r, In r df ->
        (0 < row_available_products r)%Z
        /\ (row_available_products r + row_missing_products r = len pl)%Z).
Proof.
  exists (ranking kind (details_of pl m oc pm)), (details_of pl m oc pm).
  split; [apply optimize_basket_eq|].
  assert (Hdet : forall s d, In (s, d) (details_of pl m oc pm) ->
                 (0 < available_products d)%Z
                 /\ (available_products d + missing_products d = len pl)%Z).
  { intros s d Hin. apply details_of_In in Hin. destruct Hin as [_ Hrec].
    apply recorded_counts in Hrec as (-> & -> & Hpos & _).
    unfold missing_count. split; [exact Hpos|lia]. }
  split; [exact Hdet|].
  intros r Hr. apply ranking_row_In in Hr.
  destruct Hr as (s & d & Hin & _ & _ & -> & ->). now apply (Hdet s).
Qed.

(** X3.  The dictionary has one entry per recorded supermarket: its keys
    are pairwise distinct column labels of the matrix, and the ranked frame
    lists exactly these supermarkets, each once. *)
Theorem X3_one_entry_per_supermarket (kind : sort_kind) (pl : list string)
  (m : DataFrame) (oc : bool) (pm : string) :
  exists df det,
    optimize_basket kind pl m oc pm = Ok (df, det)
    /\ NoDup (map fst det)
    /\ incl (map fst det) (columns m)
    /\ Permutation (map fst det) (map supermarket df)
    /\ NoDup (map supermarket df).
Proof.
  exists (ranking kind (details_of pl m oc pm)), (details_of pl m oc pm).
  split; [apply optimize_basket_eq|].
  assert (Hperm : Permutation (map fst (details_of pl m oc pm))
                    (map supermarket (ranking kind (details_of pl m oc pm)))).
  { rewrite <- results_frame_supermarkets.
    apply Permutation_map, ranking_perm. }
  split; [apply details_of_NoDup|]. split.
  - intros s Hs. apply in_map_iff in Hs. destruct Hs as ([s' d] & <- & Hin).
    now apply details_of_In in Hin.
  - split; [exact Hperm|].
    eapply Permutation_NoDup; [exact Hperm|apply details_of_NoDup].
Qed.

Lemma recorded_only_complete pl m pm s :
  recorded pl m true pm s = recorded pl m true "exclude" s.
Proof.
  rewrite !recorded_eq. cbv zeta. simpl.
  destruct (0 <? missing_count pl m s)%Z; reflexivity.
Qed.

(** X4.  With [only_complete] on, the penalty method has no effect at all:
    the frame and the dictionary are those of the [exclude] method. *)
Theorem X4_only_complete_ignores_penalty_method (kind : sort_kind)
  (pl : list string) (m : DataFrame) (pm : string) :
  optimize_basket kind pl m true pm = optimize_basket kind pl m true "exclude".
Proof.
  rewrite !optimize_basket_eq.
  rewrite (details_of_ext pl m true pm "exclude"); [reflexivity|].
  intros s. apply recorded_only_complete.
Qed.

Lemma recorded_other_method pl m oc pm s d :
  pm <> "average"%string -> pm <> "highest"%string ->
  recorded pl m oc pm s = Some d ->
  total d = Fin (Qsum (basket_prices pl m s))
  /\ has_penalty d
     = (0 <? missing_products d)%Z && negb (String.eqb pm "exclude").
Proof.
  intros Ha Hh. rewrite recorded_eq. cbv zeta.
  apply String.eqb_neq in Ha, Hh. rewrite Ha, Hh.
  destruct (oc && _); [discriminate|].
  destruct (0 <? len _)%Z; [|discriminate].
  intros H. injection H as <-. simpl. rewrite !andb_false_r. now split.
Qed.

(** X5.  A penalty method that is neither ['average'] nor ['highest'] adds
    no penalty: every total is the plain sum of the available prices.  The
    penalty flag, however, is raised for every supermarket with missing
    products unless the method is exactly ['exclude']. *)
Theorem X5_unrecognised_method (kind : sort_kind) (pl : list string)
  (m : DataFrame) (oc : bool) (pm : string) :
  pm <> "average"%string -> pm <> "highest"%string ->
  exists df det,
    optimize_basket kind pl m oc pm = Ok (df, det)
    /\ forall s d, In (s, d) det ->
         total d = Fin (Qsum (basket_prices pl m s))
         /\ has_penalty d
            = (0 <? missing_products d)%Z && negb (String.eqb pm "exclude").
Proof.
  intros Ha Hh.
  exists (ranking kind (details_of pl m oc pm)), (details_of pl m oc pm).
  split; [apply optimize_basket_eq|].
  intros s d Hin. apply details_of_In in Hin. destruct Hin as [_ Hrec].
  now apply (recorded_other_method pl m oc pm s).
Qed.

(** With the method ['median'] on the worked example, supermarket B keeps
    its plain total 1.20 and is flagged as penalised. *)
Lemma X5_unrecognised_method_witness :
  exists d,
    In ("B"%string, d)
       (details_of example_basket example_matrix false "median")
    /\ feq (total d) (Fin 1.20)
    /\ has_penalty d = true.
Proof.
  destruct (X5_unrecognised_method stable_kind example_basket example_matrix
                                   false "median"%string)
    as (df & det & Hrun & Hall); [discriminate|discriminate|].
  rewrite optimize_basket_eq in Hrun. injection Hrun as _ <-.
  eexists. split; [vm_compute; right; left; reflexivity|].
  match goal with
  | |- feq (total ?d) _ /\ _ =>
      destruct (Hall "B"%string d) as [Ht Hp];
        [vm_compute; right; left; reflexivity|]
  end.
  split; [rewrite Ht; vm_compute; reflexivity|rewrite Hp; reflexivity].
Defined.

(** X7.  On a matrix whose defined cells are non-negative every reported
    total is a non-negative number, whatever the method. *)
Theorem X7_totals_nonnegative (kind : sort_kind) (pl : list string)
  (m : DataFrame) (oc : bool) (pm : string) :
  nonnegative m ->
  exists df det,
    optimize_basket kind pl m oc pm = Ok (df, det)
    /\ (forall s d, In (s, d) det -> exists q, total d = Fin q /\ 0 <= q)
    /\ (forall r, In r df -> exists q, total_price r = Fin q /\ 0 <= q).
Proof.
  intros Hnn.
  exists (ranking kind (details_of pl m oc pm)), (details_of pl m oc pm).
  split; [apply optimize_basket_eq|].
  assert (Hdet : forall s d, In (s, d) (details_of pl m oc pm) ->
                 exists q, total d = Fin q /\ 0 <= q).
  { intros s d Hin. apply details_of_In in Hin. destruct Hin as [Hs Hrec].
    destruct (recorded_counts _ _ _ _ _ _ Hrec) as (_ & Em & Hpos & _).
    apply len_pos_nonempty in Hpos.
    pose proof (nonnegative_loc _ (isin pl) Hnn) as Hnn'.
    assert (Hsum : 0 <= Qsum (basket_prices pl m s)).
    { apply Qsum_nonneg. intros q Hq.
      apply (Hnn' (s, series_loc (isin pl) (column m s)));
        [now apply loc_In|exact Hq]. }
    assert (Hmean : 0 <= mean_of_column_means (loc m (isin pl)))
      by now apply mean_of_column_means_nonneg.
    destruct (highest_base_defined pl m s Hs Hpos) as (mx & Emx & [Hin _]).
    assert (Hmx : 0 <= mx).
    { apply flat_defined_In in Hin. destruct Hin as (c & Hc & Hq).
      exact (Hnn' c Hc mx Hq). }
    rewrite recorded_eq in Hrec. cbv zeta in Hrec.
    destruct (oc && _); [discriminate|].
    destruct (0 <? len _)%Z; [|discriminate].
    injection Hrec as <-. simpl.
    rewrite (average_base_defined pl m s Hs Hpos), Emx.
    destruct (0 <? missing_count pl m s)%Z eqn:Emiss; simpl;
      [|eexists; split; [reflexivity|exact Hsum]].
    apply Z.ltb_lt in Emiss.
    pose proof (penalty_nonneg _ _ Emiss Hmean).
    pose proof (penalty_nonneg _ _ Emiss Hmx).
    destruct (String.eqb pm "average"); simpl;
      [eexists; split; [reflexivity|lra]|].
    destruct (String.eqb pm "highest"); simpl;
      eexists; (split; [reflexivity|lra]). }
  split; [exact Hdet|].
  intros r Hr. apply ranking_row_In in Hr.
  destruct Hr as (s & d & Hin & _ & -> & _). now apply (Hdet s).
Qed.

Lemma example_matrix_nonnegative : nonnegative example_matrix.
Proof.
  intros c Hc q Hq. vm_compute in Hc.
  destruct Hc as [<-|[<-|[]]]; vm_compute in Hq;
    repeat (destruct Hq as [<-|Hq]; [vm_compute; discriminate|]);
    contradiction.
Qed.

(** On the worked example, under ['highest'], both totals are
    non-negative numbers. *)
Lemma X7_totals_nonnegative_witness :
  exists df det,
    optimize_basket stable_kind example_basket example_matrix false "highest"
    = Ok (df, det)
    /\ map supermarket df = ["A"; "B"]%string
    /\ forall r, In r df -> exists q, total_price r = Fin q /\ 0 <= q.
Proof.
  destruct (X7_totals_nonnegative stable_kind example_basket example_matrix
              false "highest"%string example_matrix_nonnegative)
    as (df & det & Hrun & _ & Hrows).
  exists df, det. split; [exact Hrun|]. split; [|exact Hrows].
  rewrite optimize_basket_eq in Hrun. injection Hrun as <- _.
  vm_compute. reflexivity.
Defined.

Lemma recorded_complete_iff pl m pm s d :
  recorded pl m true pm s = Some d <->
  recorded pl m false "exclude" s = Some d /\ (missing_products d <= 0)%Z.
Proof.
  rewrite !recorded_eq. cbv zeta. simpl.
  destruct (0 <? missing_count pl m s)%Z eqn:Em; simpl.
  - split; [discriminate|]. intros [H Hle].
    destruct (0 <? len _)%Z; [|discriminate].
    injection H as <-. simpl in Hle. apply Z.ltb_lt in Em. lia.
  - apply Z.ltb_ge in Em.
    destruct (0 <? len _)%Z; [|split; [discriminate|now intros [? _]]].
    split.
    + intros H. injection H as <-. simpl. now split.
    + now intros [H _].
Qed.

(** X8.  [only_complete] is a filter: the supermarkets recorded with it
    are exactly those recorded without it under ['exclude'] whose missing
    count is not positive, with the same details. *)
Theorem X8_only_complete_filters (kind : sort_kind) (pl : list string)
  (m : DataFrame) (pm : string) :
  exists df_c det_c df_e det_e,
    optimize_basket kind pl m true pm = Ok (df_c, det_c)
    /\ optimize_basket kind pl m false "exclude" = Ok (df_e, det_e)
    /\ forall s d,
         In (s, d) det_c <->
         In (s, d) det_e /\ (missing_products d <= 0)%Z.
Proof.
  exists (ranking kind (details_of pl m true pm)), (details_of pl m true pm).
  exists (ranking kind (details_of pl m false "exclude")).
  exists (details_of pl m false "exclude").
  repeat (split; [apply optimize_basket_eq|]).
  intros s d. rewrite !details_of_In, recorded_complete_iff. tauto.
Qed.

(** X9.  With [only_complete] off, the result is empty exactly when no
    supermarket of the matrix has a defined price for any product of the
    basket; the frame is empty exactly when the dictionary is. *)
Theorem X9_empty_result_iff (kind : sort_kind) (pl : list string)
  (m : DataFrame) (pm : string) :
  exists df det,
    optimize_basket kind pl m false pm = Ok (df, det)
    /\ (df = [] <-> det = [])
    /\ (det = [] <->
        forall s, In s (columns m) -> basket_prices pl m s = []).
Proof.
  exists (ranking kind (details_of pl m false pm)), (details_of pl m false pm).
  split; [apply optimize_basket_eq|]. split.
  - pose proof (ranking_perm kind (details_of pl m false pm)) as Hperm.
    split; intros E.
    + rewrite E in Hperm. apply Permutation_sym, Permutation_nil in Hperm.
      now apply results_frame_nil.
    + rewrite E. reflexivity.
  - split.
    + intros E s Hs.
      destruct (basket_prices pl m s) as [|q l] eqn:Eq; [reflexivity|].
      destruct (recorded_exists pl m pm s) as [d Hd]; [congruence|].
      assert (Hin : In (s, d) (details_of pl m false pm))
        by (apply details_of_In; now split).
      rewrite E in Hin. contradiction.
    + apply details_of_nil.
Qed.

Lemma to_dict_fold_In (s : Series) (acc : dict float) k v :
  In (k, v) (fold_left (fun d kv => dict_set (fst kv) (snd kv) d) s acc) ->
  In (k, v) acc \/ In (k, v) s.
Proof.
  revert acc. induction s as [|[k' v'] rest IH]; simpl; intros acc H.
  - now left.
  - destruct (IH _ H) as [Hacc|Hrest]; [|right; now right].
    destruct (dict_set_In_inv _ _ _ _ _ Hacc) as [[-> ->]|?];
      [right; now left|now left].
Qed.

Lemma to_dict_fold_fresh (s : Series) (acc : dict float) :
  NoDup (map fst s) ->
  (forall k, In k (map fst acc) -> ~ In k (map fst s)) ->
  fold_left (fun d kv => dict_set (fst kv) (snd kv) d) s acc = acc ++ s.
Proof.
  revert acc. induction s as [|[k v] rest IH]; simpl; intros acc Hnd Hacc.
  - now rewrite app_nil_r.
  - inversion Hnd as [|? ? Hnotin Hnd']; subst.
    rewrite dict_set_fresh by (intros H; apply (Hacc k H); now left).
    rewrite IH; [now rewrite <- app_assoc|exact Hnd'|].
    intros k' Hk' Hin. rewrite map_app, in_app_iff in Hk'. simpl in Hk'.
    destruct Hk' as [Hk'|[<-|[]]]; [|contradiction].
    apply (Hacc k' Hk'). now right.
Qed.

Lemma recorded_products pl m oc pm s d :
  recorded pl m oc pm s = Some d ->
  products d = to_dict (dropna (series_loc (isin pl) (column m s))).
Proof.
  rewrite recorded_eq. cbv zeta.
  destruct (oc && _); [discriminate|].
  destruct (0 <? len _)%Z; [|discriminate].
  intros H. injection H as <-. reflexivity.
Qed.

(** X10.  The price map of a recorded supermarket only holds products of
    the basket, each with a defined price that the matrix gives for this
    supermarket.  When product labels are unique the map is exactly the
    supermarket's defined prices on the selected rows, in row order, and
    its size is the available count. *)
Theorem X10_products_map (kind : sort_kind) (pl : list string)
  (m : DataFrame) (oc : bool) (pm : string) :
  exists df det,
    optimize_basket kind pl m oc pm = Ok (df, det)
    /\ (forall s d p v,
          In (s, d) det -> In (p, v) (products d) ->
          In p pl /\ exists q, v = Fin q /\ In (p, Fin q) (column m s))
    /\ (unique_products m ->
        forall s d, In (s, d) det ->
          products d = dropna (series_loc (isin pl) (column m s))
          /\ len (products d) = available_products d).
Proof.
  exists (ranking kind (details_of pl m oc pm)), (details_of pl m oc pm).
  split; [apply optimize_basket_eq|]. split.
  - intros s d p v Hin Hp. apply details_of_In in Hin.
    destruct Hin as [_ Hrec]. rewrite (recorded_products _ _ _ _ _ _ Hrec) in Hp.
    unfold to_dict in Hp. apply to_dict_fold_In in Hp.
    destruct Hp as [[]|Hp].
    unfold dropna in Hp. apply filter_In in Hp. destruct Hp as [Hp Hv].
    unfold series_loc in Hp. apply filter_In in Hp. destruct Hp as [Hp Hmask].
    simpl in Hmask, Hv. apply isin_In in Hmask. split; [exact Hmask|].
    destruct v as [|q]; [discriminate|]. eauto.
  - intros Huniq s d Hin. apply details_of_In in Hin.
    destruct Hin as [Hs Hrec].
    assert (E : products d = dropna (series_loc (isin pl) (column m s))).
    { rewrite (recorded_products _ _ _ _ _ _ Hrec). unfold to_dict.
      rewrite to_dict_fold_fresh; [reflexivity| |intros k []].
      unfold dropna, series_loc. do 2 apply NoDup_labels_filter.
      exact (Huniq _ (column_In m s Hs)). }
    split; [exact E|].
    apply recorded_counts in Hrec as (-> & _). rewrite E.
    unfold basket_prices. apply len_dropna.
Qed.

(** On the worked example the price map of supermarket B is Milk at 1.20
    only. *)
Lemma X10_products_map_witness :
  exists d,
    In ("B"%string, d)
       (details_of example_basket example_matrix false "exclude")
    /\ products d = [("Milk"%string, Fin 1.20)]
    /\ len (products d) = available_products d.
Proof.
  destruct (X10_products_map stable_kind example_basket example_matrix false
                             "exclude"%string)
    as (df & det & Hrun & _ & Huniq).
  rewrite optimize_basket_eq in Hrun. injection Hrun as _ <-.
  eexists. split; [vm_compute; right; left; reflexivity|].
  match goal with
  | |- products ?d = _ /\ _ =>
      destruct (Huniq example_matrix_unique "B"%string d) as [Hp Hl];
        [vm_compute; right; left; reflexivity|]
  end.
  split; [rewrite Hp; vm_compute; reflexivity|exact Hl].
Defined.

(** *** When the [average] base is the mean of all selected cells *)

Lemma inject_Z_nonzero z : z <> 0%Z -> ~ inject_Z z == 0.
Proof.
  intros H E. unfold Qeq in E. simpl in E. lia.
Qed.

Lemma Qsum_app l1 l2 : Qsum (l1 ++ l2) == Qsum l1 + Qsum l2.
Proof.
  induction l1 as [|x rest IH]; simpl; [lra|]. rewrite IH. lra.
Qed.

Definition nonempty (l : list Q) : bool := negb (Nat.eqb (List.length l) 0).

Lemma equal_counts_sums (n : nat) (L : list (list Q)) :
  (0 < n)%nat ->
  (forall l, In l L -> l = [] \/ List.length l = n) ->
  Qsum (List.concat L)
  == inject_Z (Z.of_nat n) * Qsum (map Qmean (filter nonempty L))
  /\ len (List.concat L) = (Z.of_nat n * len (filter nonempty L))%Z.
Proof.
  intros Hn. induction L as [|l rest IH]; intros Hall.
  - unfold len. simpl. split; [lra|lia].
  - destruct IH as [IHs IHl]; [intros l' Hl'; apply Hall; now right|].
    destruct (Hall l (or_introl eq_refl)) as [E|E].
    + subst l. simpl. split; [exact IHs|exact IHl].
    + simpl List.concat. simpl filter.
      assert (Hne : nonempty l = true).
      { unfold nonempty. rewrite E. destruct n; [lia|reflexivity]. }
      rewrite Hne. split.
      * rewrite Qsum_app, IHs. simpl map. simpl Qsum.
        change (Qmean l) with (Qsum l / inject_Z (Z.of_nat (List.length l))).
        rewrite E.
        field. apply inject_Z_nonzero. lia.
      * unfold len in *. rewrite length_app, Nat2Z.inj_add, IHl, E.
        simpl List.length. lia.
Qed.

Lemma flat_defined_concat df :
  flat_defined df = List.concat (map (fun c => defined (snd c)) df).
Proof.
  unfold flat_defined. apply flat_map_concat_map.
Qed.

Lemma flattened_mean_equal_counts (n : nat) (df : DataFrame) :
  (0 < n)%nat ->
  (forall c, In c df ->
     defined (snd c) = [] \/ List.length (defined (snd c)) = n) ->
  mean_of_column_means df == flattened_mean df.
Proof.
  intros Hn Hcols.
  destruct (equal_counts_sums n (map (fun c => defined (snd c)) df) Hn)
    as [Hs Hl].
  { intros l Hl. apply in_map_iff in Hl. destruct Hl as (c & <- & Hc).
    now apply Hcols. }
  unfold mean_of_column_means, flattened_mean.
  rewrite flat_defined_concat.
  fold nonempty.
  set (cols := filter nonempty (map (fun c => defined (snd c)) df)) in *.
  unfold Qmean at 1 3. rewrite Hs, Hl.
  assert (Hlen : len (map Qmean cols) = len cols)
    by (unfold len; now rewrite length_map).
  rewrite Hlen, inject_Z_mult.
  destruct cols as [|l ls] eqn:E.
  - unfold len. simpl. unfold Qdiv, Qmult, Qinv, Qeq. simpl. lia.
  - field. split; apply inject_Z_nonzero; unfold len; simpl; lia.
Qed.

Lemma feq_trans x y z : feq x y -> feq y z -> feq x z.
Proof.
  destruct x, y, z; simpl; trivial; try contradiction.
  apply Qeq_trans.
Qed.

(** X11.  When every supermarket that prices some selected product prices
    the same number of them, the [average] penalty base is the mean of all
    the defined cells of the selected rows, so that a recorded supermarket
    with missing products has total: its sum plus its missing count times
    that flattened mean. *)
Theorem X11_average_is_flattened_mean_on_equal_counts (kind : sort_kind)
  (pl : list string) (m : DataFrame) (n : nat) :
  (0 < n)%nat ->
  (forall c, In c (loc m (isin pl)) ->
     defined (snd c) = [] \/ List.length (defined (snd c)) = n) ->
  exists df det,
    optimize_basket kind pl m false "average" = Ok (df, det)
    /\ forall s d, In (s, d) det -> (0 < missing_products d)%Z ->
         feq (total d)
             (Fin (Qsum (basket_prices pl m s)
                   + inject_Z (missing_products d)
                     * flattened_mean (loc m (isin pl)))).
Proof.
  intros Hn Hcols.
  exists (ranking kind (details_of pl m false "average")).
  exists (details_of pl m false "average").
  split; [apply optimize_basket_eq|].
  intros s d Hin Hmiss. apply details_of_In in Hin. destruct Hin as [Hs Hrec].
  rewrite (recorded_average pl m s d Hs Hrec Hmiss). simpl.
  rewrite (flattened_mean_equal_counts n _ Hn Hcols). reflexivity.
Qed.

(** Milk is priced by both supermarkets of the worked example and Eggs by
    none: for the basket Milk, Eggs the base is (1.00 + 1.20) / 2 = 1.10
    and supermarket A is recorded with 1.00 + 1 x 1.10 = 2.10. *)
Lemma X11_average_is_flattened_mean_on_equal_counts_witness :
  flattened_mean (loc example_matrix (isin ["Milk"; "Eggs"]%string)) == 1.10
  /\ exists d,
       In ("A"%string, d)
          (details_of ["Milk"; "Eggs"]%string example_matrix false "average")
       /\ feq (total d) (Fin 2.10).
Proof.
  split; [vm_compute; reflexivity|].
  destruct (X11_average_is_flattened_mean_on_equal_counts
              stable_kind ["Milk"; "Eggs"]%string example_matrix 1)
    as (df & det & Hrun & Hall).
  { lia. }
  { intros c Hc. vm_compute in Hc.
    destruct Hc as [<-|[<-|[]]]; right; reflexivity. }
  rewrite optimize_basket_eq in Hrun. injection Hrun as _ <-.
  eexists. split; [vm_compute; left; reflexivity|].
  match goal with
  | |- feq (total ?d) _ =>
      apply (feq_trans _ _ _ (Hall "A"%string d
                                   ltac:(vm_compute; left; reflexivity)
                                   ltac:(reflexivity)))
  end.
  vm_compute. reflexivity.
Defined.

(** * The caller: what [main] shows for a basket

    The part of [main] (basket_optimizer_app.py, lines 187-325) that sets
    the options, runs [optimize_basket] when the analysis button is pressed
    and decides what to display.  Widgets, colours and the chart are left
    out; every value that is displayed is kept. *)

(** Exceptions of the callers: those of the frame operations above, and
    [IndexError] for a position outside a frame or a list. *)
Inductive caller_exn : Type :=
| Lookup (e : exn)
| IndexError (position : Z).

Inductive outcome (A : Type) : Type :=
| Done (a : A)
| Failed (e : caller_exn).

Arguments Done {A} a.
Arguments Failed {A} e.

Definition and_then {A B : Type} (c : outcome A) (k : A -> outcome B)
  : outcome B :=
  match c with
  | Done a => k a
  | Failed e => Failed e
  end.

Notation "x <~ c ;; k" := (and_then c (fun x => k))
  (at level 61, c at next level, right associativity).

Definition lift {A : Type} (c : result A) : outcome A :=
  match c with
  | Ok a => Done a
  | Raise e => Failed (Lookup e)
  end.

(** [d[k]] on a Python dict. *)
Fixpoint dict_getitem {V : Type} (d : dict V) (k : string) : result V :=
  match d with
  | [] => Raise (KeyError k)
  | (k', v) :: rest =>
      if String.eqb k' k then Ok v else dict_getitem rest k
  end.

(** [df.iloc[i]]: a negative position counts from the end. *)
Definition iloc {A : Type} (df : list A) (i : Z) : outcome A :=
  let pos := if (i <? 0)%Z then (len df + i)%Z else i in
  if (pos <? 0)%Z then Failed (IndexError i)
  else match nth_error df (Z.to_nat pos) with
       | Some r => Done r
       | None => Failed (IndexError i)
       end.

Definition fsub (x y : float) : float :=
  match x, y with
  | Fin a, Fin b => Fin (a - b)
  | _, _ => NaN
  end.

(** The value of a float64 quotient: a quotient by zero is an infinity, or
    NaN when the dividend is zero too.  The sign of a zero is not
    modelled: a zero divisor counts as +0. *)
Inductive quotient : Type :=
| QNaN
| QInf (negative : bool)
| QFin (q : Q).

Definition fdiv (x y : float) : quotient :=
  match x, y with
  | Fin a, Fin b =>
      if Qeq_bool b 0 then
        if Qeq_bool a 0 then QNaN
        else QInf (negb (Qle_bool 0 a))
      else QFin (a / b)
  | _, _ => QNaN
  end.

Definition times_100 (x : quotient) : quotient :=
  match x with
  | QFin q => QFin (q * 100)
  | other => other
  end.

(** The three metrics shown when more than one supermarket is ranked. *)
Record Savings : Type := {
  cheapest : float;
  most_expensive : float;
  savings : float;
  savings_pct : quotient
}.

Record Report : Type := {
  best_market : string;
  best_price : float;
  best_available : Z;
  best_missing : Z;
  penalty_note : bool;
  metrics : option Savings;
  table : list ResultRow;
  missing_warnings : list (string * Z)
}.

Inductive Screen : Type :=
| PleaseSelectProducts
| ErrorNoCompleteSupermarket
| ErrorNoPriceInformation
| Analysis (r : Report).

(** Lines 196-204: the method offered only when the box is unchecked. *)
Definition penalty_setting (only_complete : bool) (choice : string) : string :=
  if negb only_complete then choice else "exclude".

(** Lines 207-325, the analysis button being pressed. *)
Definition analyze_basket (kind : sort_kind) (selected_products : list string)
  (price_matrix : DataFrame) (only_complete : bool) (choice : string)
  : outcome Screen :=
  let penalty_method := penalty_setting only_complete choice in
  match selected_products with
  | [] => Done PleaseSelectProducts
  | _ =>
      out <~ lift (optimize_basket kind selected_products price_matrix
                                   only_complete penalty_method) ;;
      let results := fst out in
      let details := snd out in
      if (len results =? 0)%Z then
        if only_complete then Done ErrorNoCompleteSupermarket
        else Done ErrorNoPriceInformation
      else
        best <~ iloc results 0 ;;
        let best_market := supermarket best in
        let best_price := total_price best in
        entry <~ lift (dict_getitem details best_market) ;;
        metrics <~
          (if (1 <? len results)%Z then
             worst <~ iloc results (-1) ;;
             let worst_price := total_price worst in
             let savings := fsub worst_price best_price in
             Done (Some {| cheapest := best_price;
                           most_expensive := worst_price;
                           savings := savings;
                           savings_pct :=
                             times_100 (fdiv savings worst_price) |})
           else Done None) ;;
        Done (Analysis
                {| best_market := best_market;
                   best_price := best_price;
                   best_available := row_available_products best;
                   best_missing := row_missing_products best;
                   penalty_note := has_penalty entry;
                   metrics := metrics;
                   table := results;
                   missing_warnings :=
                     flat_map
                       (fun row =>
                          if (0 <? row_missing_products row)%Z
                          then [(supermarket row, row_missing_products row)]
                          else [])
                       results |})
  end.

(** The report shown for a ranked frame [best :: others], [note] being
    the penalty flag recorded for the best supermarket. *)
Definition report_for (best : ResultRow) (others : list ResultRow) (note : bool)
  : Report :=
  {| best_market := supermarket best;
     best_price := total_price best;
     best_available := row_available_products best;
     best_missing := row_missing_products best;
     penalty_note := note;
     metrics :=
       match others with
       | [] => None
       | _ =>
           let worst := last others best in
           Some {| cheapest := total_price best;
                   most_expensive := total_price worst;
                   savings := fsub (total_price worst) (total_price best);
                   savings_pct :=
                     times_100
                       (fdiv (fsub (total_price worst) (total_price best))
                             (total_price worst)) |}
       end;
     table := best :: others;
     missing_warnings :=
       flat_map
         (fun row =>
            if (0 <? row_missing_products row)%Z
            then [(supermarket row, row_missing_products row)]
            else [])
         (best :: others) |}.

Lemma dict_getitem_In {V : Type} (d : dict V) (k : string) (v : V) :
  NoDup (map fst d) -> In (k, v) d -> dict_getitem d k = Ok v.
Proof.
  induction d as [|[k' v'] rest IH]; simpl; intros Hnd Hin; [contradiction|].
  inversion Hnd as [|? ? Hnotin Hnd']; subst.
  destruct Hin as [E|Hin].
  - injection E as -> ->. now rewrite String.eqb_refl.
  - destruct (String.eqb k' k) eqn:E; [|now apply IH].
    apply String.eqb_eq in E. subst k'.
    exfalso. apply Hnotin. apply in_map_iff. now exists (k, v).
Qed.

Lemma last_default {A : Type} (l : list A) (x y : A) :
  l <> [] -> last l x = last l y.
Proof.
  induction l as [|a rest IH]; intros Hne; [congruence|].
  destruct rest as [|b rest']; [reflexivity|].
  change (last (b :: rest') x = last (b :: rest') y).
  apply IH. discriminate.
Qed.

Lemma nth_error_last {A : Type} (x : A) (l : list A) :
  nth_error (x :: l) (List.length l) = Some (last l x).
Proof.
  revert x. induction l as [|y rest IH]; intros x; [reflexivity|].
  simpl List.length. change (nth_error (x :: y :: rest) (S (List.length rest)))
    with (nth_error (y :: rest) (List.length rest)).
  rewrite IH. destruct rest as [|b rest']; [reflexivity|].
  f_equal. change (last (b :: rest') y = last (b :: rest') x).
  apply last_default. discriminate.
Qed.

Lemma iloc_first {A : Type} (x : A) (l : list A) : iloc (x :: l) 0 = Done x.
Proof.
  reflexivity.
Qed.

Lemma iloc_last {A : Type} (x : A) (l : list A) :
  iloc (x :: l) (-1) = Done (last l x).
Proof.
  unfold iloc, len. simpl List.length.
  replace (-1 <? 0)%Z with true by reflexivity.
  replace (Z.of_nat (S (List.length l)) + -1 <? 0)%Z with false
    by (symmetry; apply Z.ltb_ge; lia).
  replace (Z.to_nat (Z.of_nat (S (List.length l)) + -1)) with (List.length l)
    by lia.
  now rewrite nth_error_last.
Qed.

(** What [analyze_basket] returns, read off the ranked frame. *)
Lemma analyze_basket_spec kind p pl m oc choice :
  let pm := penalty_setting oc choice in
  let det := details_of (p :: pl) m oc pm in
  match ranking kind det with
  | [] =>
      analyze_basket kind (p :: pl) m oc choice
      = Done (if oc then ErrorNoCompleteSupermarket
              else ErrorNoPriceInformation)
  | best :: others =>
      exists d,
        In (supermarket best, d) det
        /\ total_price best = total d
        /\ row_available_products best = available_products d
        /\ row_missing_products best = missing_products d
        /\ analyze_basket kind (p :: pl) m oc choice
           = Done (Analysis (report_for best others (has_penalty d)))
  end.
Proof.
  cbv zeta. unfold analyze_basket. rewrite optimize_basket_eq.
  cbn [lift and_then fst snd].
  destruct (ranking kind (details_of (p :: pl) m oc (penalty_setting oc choice)))
    as [|best others] eqn:E.
  - destruct oc; reflexivity.
  - assert (Hin : In best (ranking kind (details_of (p :: pl) m oc
                                            (penalty_setting oc choice))))
      by (rewrite E; now left).
    apply ranking_row_In in Hin.
    destruct Hin as (s & d & Hd & Hs & Ht & Ha & Hm).
    exists d. subst s. repeat (split; [assumption|]).
    replace (len (best :: others) =? 0)%Z with false
      by (symmetry; apply Z.eqb_neq; unfold len; simpl; lia).
    rewrite iloc_first. cbn [and_then].
    rewrite (dict_getitem_In _ _ _ (details_of_NoDup _ _ _ _) Hd).
    cbn [lift and_then].
    unfold report_for. destruct others as [|r rest].
    + reflexivity.
    + replace (1 <? len (best :: r :: rest))%Z with true
        by (symmetry; apply Z.ltb_lt; unfold len; simpl List.length; lia).
      rewrite iloc_last. reflexivity.
Qed.

Lemma recorded_none_iff pl m oc pm s :
  recorded pl m oc pm s = None <->
  (oc = true /\ (0 < missing_count pl m s)%Z) \/ basket_prices pl m s = [].
Proof.
  rewrite recorded_eq. cbv zeta.
  destruct (0 <? missing_count pl m s)%Z eqn:Em;
    [apply Z.ltb_lt in Em|apply Z.ltb_ge in Em];
    destruct oc; simpl;
    (destruct (basket_prices pl m s) as [|q l] eqn:E;
     [unfold len; simpl|
      replace (0 <? len (q :: l))%Z with true
        by (symmetry; apply Z.ltb_lt; unfold len; simpl List.length; lia)]);
    split; intros H; auto; try discriminate;
    destruct H as [[H1 H2]|H]; try discriminate; lia.
Qed.

Lemma details_of_nil_iff pl m oc pm :
  details_of pl m oc pm = [] <->
  forall s, In s (columns m) -> recorded pl m oc pm s = None.
Proof.
  split.
  - intros E s Hs. destruct (recorded pl m oc pm s) as [d|] eqn:Er;
      [|reflexivity].
    assert (Hin : In (s, d) (details_of pl m oc pm))
      by (apply details_of_In; now split).
    rewrite E in Hin. contradiction.
  - intros Hnone.
    destruct (details_of pl m oc pm) as [|[s d] rest] eqn:E; [reflexivity|].
    assert (Hin : In (s, d) (details_of pl m oc pm)) by (rewrite E; now left).
    apply details_of_In in Hin. destruct Hin as [Hs Hrec].
    rewrite (Hnone s Hs) in Hrec. discriminate.
Qed.

Lemma ranking_nil_iff kind det : ranking kind det = [] <-> det = [].
Proof.
  pose proof (ranking_perm kind det) as Hperm. split; intros E.
  - rewrite E in Hperm. apply Permutation_sym, Permutation_nil in Hperm.
    now apply results_frame_nil.
  - rewrite E. reflexivity.
Qed.

(** X12.  The analysis never fails: neither [results.iloc] nor
    [details[best_market]] can raise.  It asks for products exactly when
    the basket is empty; for a non-empty basket it reports "price
    information not found" exactly when the completeness box is unchecked
    and no supermarket has a price for any product of the basket, and "no
    supermarket has all products" exactly when the box is checked and
    every supermarket misses a product or prices none. *)
Theorem X12_analysis_messages (kind : sort_kind) (pl : list string)
  (m : DataFrame) (oc : bool) (choice : string) :
  exists scr,
    analyze_basket kind pl m oc choice = Done scr
    /\ (scr = PleaseSelectProducts <-> pl = [])
    /\ (scr = ErrorNoPriceInformation <->
        pl <> [] /\ oc = false
        /\ forall s, In s (columns m) -> basket_prices pl m s = [])
    /\ (scr = ErrorNoCompleteSupermarket <->
        pl <> [] /\ oc = true
        /\ forall s, In s (columns m) ->
             (0 < missing_count pl m s)%Z \/ basket_prices pl m s = []).
Proof.
  destruct pl as [|p pl].
  - exists PleaseSelectProducts. split; [reflexivity|].
    repeat split; try discriminate; try tauto; intros (H & _); congruence.
  - pose proof (analyze_basket_spec kind p pl m oc choice) as Hspec.
    cbv zeta in Hspec.
    remember (penalty_setting oc choice) as pm eqn:Epm. clear Epm.
    pose proof (ranking_nil_iff kind (details_of (p :: pl) m oc pm)) as Hnil.
    pose proof (details_of_nil_iff (p :: pl) m oc pm) as Hdet.
    assert (Hempty : details_of (p :: pl) m oc pm = [] <->
              forall s, In s (columns m) ->
                (oc = true /\ (0 < missing_count (p :: pl) m s)%Z)
                \/ basket_prices (p :: pl) m s = []).
    { rewrite Hdet. split; intros H s Hs.
      - apply (proj1 (recorded_none_iff (p :: pl) m oc pm s)). now apply H.
      - apply (proj2 (recorded_none_iff (p :: pl) m oc pm s)). now apply H. }
    destruct (ranking kind (details_of (p :: pl) m oc pm)) as [|best others].
    + assert (E : details_of (p :: pl) m oc pm = []) by now apply Hnil.
      pose proof (proj1 Hempty E) as Hall.
      eexists. split; [exact Hspec|].
      destruct oc.
      * split; [split; discriminate|].
        split; [split; [discriminate|intros (_ & H & _); discriminate]|].
        split; [|reflexivity].
        intros _. split; [discriminate|]. split; [reflexivity|].
        intros s Hs. destruct (Hall s Hs) as [[_ H]|H]; auto.
      * split; [split; discriminate|].
        split; [|split; [discriminate|intros (_ & H & _); discriminate]].
        split; [|reflexivity].
        intros _. split; [discriminate|]. split; [reflexivity|].
        intros s Hs. destruct (Hall s Hs) as [[H _]|H]; [discriminate|exact H].
    + destruct Hspec as (d & _ & _ & _ & _ & Hrun).
      eexists. split; [exact Hrun|].
      assert (Hne : details_of (p :: pl) m oc pm <> []).
      { intros E. apply Hnil in E. discriminate. }
      split; [split; discriminate|].
      split; (split; [discriminate|]); intros (_ & Hoc & Hall);
        exfalso; apply Hne, Hempty; intros s Hs.
      * right. now apply Hall.
      * destruct (Hall s Hs); auto.
Qed.

(** On the worked example the analysis succeeds and is no message. *)
Lemma X12_analysis_messages_witness :
  exists r,
    analyze_basket stable_kind example_basket example_matrix false "average"
    = Done (Analysis r)
    /\ best_market r = "B"%string.
Proof.
  destruct (X12_analysis_messages stable_kind example_basket example_matrix
                                  false "average"%string)
    as (scr & Hrun & _).
  vm_compute in Hrun. injection Hrun as <-.
  eexists. split; [vm_compute; reflexivity|reflexivity].
Defined.

Lemma fle_refl x : fle x x.
Proof.
  destruct x; simpl; [trivial|apply Qle_refl].
Qed.

Lemma sorted_head_min (best : ResultRow) (others : list ResultRow) row :
  StronglySorted row_le (best :: others) -> In row (best :: others) ->
  row_le best row.
Proof.
  intros Hs Hin. inversion Hs as [|? ? _ Hall]; subst.
  destruct Hin as [<-|Hin]; [apply fle_refl|].
  rewrite Forall_forall in Hall. now apply Hall.
Qed.

Lemma sorted_last_max (best : ResultRow) (others : list ResultRow) row :
  StronglySorted row_le (best :: others) -> In row (best :: others) ->
  row_le row (last others best).
Proof.
  revert best row. induction others as [|r rest IH]; intros best row Hs Hin.
  - destruct Hin as [<-|[]]. apply fle_refl.
  - inversion Hs as [|? ? Hs' Hall]; subst.
    assert (E : last (r :: rest) best = last rest r).
    { destruct rest as [|b rest']; [reflexivity|].
      change (last (b :: rest') best = last (b :: rest') r).
      apply last_default. discriminate. }
    rewrite E. destruct Hin as [<-|Hin]; [|now apply IH].
    apply (fle_trans _ (total_price r)).
    + rewrite Forall_forall in Hall. apply (Hall r). now left.
    + apply (IH r r); [exact Hs'|now left].
Qed.

(** A screen that is an analysis comes from a non-empty ranked frame. *)
Lemma analysis_inv kind pl m oc choice r :
  analyze_basket kind pl m oc choice = Done (Analysis r) ->
  let det := details_of pl m oc (penalty_setting oc choice) in
  exists best others d,
    ranking kind det = best :: others
    /\ In (supermarket best, d) det
    /\ total_price best = total d
    /\ row_available_products best = available_products d
    /\ row_missing_products best = missing_products d
    /\ r = report_for best others (has_penalty d).
Proof.
  intros Hrun. cbv zeta. destruct pl as [|p pl]; [discriminate|].
  pose proof (analyze_basket_spec kind p pl m oc choice) as Hspec.
  cbv zeta in Hspec.
  destruct (ranking kind (details_of (p :: pl) m oc (penalty_setting oc choice)))
    as [|best others].
  - rewrite Hspec in Hrun. destruct oc; discriminate.
  - destruct Hspec as (d & H1 & H2 & H3 & H4 & H5).
    rewrite H5 in Hrun. injection Hrun as <-.
    exists best, others, d. repeat split; assumption.
Qed.

(** X13.  When the analysis is shown, the supermarket announced as the
    cheapest is a recorded one, announced with its own total, counts and
    penalty flag, and no recorded supermarket has a smaller total. *)
Theorem X13_best_market_is_cheapest (kind : sort_kind) (pl : list string)
  (m : DataFrame) (oc : bool) (choice : string) (r : Report) :
  analyze_basket kind pl m oc choice = Done (Analysis r) ->
  exists df det,
    optimize_basket kind pl m oc (penalty_setting oc choice) = Ok (df, det)
    /\ table r = df
    /\ (exists d,
          In (best_market r, d) det
          /\ best_price r = total d
          /\ best_available r = available_products d
          /\ best_missing r = missing_products d
          /\ penalty_note r = has_penalty d)
    /\ (forall s d, In (s, d) det ->
          exists b q, best_price r = Fin b /\ total d = Fin q /\ b <= q).
Proof.
  intros Hrun. apply analysis_inv in Hrun. cbv zeta in Hrun.
  destruct Hrun as (best & others & d & E & Hd & Ht & Ha & Hm & ->).
  set (det := details_of pl m oc (penalty_setting oc choice)) in *.
  exists (ranking kind det), det.
  split; [apply optimize_basket_eq|].
  split; [now rewrite E|].
  split; [exists d; simpl; repeat split; assumption|].
  intros s d' Hin. simpl.
  destruct (details_row_in_ranking kind det s d' Hin)
    as (row & Hrow & _ & Hrt & _).
  pose proof (ranking_sorted kind det) as Hsorted.
  rewrite E in Hsorted, Hrow.
  pose proof (sorted_head_min best others row Hsorted Hrow) as Hle.
  unfold row_le in Hle. rewrite Hrt, Ht in Hle.
  apply details_of_In in Hin, Hd.
  destruct Hin as [Hs Hrec], Hd as [Hs0 Hrec0].
  destruct (recorded_total_finite _ _ _ _ _ _ Hs Hrec) as [q Eq].
  destruct (recorded_total_finite _ _ _ _ _ _ Hs0 Hrec0) as [b Eb].
  exists b, q. rewrite Ht, Eb, Eq in *. repeat split. exact Hle.
Qed.

(** On the worked example with ['average'] the analysis announces B at
    2.55, with its penalty note. *)
Lemma X13_best_market_is_cheapest_witness :
  exists r,
    analyze_basket stable_kind example_basket example_matrix false "average"
    = Done (Analysis r)
    /\ best_market r = "B"%string
    /\ feq (best_price r) (Fin 2.55)
    /\ penalty_note r = true
    /\ map supermarket (table r) = ["B"; "A"]%string.
Proof.
  eexists. split; [vm_compute; reflexivity|].
  match goal with
  | |- best_market ?r = _ /\ _ =>
      destruct (X13_best_market_is_cheapest
                  stable_kind example_basket example_matrix false
                  "average"%string r)
        as (df & det & Hrun & Htable & _); [vm_compute; reflexivity|]
  end.
  split; [reflexivity|]. split; [vm_compute; reflexivity|].
  split; [reflexivity|]. rewrite Htable.
  rewrite optimize_basket_eq in Hrun. injection Hrun as <- _.
  vm_compute. reflexivity.
Defined.

(** X14.  The savings metrics are shown exactly when more than one
    supermarket is ranked.  They then give the best price, a total that no
    ranked supermarket exceeds, and their difference, which is not
    negative; the percentage is the quotient of the difference by the
    highest total, times 100, whenever that total is not zero. *)
Theorem X14_savings_metrics (kind : sort_kind) (pl : list string)
  (m : DataFrame) (oc : bool) (choice : string) (r : Report) :
  analyze_basket kind pl m oc choice = Done (Analysis r) ->
  (metrics r = None <-> List.length (table r) = 1%nat)
  /\ forall sv, metrics r = Some sv ->
       exists b w,
         best_price r = Fin b
         /\ cheapest sv = Fin b
         /\ most_expensive sv = Fin w
         /\ savings sv = Fin (w - b)
         /\ 0 <= w - b
         /\ (forall row, In row (table r) ->
               exists q, total_price row = Fin q /\ b <= q /\ q <= w)
         /\ (~ w == 0 -> savings_pct sv = QFin ((w - b) / w * 100)).
Proof.
  intros Hrun. apply analysis_inv in Hrun. cbv zeta in Hrun.
  destruct Hrun as (best & others & d & E & Hd & Ht & Ha & Hm & ->).
  set (det := details_of pl m oc (penalty_setting oc choice)) in *.
  split.
  - simpl. destruct others; simpl; split; congruence.
  - intros sv Hsv.
    pose proof (ranking_sorted kind det) as Hsorted. rewrite E in Hsorted.
    assert (Hfin : forall row, In row (best :: others) ->
                   exists q, total_price row = Fin q).
    { intros row Hrow. rewrite <- E in Hrow. apply ranking_row_In in Hrow.
      destruct Hrow as (s & d' & Hin & _ & -> & _).
      apply details_of_In in Hin. destruct Hin as [Hs Hrec].
      exact (recorded_total_finite _ _ _ _ _ _ Hs Hrec). }
    destruct others as [|r0 rest]; [discriminate|].
    cbn [metrics report_for] in Hsv. cbv zeta in Hsv.
    remember (last (r0 :: rest) best) as worst eqn:Eworst.
    assert (Hworst : In worst (best :: r0 :: rest)).
    { right. subst worst.
      destruct (exists_last (l := r0 :: rest)) as (l' & a & El);
        [discriminate|].
      rewrite El, last_last. apply in_or_app. right. now left. }
    injection Hsv as <-.
    cbn [cheapest most_expensive savings savings_pct best_price table
         report_for].
    destruct (Hfin best (or_introl eq_refl)) as [b Eb].
    destruct (Hfin worst Hworst) as [w Ew].
    exists b, w. rewrite Eb, Ew. simpl.
    assert (Hbw : b <= w).
    { pose proof (sorted_head_min best (r0 :: rest) worst Hsorted Hworst) as H.
      unfold row_le in H. now rewrite Eb, Ew in H. }
    repeat split; try reflexivity.
    + lra.
    + intros row Hrow. destruct (Hfin row Hrow) as [q Eq]. exists q.
      split; [exact Eq|].
      pose proof (sorted_head_min best (r0 :: rest) row Hsorted Hrow) as H1.
      pose proof (sorted_last_max best (r0 :: rest) row Hsorted Hrow) as H2.
      rewrite <- Eworst in H2. unfold row_le in H1, H2.
      rewrite Eb, Eq in H1. rewrite Eq, Ew in H2. now split.
    + intros Hw. destruct (Qeq_bool w 0) eqn:Ez; [|reflexivity].
      apply Qeq_bool_iff in Ez. contradiction.
Qed.

(** On the worked example with ['highest'] the totals are 3.00 and 3.20:
    the savings are 0.20. *)
Lemma X14_savings_metrics_witness :
  exists r sv,
    analyze_basket stable_kind example_basket example_matrix false "highest"
    = Done (Analysis r)
    /\ metrics r = Some sv
    /\ feq (cheapest sv) (Fin 3.00)
    /\ feq (most_expensive sv) (Fin 3.20)
    /\ feq (savings sv) (Fin 0.20).
Proof.
  do 2 eexists. split; [vm_compute; reflexivity|]. split; [reflexivity|].
  match goal with
  | |- feq (cheapest ?sv) _ /\ _ =>
      destruct (X14_savings_metrics
                  stable_kind example_basket example_matrix false
                  "highest"%string _ eq_refl) as [_ Hsv];
      destruct (Hsv sv eq_refl) as (b & w & _ & Hc & Hw & Hs & _)
  end.
  rewrite Hs. rewrite Hc, Hw.
  vm_compute in Hc, Hw. injection Hc as <-. injection Hw as <-.
  repeat split; vm_compute; reflexivity.
Defined.

Lemma warnings_In (rows : list ResultRow) s k :
  In (s, k)
     (flat_map (fun row =>
                  if (0 <? row_missing_products row)%Z
                  then [(supermarket row, row_missing_products row)]
                  else []) rows)
  <-> exists row, In row rows /\ supermarket row = s
                  /\ row_missing_products row = k /\ (0 < k)%Z.
Proof.
  rewrite in_flat_map. split.
  - intros (row & Hrow & Hin). exists row.
    destruct (0 <? row_missing_products row)%Z eqn:E; [|contradiction].
    destruct Hin as [H|[]]. injection H as <- <-.
    apply Z.ltb_lt in E. tauto.
  - intros (row & Hrow & <- & <- & Hk). exists row. split; [exact Hrow|].
    apply Z.ltb_lt in Hk. rewrite Hk. now left.
Qed.

(** X15.  The missing-product notifications name exactly the recorded
    supermarkets whose missing count is positive, each with that count.
    With the completeness box checked there is no notification and no
    penalty note; a penalty note means the box is unchecked, the chosen
    method is not ['exclude'] and the best supermarket misses a product. *)
Theorem X15_missing_warnings (kind : sort_kind) (pl : list string)
  (m : DataFrame) (oc : bool) (choice : string) (r : Report) :
  analyze_basket kind pl m oc choice = Done (Analysis r) ->
  exists df det,
    optimize_basket kind pl m oc (penalty_setting oc choice) = Ok (df, det)
    /\ (forall s k,
          In (s, k) (missing_warnings r) <->
          exists d, In (s, d) det /\ missing_products d = k /\ (0 < k)%Z)
    /\ (oc = true -> missing_warnings r = [] /\ penalty_note r = false)
    /\ (penalty_note r = true ->
        oc = false /\ choice <> "exclude"%string /\ (0 < best_missing r)%Z).
Proof.
  intros Hrun. apply analysis_inv in Hrun. cbv zeta in Hrun.
  destruct Hrun as (best & others & d & E & Hd & Ht & Ha & Hm & ->).
  set (det := details_of pl m oc (penalty_setting oc choice)) in *.
  exists (ranking kind det), det.
  split; [apply optimize_basket_eq|].
  assert (Hwarn : forall s k,
            In (s, k) (missing_warnings
                         (report_for best others (has_penalty d))) <->
            exists d', In (s, d') det /\ missing_products d' = k /\ (0 < k)%Z).
  { intros s k. cbn [missing_warnings report_for]. rewrite warnings_In.
    rewrite <- E. split.
    - intros (row & Hrow & <- & <- & Hk). apply ranking_row_In in Hrow.
      destruct Hrow as (s & d' & Hin & -> & _ & _ & Em). rewrite Em in *.
      exists d'. repeat split; assumption.
    - intros (d' & Hin & <- & Hk).
      destruct (details_row_in_ranking kind det s d' Hin)
        as (row & Hrow & Hs & _ & Hmiss).
      exists row. rewrite Hmiss. tauto. }
  assert (Hnote : has_penalty d = true ->
            oc = false /\ choice <> "exclude"%string
            /\ (0 < missing_products d)%Z).
  { intros Hp. apply details_of_In in Hd. destruct Hd as [_ Hrec].
    assert (Hflag : has_penalty d
                    = (0 <? missing_products d)%Z
                      && negb (String.eqb (penalty_setting oc choice)
                                          "exclude")).
    { pose proof Hrec as Hrec'. rewrite recorded_eq in Hrec'.
      cbv zeta in Hrec'.
      destruct (oc && _); [discriminate|].
      destruct (0 <? len _)%Z; [|discriminate].
      injection Hrec' as <-. reflexivity. }
    rewrite Hflag in Hp. apply andb_true_iff in Hp. destruct Hp as [Hk Hx].
    apply Z.ltb_lt in Hk.
    assert (Hoc : oc = false)
      by exact (recorded_missing_oc _ _ _ _ _ _ Hrec Hk).
    subst oc. split; [reflexivity|]. split; [|exact Hk].
    intros ->. discriminate. }
  split; [exact Hwarn|]. split.
  - intros ->. split.
    + assert (Hnone : forall x,
                ~ In x (missing_warnings
                          (report_for best others (has_penalty d)))).
      { intros [s k] Hin. apply Hwarn in Hin.
        destruct Hin as (d' & Hin & <- & Hk).
        apply details_of_In in Hin. destruct Hin as [_ Hrec].
        discriminate (recorded_missing_oc _ _ _ _ _ _ Hrec Hk). }
      destruct (missing_warnings (report_for best others (has_penalty d)))
        as [|x rest]; [reflexivity|].
      exfalso. apply (Hnone x). now left.
    + cbn [penalty_note report_for].
      destruct (has_penalty d) eqn:Ep; [|reflexivity].
      destruct (Hnote eq_refl) as [H _]. discriminate.
  - cbn [penalty_note best_missing report_for]. rewrite Hm. exact Hnote.
Qed.

(** On the worked example with ['average'] the only notification is for
    B, which misses one product. *)
Lemma X15_missing_warnings_witness :
  exists r,
    analyze_basket stable_kind example_basket example_matrix false "average"
    = Done (Analysis r)
    /\ missing_warnings r = [("B"%string, 1%Z)]
    /\ exists d,
         In ("B"%string, d)
            (details_of example_basket example_matrix false "average")
         /\ missing_products d = 1%Z.
Proof.
  eexists. split; [vm_compute; reflexivity|]. split; [reflexivity|].
  match goal with
  | |- exists d, In (_, d) ?det /\ _ =>
      destruct (X15_missing_warnings
                  stable_kind example_basket example_matrix false
                  "average"%string _ eq_refl)
        as (df & det' & Hrun & Hwarn & _)
  end.
  rewrite optimize_basket_eq in Hrun. injection Hrun as _ <-.
  destruct (proj1 (Hwarn "B"%string 1%Z)) as (d & Hin & Hm & _);
    [now left|].
  exists d. now split.
Defined.

(** * The terminal menu: [get_user_choice]

    price_prediction_terminal.py, lines 57-104.  The lines typed by the
    user are a list; reading past its end is Python's [EOFError].  What is
    printed is a list of events.  [str.strip], [str.lower], [str.upper]
    and [int] are parameters: nothing below depends on what they compute. *)

Inductive Event : Type :=
| Prompt (text : string)
| OptionCount (n : Z)
| NoSearchResult
| Page (number count : Z) (items : list (Z * string))
| NavigationHint
| InvalidChoice
| NotANumber.

(** How a call that reads input ends: with a value and the lines not yet
    read, or with [EOFError]. *)
Inductive reply (A : Type) : Type :=
| Returned (a : A) (unread : list string)
| EOFError.

Arguments Returned {A} a unread.
Arguments EOFError {A}.

(** [needle in hay] on strings. *)
Fixpoint contains (needle hay : string) : bool :=
  if String.prefix needle hay then true
  else match hay with
       | EmptyString => false
       | String _ rest => contains needle rest
       end.

Definition page_size : nat := 20.

(** [enumerate(items, start)]. *)
Fixpoint enumerate (items : list string) (start : Z) : list (Z * string) :=
  match items with
  | [] => []
  | x :: rest => (start, x) :: enumerate rest (start + 1)
  end.

(** [options[start:stop]] for positions that are not negative. *)
Definition slice (options : list string) (start stop : nat) : list string :=
  firstn (stop - start) (skipn start options).

Section Menu.

Variable strip lower upper : string -> string.
Variable parse_int : string -> option Z.

(** What one turn of the loop prints before it reads (lines 77-86). *)
Definition show_page (options : list string) (page : nat) : list Event :=
  let start_idx := (page * page_size)%nat in
  let end_idx := Nat.min (start_idx + page_size) (List.length options) in
  Page (Z.of_nat page + 1)
       ((len options - 1) / Z.of_nat page_size + 1)
       (enumerate (slice options start_idx end_idx) (Z.of_nat start_idx + 1))
  :: (if (page_size <? List.length options)%nat then [NavigationHint] else []).

(** The [while True] loop of lines 76-104, one line read per turn. *)
Fixpoint choice_loop (options : list string) (page : nat)
  (inputs : list string) : list Event * reply string :=
  let start_idx := (page * page_size)%nat in
  let end_idx := Nat.min (start_idx + page_size) (List.length options) in
  match inputs with
  | [] => (show_page options page, EOFError)
  | line :: rest =>
      let choice := upper (strip line) in
      if String.eqb choice "N" && (end_idx <? List.length options)%nat then
        let (events, r) := choice_loop options (page + 1) rest in
        (show_page options page ++ events, r)
      else if String.eqb choice "P" && (0 <? page)%nat then
        let (events, r) := choice_loop options (page - 1) rest in
        (show_page options page ++ events, r)
      else
        match parse_int choice with
        | Some n =>
            let idx := (n - 1)%Z in
            if (0 <=? idx)%Z && (idx <? len options)%Z then
              (show_page options page,
               Returned (nth (Z.to_nat idx) options EmptyString) rest)
            else
              let (events, r) := choice_loop options page rest in
              (show_page options page ++ InvalidChoice :: events, r)
        | None =>
            let (events, r) := choice_loop options page rest in
            (show_page options page ++ NotANumber :: events, r)
        end
  end.

Definition get_user_choice (prompt : string) (options : list string)
  (allow_search : bool) (inputs : list string) : list Event * reply string :=
  if (20 <? List.length options)%nat && allow_search then
    match inputs with
    | [] => ([Prompt prompt; OptionCount (len options)], EOFError)
    | line :: rest =>
        let search := lower (strip line) in
        let (warning, options') :=
          if negb (String.eqb search EmptyString) then
            let filtered :=
              filter (fun opt => contains search (lower opt)) options in
            match filtered with
            | [] => ([NoSearchResult], options)
            | _ => ([], filtered)
            end
          else ([], options) in
        let (events, r) := choice_loop options' 0 rest in
        (Prompt prompt :: OptionCount (len options) :: warning ++ events, r)
    end
  else
    let (events, r) := choice_loop options 0 inputs in
    (Prompt prompt :: events, r).

(** The list the menu is run on: the options, narrowed by the search line
    when a search is offered and finds something. *)
Definition menu (options : list string) (allow_search : bool)
  (inputs : list string) : list string :=
  if (20 <? List.length options)%nat && allow_search then
    match inputs with
    | [] => options
    | line :: _ =>
        let search := lower (strip line) in
        if String.eqb search EmptyString then options
        else
          match filter (fun opt => contains search (lower opt)) options with
          | [] => options
          | filtered => filtered
          end
    end
  else options.

(** The lines the loop reads: all of them, but the search line. *)
Definition menu_inputs (options : list string) (allow_search : bool)
  (inputs : list string) : list string :=
  if (20 <? List.length options)%nat && allow_search then tl inputs
  else inputs.

End Menu.

Lemma enumerate_In items start i o :
  In (i, o) (enumerate items start) ->
  exists k, nth_error items k = Some o /\ i = (start + Z.of_nat k)%Z.
Proof.
  revert start. induction items as [|x rest IH]; simpl; intros start H;
    [contradiction|].
  destruct H as [H|H].
  - injection H as <- <-. exists 0%nat. split; [reflexivity|lia].
  - destruct (IH _ H) as (k & Hk & ->). exists (S k). split; [exact Hk|lia].
Qed.

Lemma enumerate_length items start :
  List.length (enumerate items start) = List.length items.
Proof.
  revert start. induction items as [|x rest IH]; simpl; intros start;
    [reflexivity|]. now rewrite IH.
Qed.

Lemma slice_nth options start stop k o :
  nth_error (slice options start stop) k = Some o ->
  nth_error options (start + k) = Some o /\ (start + k < stop)%nat.
Proof.
  unfold slice. rewrite nth_error_firstn.
  destruct (k <? stop - start)%nat eqn:E; [|discriminate].
  apply Nat.ltb_lt in E. rewrite nth_error_skipn. split; [assumption|lia].
Qed.

Lemma slice_length options start stop :
  (stop <= List.length options)%nat ->
  List.length (slice options start stop) = (stop - start)%nat.
Proof.
  intros H. unfold slice. rewrite length_firstn, length_skipn. lia.
Qed.

(** The page printed for a page number that is in range. *)
Lemma show_page_ok options page number count items :
  (page * page_size < List.length options)%nat ->
  In (Page number count items) (show_page options page) ->
  (1 <= number <= count)%Z
  /\ items <> []
  /\ (List.length items <= page_size)%nat
  /\ forall i o, In (i, o) items ->
       nth_error options (Z.to_nat (i - 1)) = Some o
       /\ ((number - 1) * Z.of_nat page_size < i
           <= number * Z.of_nat page_size)%Z.
Proof.
  intros Hpage Hin. unfold show_page in Hin. cbv zeta in Hin.
  destruct Hin as [E|Hin].
  2: { destruct (page_size <? List.length options)%nat;
         [destruct Hin as [E|[]]; discriminate|contradiction]. }
  injection E as <- <- <-.
  set (start_idx := (page * page_size)%nat) in *.
  set (end_idx := Nat.min (start_idx + page_size) (List.length options)).
  assert (Hend : (end_idx <= List.length options)%nat)
    by (unfold end_idx; lia).
  assert (Hlen : List.length (slice options start_idx end_idx)
                 = (end_idx - start_idx)%nat) by now apply slice_length.
  unfold page_size in *. split; [|split; [|split]].
  - split; [lia|].
    assert (Z.of_nat page <= (len options - 1) / Z.of_nat 20)%Z; [|lia].
    apply Z.div_le_lower_bound; [lia|]. unfold len. lia.
  - intros E. apply (f_equal (@List.length _)) in E.
    rewrite enumerate_length, Hlen in E. simpl in E.
    unfold end_idx in E. lia.
  - rewrite enumerate_length, Hlen. unfold end_idx. lia.
  - intros i o Hio. apply enumerate_In in Hio.
    destruct Hio as (k & Hk & ->). apply slice_nth in Hk.
    destruct Hk as [Hk Hlt].
    replace (Z.to_nat (Z.of_nat start_idx + 1 + Z.of_nat k - 1))
      with (start_idx + k)%nat by lia.
    split; [exact Hk|]. unfold end_idx in Hlt. unfold start_idx in *. lia.
Qed.

Section MenuProperties.

Variable strip lower upper : string -> string.
Variable parse_int : string -> option Z.

Lemma choice_loop_returned options page inputs events opt unread :
  choice_loop strip upper parse_int options page inputs
  = (events, Returned opt unread) ->
  exists used line n,
    inputs = used ++ line :: unread
    /\ parse_int (upper (strip line)) = Some n
    /\ (1 <= n <= len options)%Z
    /\ nth_error options (Z.to_nat (n - 1)) = Some opt.
Proof.
  revert page events. induction inputs as [|line rest IH];
    intros page events H; cbn [choice_loop] in H; [discriminate|].
  assert (Hrec : forall page' pre,
            (let (ev, r) := choice_loop strip upper parse_int options page' rest
             in (pre ++ ev, r)) = (events, Returned opt unread) ->
            exists used line0 n,
              line :: rest = used ++ line0 :: unread
              /\ parse_int (upper (strip line0)) = Some n
              /\ (1 <= n <= len options)%Z
              /\ nth_error options (Z.to_nat (n - 1)) = Some opt).
  { intros page' pre Hcall.
    destruct (choice_loop strip upper parse_int options page' rest)
      as [ev r] eqn:E.
    injection Hcall as _ ->.
    destruct (IH _ _ E) as (used & line0 & n & -> & Hn).
    exists (line :: used), line0, n. split; [reflexivity|exact Hn]. }
  destruct (String.eqb (upper (strip line)) "N" && _); [now apply Hrec in H|].
  destruct (String.eqb (upper (strip line)) "P" && _); [now apply Hrec in H|].
  destruct (parse_int (upper (strip line))) as [n|] eqn:En.
  - destruct ((0 <=? n - 1)%Z && (n - 1 <? len options)%Z) eqn:Eb.
    + injection H as _ <- <-.
      apply andb_true_iff in Eb. destruct Eb as [H0 H1].
      apply Z.leb_le in H0. apply Z.ltb_lt in H1.
      exists [], line, n. split; [reflexivity|]. split; [exact En|].
      split; [lia|].
      apply nth_error_nth'. unfold len in H1. lia.
    + change (show_page options page ++ InvalidChoice :: ?ev)
        with (show_page options page ++ [InvalidChoice] ++ ev) in H.
      destruct (choice_loop strip upper parse_int options page rest)
        as [ev r] eqn:E.
      injection H as _ ->.
      destruct (IH _ _ E) as (used & line0 & n0 & -> & Hn).
      exists (line :: used), line0, n0. split; [reflexivity|exact Hn].
  - destruct (choice_loop strip upper parse_int options page rest)
      as [ev r] eqn:E.
    injection H as _ ->.
    destruct (IH _ _ E) as (used & line0 & n0 & -> & Hn).
    exists (line :: used), line0, n0. split; [reflexivity|exact Hn].
Qed.

Lemma choice_loop_pages options page inputs number count items :
  (page * page_size < List.length options)%nat ->
  In (Page number count items)
     (fst (choice_loop strip upper parse_int options page inputs)) ->
  (1 <= number <= count)%Z
  /\ items <> []
  /\ (List.length items <= page_size)%nat
  /\ forall i o, In (i, o) items ->
       nth_error options (Z.to_nat (i - 1)) = Some o
       /\ ((number - 1) * Z.of_nat page_size < i
           <= number * Z.of_nat page_size)%Z.
Proof.
  revert page. induction inputs as [|line rest IH]; intros page Hpage Hin;
    cbn [choice_loop] in Hin.
  - now apply (show_page_ok options page).
  - assert (Hrec : forall page' pre,
              (page' * page_size < List.length options)%nat ->
              (forall e, In e pre ->
                 In e (show_page options page) \/ e = InvalidChoice
                 \/ e = NotANumber) ->
              In (Page number count items)
                 (fst (let (ev, r) :=
                         choice_loop strip upper parse_int options page' rest
                       in (pre ++ ev, r))) ->
              (1 <= number <= count)%Z
              /\ items <> []
              /\ (List.length items <= page_size)%nat
              /\ forall i o, In (i, o) items ->
                   nth_error options (Z.to_nat (i - 1)) = Some o
                   /\ ((number - 1) * Z.of_nat page_size < i
                       <= number * Z.of_nat page_size)%Z).
    { intros page' pre Hpage' Hpre Hcall.
      specialize (IH page' Hpage').
      destruct (choice_loop strip upper parse_int options page' rest)
        as [ev r].
      simpl in Hcall, IH. apply in_app_or in Hcall.
      destruct Hcall as [Hp|Hev]; [|now apply IH].
      destruct (Hpre _ Hp) as [Hs|[Hs|Hs]]; try discriminate.
      now apply (show_page_ok options page). }
    destruct (String.eqb (upper (strip line)) "N"
              && (Nat.min (page * page_size + page_size)
                          (List.length options)
                  <? List.length options)%nat) eqn:EN.
    { apply (Hrec (page + 1)%nat (show_page options page)); auto.
      apply andb_true_iff in EN. destruct EN as [_ EN].
      apply Nat.ltb_lt in EN. unfold page_size in *. lia. }
    destruct (String.eqb (upper (strip line)) "P" && (0 <? page)%nat) eqn:EP.
    { apply (Hrec (page - 1)%nat (show_page options page)); auto.
      unfold page_size in *. lia. }
    destruct (parse_int (upper (strip line))) as [n|].
    + destruct ((0 <=? n - 1)%Z && (n - 1 <? len options)%Z).
      * simpl in Hin. now apply (show_page_ok options page).
      * apply (Hrec page (show_page options page ++ [InvalidChoice]));
          [exact Hpage| |].
        -- intros e He. apply in_app_or in He.
           destruct He as [He|[<-|[]]]; auto.
        -- destruct (choice_loop strip upper parse_int options page rest).
           simpl in *. now rewrite <- app_assoc.
    + apply (Hrec page (show_page options page ++ [NotANumber]));
        [exact Hpage| |].
      * intros e He. apply in_app_or in He.
        destruct He as [He|[<-|[]]]; auto.
      * destruct (choice_loop strip upper parse_int options page rest).
        simpl in *. now rewrite <- app_assoc.
Qed.

End MenuProperties.

Section MenuTheorems.

Variable strip lower upper : string -> string.
Variable parse_int : string -> option Z.

Lemma menu_incl options allow_search inputs :
  incl (menu strip lower options allow_search inputs) options.
Proof.
  unfold menu. intros o Ho.
  destruct ((20 <? List.length options)%nat && allow_search); [|exact Ho].
  destruct inputs as [|line rest]; [exact Ho|]. cbv zeta in Ho.
  destruct (String.eqb (lower (strip line)) EmptyString); [exact Ho|].
  destruct (filter _ options) as [|x l] eqn:E; [exact Ho|].
  rewrite <- E in Ho. now apply filter_In in Ho.
Qed.

Lemma menu_nonempty options allow_search inputs :
  options <> [] -> menu strip lower options allow_search inputs <> [].
Proof.
  unfold menu. intros Hne.
  destruct ((20 <? List.length options)%nat && allow_search); [|exact Hne].
  destruct inputs as [|line rest]; [exact Hne|]. cbv zeta.
  destruct (String.eqb (lower (strip line)) EmptyString); [exact Hne|].
  destruct (filter _ options); [exact Hne|discriminate].
Qed.

(** [get_user_choice] is the loop run on [menu], after a few lines of
    output that show no page; when a search is offered and nothing can be
    read, it ends at once with [EOFError]. *)
Lemma get_user_choice_spec prompt options allow_search inputs :
  let run := choice_loop strip upper parse_int
               (menu strip lower options allow_search inputs) 0
               (menu_inputs options allow_search inputs) in
  exists pre,
    (forall number count items, ~ In (Page number count items) pre)
    /\ ((inputs = []
         /\ get_user_choice strip lower upper parse_int prompt options
                            allow_search inputs = (pre, EOFError))
        \/ get_user_choice strip lower upper parse_int prompt options
                           allow_search inputs = (pre ++ fst run, snd run)).
Proof.
  cbv zeta. unfold get_user_choice, menu, menu_inputs.
  destruct ((20 <? List.length options)%nat && allow_search).
  - destruct inputs as [|line rest].
    + exists [Prompt prompt; OptionCount (len options)]. split.
      * intros n c i [H|[H|[]]]; discriminate.
      * left. now split.
    + cbv zeta. simpl tl.
      destruct (String.eqb (lower (strip line)) EmptyString); simpl negb;
        cbv iota.
      * destruct (choice_loop strip upper parse_int options 0 rest)
          as [ev r].
        exists [Prompt prompt; OptionCount (len options)]. split.
        -- intros n c i [H|[H|[]]]; discriminate.
        -- right. reflexivity.
      * destruct (filter _ options) as [|x l].
        -- destruct (choice_loop strip upper parse_int options 0 rest)
             as [ev r].
           exists [Prompt prompt; OptionCount (len options); NoSearchResult].
           split.
           ++ intros n c i [H|[H|[H|[]]]]; discriminate.
           ++ right. reflexivity.
        -- destruct (choice_loop strip upper parse_int (x :: l) 0 rest)
             as [ev r].
           exists [Prompt prompt; OptionCount (len options)]. split.
           ++ intros n c i [H|[H|[]]]; discriminate.
           ++ right. reflexivity.
  - destruct (choice_loop strip upper parse_int options 0 inputs) as [ev r].
    exists [Prompt prompt]. split.
    + intros n c i [H|[]]. discriminate.
    + right. reflexivity.
Qed.

(** X16.  An option returned by the menu is one of the options it was
    given: it is the option whose number, in the list the menu shows, is
    the number typed on the last line read; the lines after that one are
    left unread. *)
Theorem X16_choice_is_a_listed_option (prompt : string)
  (options : list string) (allow_search : bool) (inputs : list string)
  (events : list Event) (opt : string) (unread : list string) :
  get_user_choice strip lower upper parse_int prompt options allow_search
                  inputs
  = (events, Returned opt unread) ->
  In opt options
  /\ exists used line n,
       inputs = used ++ line :: unread
       /\ parse_int (upper (strip line)) = Some n
       /\ (1 <= n
           <= len (menu strip lower options allow_search inputs))%Z
       /\ nth_error (menu strip lower options allow_search inputs)
                    (Z.to_nat (n - 1))
          = Some opt.
Proof.
  intros Hrun.
  destruct (get_user_choice_spec prompt options allow_search inputs)
    as (pre & _ & [[_ H]|H]); cbv zeta in H; rewrite H in Hrun;
    [discriminate|].
  destruct (choice_loop strip upper parse_int
              (menu strip lower options allow_search inputs) 0
              (menu_inputs options allow_search inputs))
    as [ev r] eqn:E.
  simpl in Hrun. injection Hrun as _ ->.
  destruct (choice_loop_returned strip upper parse_int _ _ _ _ _ _ E)
    as (used & line & n & Hin & Hn & Hr & Hnth).
  split; [eapply menu_incl, nth_error_In, Hnth|].
  unfold menu_inputs in Hin.
  destruct ((20 <? List.length options)%nat && allow_search).
  - destruct inputs as [|l0 rest]; [destruct used; discriminate|].
    simpl in Hin. exists (l0 :: used), line, n.
    split; [now rewrite Hin|]. auto.
  - exists used, line, n. auto.
Qed.

(** X17.  Given at least one option, every page the menu prints has a
    number between 1 and the page count it announces, lists between one
    and twenty options, and numbers each of them by its position in the
    list the menu shows, within the range of that page. *)
Theorem X17_pages_are_in_range (prompt : string) (options : list string)
  (allow_search : bool) (inputs : list string) (number count : Z)
  (items : list (Z * string)) :
  options <> [] ->
  In (Page number count items)
     (fst (get_user_choice strip lower upper parse_int prompt options
                           allow_search inputs)) ->
  (1 <= number <= count)%Z
  /\ items <> []
  /\ (List.length items <= 20)%nat
  /\ forall i o, In (i, o) items ->
       nth_error (menu strip lower options allow_search inputs)
                 (Z.to_nat (i - 1))
       = Some o
       /\ In o options
       /\ ((number - 1) * 20 < i <= number * 20)%Z.
Proof.
  intros Hne Hin.
  destruct (get_user_choice_spec prompt options allow_search inputs)
    as (pre & Hpre & [[_ H]|H]); cbv zeta in H; rewrite H in Hin;
    simpl in Hin.
  - now apply Hpre in Hin.
  - apply in_app_or in Hin. destruct Hin as [Hin|Hin];
      [now apply Hpre in Hin|].
    apply choice_loop_pages in Hin.
    + destruct Hin as (H1 & H2 & H3 & H4).
      repeat split; try assumption; try (apply H1);
        destruct (H4 i o H0) as [Hnth Hrange]; try assumption;
        try (eapply menu_incl, nth_error_In, Hnth);
        unfold page_size in Hrange; simpl in Hrange; lia.
    + pose proof (menu_nonempty options allow_search inputs Hne) as Hm.
      destruct (menu strip lower options allow_search inputs);
        [congruence|simpl; lia].
Qed.

Lemma choice_loop_nil page inputs :
  snd (choice_loop strip upper parse_int [] page inputs) = EOFError.
Proof.
  revert page. induction inputs as [|line rest IH]; intros page;
    cbn [choice_loop]; [reflexivity|].
  replace (Nat.min (page * page_size + page_size) (List.length (@nil string))
           <? List.length (@nil string))%nat with false
    by (symmetry; apply Nat.ltb_ge; simpl; lia).
  rewrite andb_false_r.
  destruct (String.eqb (upper (strip line)) "P" && (0 <? page)%nat).
  { specialize (IH (page - 1)%nat).
    destruct (choice_loop strip upper parse_int [] (page - 1) rest).
    exact IH. }
  destruct (parse_int (upper (strip line))) as [n|].
  - replace ((0 <=? n - 1)%Z && (n - 1 <? len (@nil string))%Z) with false
      by (symmetry; apply andb_false_iff; unfold len; simpl;
          destruct (Z.leb_spec 0 (n - 1)); [right; apply Z.ltb_ge; lia
                                             |now left]).
    specialize (IH page).
    destruct (choice_loop strip upper parse_int [] page rest). exact IH.
  - specialize (IH page).
    destruct (choice_loop strip upper parse_int [] page rest). exact IH.
Qed.

Lemma choice_loop_first_page options page inputs :
  exists tail,
    fst (choice_loop strip upper parse_int options page inputs)
    = show_page options page ++ tail.
Proof.
  destruct inputs as [|line rest]; cbn [choice_loop].
  - exists []. simpl. now rewrite app_nil_r.
  - destruct (String.eqb (upper (strip line)) "N" && _).
    { destruct (choice_loop strip upper parse_int options (page + 1) rest)
        as [ev r]. now exists ev. }
    destruct (String.eqb (upper (strip line)) "P" && _).
    { destruct (choice_loop strip upper parse_int options (page - 1) rest)
        as [ev r]. now exists ev. }
    destruct (parse_int (upper (strip line))) as [n|].
    + destruct ((0 <=? n - 1)%Z && (n - 1 <? len options)%Z).
      * exists []. simpl. now rewrite app_nil_r.
      * destruct (choice_loop strip upper parse_int options page rest)
          as [ev r]. now exists (InvalidChoice :: ev).
    + destruct (choice_loop strip upper parse_int options page rest)
        as [ev r]. now exists (NotANumber :: ev).
Qed.

(** X18.  A menu without options can never be answered: whatever is
    typed, no line is accepted and the call only ends when the input does;
    its first page is announced as page 1 of 0 and lists nothing. *)
Theorem X18_empty_menu_never_returns (prompt : string) (allow_search : bool)
  (inputs : list string) :
  snd (get_user_choice strip lower upper parse_int prompt [] allow_search
                       inputs)
  = EOFError
  /\ In (Page 1 0 [])
        (fst (get_user_choice strip lower upper parse_int prompt []
                              allow_search inputs)).
Proof.
  unfold get_user_choice. simpl.
  pose proof (choice_loop_nil 0 inputs) as Hnil.
  destruct (choice_loop_first_page [] 0 inputs) as [tail Htail].
  destruct (choice_loop strip upper parse_int [] 0 inputs) as [ev r].
  simpl in *. split; [exact Hnil|]. right. rewrite Htail. now left.
Qed.

Lemma returned_from_menu prompt options allow_search inputs events opt unread :
  get_user_choice strip lower upper parse_int prompt options allow_search
                  inputs
  = (events, Returned opt unread) ->
  In opt (menu strip lower options allow_search inputs).
Proof.
  intros Hrun.
  destruct (get_user_choice_spec prompt options allow_search inputs)
    as (pre & _ & [[_ H]|H]); cbv zeta in H; rewrite H in Hrun;
    [discriminate|].
  destruct (choice_loop strip upper parse_int
              (menu strip lower options allow_search inputs) 0
              (menu_inputs options allow_search inputs))
    as [ev r] eqn:E.
  simpl in Hrun. injection Hrun as _ ->.
  destruct (choice_loop_returned strip upper parse_int _ _ _ _ _ _ E)
    as (used & line & n & _ & _ & _ & Hnth).
  eapply nth_error_In, Hnth.
Qed.

(** X19.  When a search is offered (more than twenty options) and the
    search line is not blank, a search that matches some option restricts
    the menu to the matching options, so that the option returned contains
    the search term; a search that matches nothing is reported and leaves
    the whole list. *)
Theorem X19_search_narrows_the_menu (prompt : string)
  (options : list string) (line : string) (rest : list string) :
  (20 < List.length options)%nat ->
  lower (strip line) <> EmptyString ->
  let search := lower (strip line) in
  let run := get_user_choice strip lower upper parse_int prompt options true
                             (line :: rest) in
  ((exists o, In o options /\ contains search (lower o) = true) ->
   menu strip lower options true (line :: rest)
   = filter (fun opt => contains search (lower opt)) options
   /\ forall opt unread,
        snd run = Returned opt unread ->
        contains search (lower opt) = true)
  /\ ((forall o, In o options -> contains search (lower o) = false) ->
      menu strip lower options true (line :: rest) = options
      /\ In NoSearchResult (fst run)).
Proof.
  intros Hlen Hsearch. cbv zeta.
  assert (Hoffer : (20 <? List.length options)%nat && true = true)
    by (rewrite andb_true_r; now apply Nat.ltb_lt).
  apply String.eqb_neq in Hsearch.
  split.
  - intros (o & Ho & Hmatch).
    assert (Hmenu : menu strip lower options true (line :: rest)
                    = filter (fun opt => contains (lower (strip line))
                                                  (lower opt)) options).
    { unfold menu. rewrite Hoffer. cbv zeta. rewrite Hsearch.
      destruct (filter _ options) as [|x l] eqn:E; [|reflexivity].
      assert (Hin : In o (filter (fun opt => contains (lower (strip line))
                                                      (lower opt)) options))
        by (apply filter_In; now split).
      rewrite E in Hin. contradiction. }
    split; [exact Hmenu|].
    intros opt unread Hret.
    destruct (get_user_choice strip lower upper parse_int prompt options true
                              (line :: rest)) as [ev r] eqn:E.
    simpl in Hret. subst r.
    pose proof (returned_from_menu _ _ _ _ _ _ _ E) as Hin.
    rewrite Hmenu in Hin. apply filter_In in Hin. now destruct Hin.
  - intros Hnone.
    assert (Hfilter : filter (fun opt => contains (lower (strip line))
                                                  (lower opt)) options = []).
    { apply filter_none. exact Hnone. }
    split.
    + unfold menu. rewrite Hoffer. cbv zeta. now rewrite Hsearch, Hfilter.
    + unfold get_user_choice. rewrite Hoffer. cbv zeta.
      rewrite Hsearch, Hfilter. simpl negb. cbv iota.
      destruct (choice_loop strip upper parse_int options 0 rest).
      simpl. auto.
Qed.

End MenuTheorems.

(** *** The menu on examples: no stripping or case folding, and unsigned
    decimal numerals for [int] *)

Definition unchanged (s : string) : string := s.

Definition decimal_int (s : string) : option Z :=
  option_map Z.of_uint (NilZero.uint_of_string s).

Definition three_markets : list string := ["ASDA"; "Aldi"; "Tesco"]%string.

(** Twenty-five products: twenty kinds of milk and five of bread. *)
Definition many_products : list string :=
  repeat "milk"%string 20 ++ repeat "bread"%string 5.

(** After a line that is no number, the line 2 picks the second option
    and the line 3 stays unread. *)
Lemma X16_choice_is_a_listed_option_witness :
  exists events,
    get_user_choice unchanged unchanged unchanged decimal_int "Supermarket"
                    three_markets false ["x"; "2"; "3"]%string
    = (events, Returned "Aldi"%string ["3"%string])
    /\ In NotANumber events
    /\ In "Aldi"%string three_markets.
Proof.
  eexists. split; [vm_compute; reflexivity|]. split; [vm_compute; tauto|].
  eapply (X16_choice_is_a_listed_option
            unchanged unchanged unchanged decimal_int "Supermarket"%string
            three_markets false ["x"; "2"; "3"]%string).
  vm_compute. reflexivity.
Defined.

(** With twenty-five options and the line N, the second page is page 2 of
    2 and lists the options 21 to 25. *)
Lemma X17_pages_are_in_range_witness :
  let items := enumerate (repeat "bread"%string 5) 21 in
  In (Page 2 2 items)
     (fst (get_user_choice unchanged unchanged unchanged decimal_int
                           "Product" many_products false ["N"%string]))
  /\ (1 <= 2 <= 2)%Z
  /\ items <> []
  /\ (List.length items <= 20)%nat.
Proof.
  cbv zeta.
  assert (Hin : In (Page 2 2 (enumerate (repeat "bread"%string 5) 21))
                   (fst (get_user_choice unchanged unchanged unchanged
                           decimal_int "Product"%string many_products false
                           ["N"%string])))
    by (vm_compute; tauto).
  split; [exact Hin|].
  destruct (X17_pages_are_in_range
              unchanged unchanged unchanged decimal_int "Product"%string
              many_products false ["N"%string] 2 2
              (enumerate (repeat "bread"%string 5) 21))
    as (H1 & H2 & H3 & _); [discriminate|exact Hin|].
  repeat split; try apply H1; assumption.
Defined.

(** Searching bread among the twenty-five products leaves the five kinds
    of bread, and the line 1 then picks the first of them. *)
Lemma X19_search_narrows_the_menu_witness :
  menu unchanged unchanged many_products true ["bread"; "1"]%string
  = repeat "bread"%string 5
  /\ snd (get_user_choice unchanged unchanged unchanged decimal_int "Product"
                          many_products true ["bread"; "1"]%string)
     = Returned "bread"%string []
  /\ contains "bread" "bread" = true.
Proof.
  destruct (X19_search_narrows_the_menu
              unchanged unchanged unchanged decimal_int "Product"%string
              many_products "bread"%string ["1"%string])
    as [Hsome _]; [vm_compute; lia|discriminate|].
  cbv zeta in Hsome.
  destruct Hsome as [Hmenu Hret].
  { exists "bread"%string. split; [vm_compute; tauto|reflexivity]. }
  split; [rewrite Hmenu; vm_compute; reflexivity|].
  split; [vm_compute; reflexivity|].
  apply (Hret "bread"%string []). vm_compute. reflexivity.
Defined.

(** * The price shown after a prediction

    The scaling correction applied to the model's output
    (price_prediction_terminal.py, lines 271-275, and
    price_prediction_app.py, lines 284-291).  The model's output is any
    float; numpy's square root is a parameter. *)

(** [a > b] on floats: false as soon as one side is NaN. *)
Definition fgt (x y : float) : bool :=
  match x, y with
  | Fin a, Fin b => negb (Qle_bool a b)
  | _, _ => false
  end.

(** Python's [max(a, b)]: [b] only when [b > a]. *)
Definition py_max (a b : float) : float := if fgt b a then b else a.

(** The sum of squared deviations from the mean. *)
Definition squared_deviations (l : list Q) : Q :=
  Qsum (map (fun x => (x - Qmean l) * (x - Qmean l)) l).

Section ScalingCorrection.

Variable sqrt : Q -> Q.

(** [Series.std()]: the sample standard deviation (one degree of freedom
    removed), NaN when fewer than two values are defined. *)
Definition series_std (s : Series) : float :=
  match defined s with
  | [] => NaN
  | [_] => NaN
  | l => Fin (sqrt (squared_deviations l / inject_Z (len l - 1)))
  end.

Definition final_predicted_price (predicted_price : float) (price_gbp : Series)
  : float :=
  let actual_avg_price := series_mean price_gbp in
  let actual_std_price := series_std price_gbp in
  let final_predicted_price :=
    fadd (fmul predicted_price actual_std_price) actual_avg_price in
  py_max (Fin 0.01) final_predicted_price.

End ScalingCorrection.

Lemma py_max_floor (x : float) :
  exists q, py_max (Fin 0.01) x = Fin q /\ 0.01 <= q.
Proof.
  unfold py_max. destruct x as [|q]; simpl.
  - exists 0.01. split; [reflexivity|apply Qle_refl].
  - destruct (Qle_bool q 0.01) eqn:E; simpl.
    + exists 0.01. split; [reflexivity|apply Qle_refl].
    + exists q. split; [reflexivity|].
      apply Qlt_le_weak, Qnot_le_lt. intros H.
      apply Qle_bool_iff in H. congruence.
Qed.

(** X20.  The price shown is always a number, and never less than 0.01,
    whatever the model predicts and whatever the price history holds. *)
Theorem X20_final_price_at_least_a_penny (sqrt : Q -> Q)
  (predicted_price : float) (price_gbp : Series) :
  exists q,
    final_predicted_price sqrt predicted_price price_gbp = Fin q
    /\ 0.01 <= q.
Proof.
  unfold final_predicted_price. cbv zeta. apply py_max_floor.
Qed.

(** X21.  With a price history of fewer than two defined prices the
    standard deviation is NaN, and the price shown is 0.01 whatever the
    model predicts. *)
Theorem X21_single_observation_shows_a_penny (sqrt : Q -> Q)
  (predicted_price : float) (price_gbp : Series) :
  (List.length (defined price_gbp) <= 1)%nat ->
  final_predicted_price sqrt predicted_price price_gbp = Fin 0.01.
Proof.
  intros Hlen. unfold final_predicted_price, series_std. cbv zeta.
  destruct (defined price_gbp) as [|x [|y l]]; [| |simpl in Hlen; lia];
    destruct predicted_price; reflexivity.
Qed.

(** A product seen once at 2.50: whatever the prediction (here 0.3), the
    price shown is 0.01. *)
Lemma X21_single_observation_shows_a_penny_witness :
  final_predicted_price (fun v => v) (Fin 0.3) [("0"%string, Fin 2.50)]
  = Fin 0.01.
Proof.
  apply X21_single_observation_shows_a_penny. simpl. lia.
Defined.

(** * The feature vector: [prepare_features]

    price_prediction_terminal.py, lines 120-212 (the same statements run
    at lines 185-279 of price_prediction_app.py).  A row of the cleaned
    data is a record; the two columns read with [.get] may be absent.
    The prediction date is known by the four attributes the code reads.
    [sort_values('capture_date')] is, as before, any sort that keeps
    pandas' promise. *)

Record Observation : Type := {
  product_name : string;
  supermarket_name : string;
  category_name : string;
  capture_date : Z;
  price_gbp : float;
  price_unit_gbp : float;
  unit_label : string;
  price_category : option string;
  is_own_brand : option float
}.

Record PredictionDate : Type := {
  month : Z;
  day : Z;
  weekday : Z;
  isocalendar_week : Z
}.

(** A value of the feature dictionary. *)
Inductive Value : Type :=
| IntValue (z : Z)
| FloatValue (x : float)
| QuotientValue (q : quotient).

Definition date_le (r1 r2 : Observation) : Prop :=
  (capture_date r1 <= capture_date r2)%Z.

Record date_sort : Type := {
  sort_observations : list Observation -> list Observation;
  sort_observations_perm : forall l, Permutation l (sort_observations l);
  sort_observations_sorted : forall l, Sorted date_le (sort_observations l)
}.

(** [dict(items)]: the keys in the order they first come, each with the
    value it comes with last. *)
Definition dict_of_items {V : Type} (items : list (string * V)) : dict V :=
  fold_left (fun d kv => dict_set (fst kv) (snd kv) d) items [].

(** [d.get(k, default)]. *)
Definition dict_get {V : Type} (d : dict V) (k : string) (default : V) : V :=
  match dict_getitem d k with
  | Ok v => v
  | Raise _ => default
  end.

(** [Series.unique()]: the values in the order they first appear. *)
Fixpoint unique (l : list string) : list string :=
  match l with
  | [] => []
  | x :: rest => x :: filter (fun y => negb (String.eqb x y)) (unique rest)
  end.

(** The mean of a column of floats; labels play no part in it. *)
Definition column_mean (values : list float) : float :=
  series_mean (map (fun x => (EmptyString, x)) values).

(** [X_pred[feature_names]] on the one-row frame made of a dictionary:
    the error names the first missing column. *)
Fixpoint select_columns (d : dict Value) (names : list string)
  : result (list (string * Value)) :=
  match names with
  | [] => Ok []
  | name :: rest =>
      v <- dict_getitem d name ;;
      others <- select_columns d rest ;;
      Ok ((name, v) :: others)
  end.

(** [df['price_gbp']] and [df['price_unit_gbp']]. *)
Definition column_price_gbp (df : list Observation) : list float :=
  map price_gbp df.

Definition column_price_unit_gbp (df : list Observation) : list float :=
  map price_unit_gbp df.

Definition in_list (x : string) (l : list string) : bool :=
  existsb (String.eqb x) l.

Definition prepare_features (sort : date_sort)
  (selected_product selected_supermarket selected_category : string)
  (prediction_date : PredictionDate) (df_cleaned : list Observation)
  (feature_names : list string)
  : outcome (option (list (string * Value) * list Observation)) :=
  let product_data :=
    filter (fun r =>
              String.eqb (product_name r) selected_product
              && String.eqb (supermarket_name r) selected_supermarket
              && String.eqb (category_name r) selected_category)
           df_cleaned in
  if (len product_data =? 0)%Z then Done None
  else
    latest_data <~ iloc (sort_observations sort product_data) (-1) ;;
    let month := month prediction_date in
    let day := day prediction_date in
    let day_of_week := weekday prediction_date in
    let week := isocalendar_week prediction_date in
    let is_weekend := if (5 <=? day_of_week)%Z then 1%Z else 0%Z in
    let is_month_start := if (day <=? 7)%Z then 1%Z else 0%Z in
    let is_month_end := if (25 <=? day)%Z then 1%Z else 0%Z in
    let season_encoded :=
      if existsb (Z.eqb month) [12; 1; 2]%Z then 0%Z
      else if existsb (Z.eqb month) [3; 4; 5]%Z then 1%Z
      else if existsb (Z.eqb month) [6; 7; 8]%Z then 2%Z
      else 3%Z in
    let supermarket_features :=
      dict_of_items
        (map (fun sm => (("supermarket_" ++ sm)%string, IntValue 0))
             ["ASDA"; "Aldi"; "Morrisons"; "Sains"; "Tesco"]%string) in
    let supermarket_features :=
      if String.eqb selected_supermarket "Sainsbury's" then
        dict_set "supermarket_Sains" (IntValue 1) supermarket_features
      else
        dict_set ("supermarket_" ++ selected_supermarket)%string (IntValue 1)
                 supermarket_features in
    let category_features :=
      dict_of_items
        (map (fun cat => (("category_" ++ cat)%string, IntValue 0))
             (unique (map category_name df_cleaned))) in
    let category_features :=
      dict_set ("category_" ++ selected_category)%string (IntValue 1)
               category_features in
    let price_unit_gbp := price_unit_gbp latest_data in
    let unit_map :=
      dict_of_items [("kg", 0); ("l", 1); ("unit", 2)]%string%Z in
    let unit_encoded := dict_get unit_map (unit_label latest_data) 2%Z in
    let price_cat_map :=
      dict_of_items [("Ucuz", 2); ("Orta", 0); ("Pahalı", 1)]%string%Z in
    let price_category_encoded :=
      match price_category latest_data with
      | Some c => dict_get price_cat_map c 0%Z
      | None => 0%Z
      end in
    let is_own_brand :=
      match is_own_brand latest_data with
      | Some b => FloatValue b
      | None => IntValue 0
      end in
    let price_to_unit_ratio :=
      fdiv (column_mean (column_price_gbp product_data))
           (fadd (column_mean (column_price_unit_gbp product_data))
                 (Fin 0.001)) in
    let price_vs_category_avg := 0%Z in
    let price_vs_supermarket_avg := 0%Z in
    let is_premium_category :=
      if in_list selected_category
                 ["health_products"; "baby_products"; "home"]%string
      then 1%Z else 0%Z in
    let is_discount_supermarket :=
      if in_list selected_supermarket ["Aldi"; "ASDA"]%string
      then 1%Z else 0%Z in
    let premium_category_x_premium_supermarket :=
      (is_premium_category * (1 - is_discount_supermarket))%Z in
    let feature_dict :=
      dict_of_items
        ([("price_unit_gbp"%string, FloatValue price_unit_gbp)]
         ++ supermarket_features
         ++ category_features
         ++ [("unit_encoded", IntValue unit_encoded);
             ("price_category_encoded", IntValue price_category_encoded);
             ("is_own_brand", is_own_brand);
             ("month", IntValue month);
             ("day", IntValue day);
             ("day_of_week", IntValue day_of_week);
             ("week", IntValue week);
             ("is_weekend", IntValue is_weekend);
             ("price_to_unit_ratio", QuotientValue price_to_unit_ratio);
             ("price_vs_category_avg", IntValue price_vs_category_avg);
             ("price_vs_supermarket_avg", IntValue price_vs_supermarket_avg);
             ("is_month_start", IntValue is_month_start);
             ("is_month_end", IntValue is_month_end);
             ("season_encoded", IntValue season_encoded);
             ("is_premium_category", IntValue is_premium_category);
             ("is_discount_supermarket", IntValue is_discount_supermarket);
             ("premium_category_x_premium_supermarket",
              IntValue premium_category_x_premium_supermarket)]%string) in
    X_pred <~ lift (select_columns feature_dict feature_names) ;;
    Done (Some (X_pred, product_data)).

(** The observations that match the selection (lines 125-129). *)
Definition matching (selected_product selected_supermarket selected_category
                     : string) (df_cleaned : list Observation)
  : list Observation :=
  filter (fun r =>
            String.eqb (product_name r) selected_product
            && String.eqb (supermarket_name r) selected_supermarket
            && String.eqb (category_name r) selected_category)
         df_cleaned.

(** The items of the feature dictionary (lines 136-207), given the latest
    matching observation. *)
Definition feature_items
  (selected_supermarket selected_category : string)
  (prediction_date : PredictionDate) (df_cleaned : list Observation)
  (product_data : list Observation) (latest_data : Observation)
  : list (string * Value) :=
  let season_encoded :=
    if existsb (Z.eqb (month prediction_date)) [12; 1; 2]%Z then 0%Z
    else if existsb (Z.eqb (month prediction_date)) [3; 4; 5]%Z then 1%Z
    else if existsb (Z.eqb (month prediction_date)) [6; 7; 8]%Z then 2%Z
    else 3%Z in
  let is_premium_category :=
    if in_list selected_category
               ["health_products"; "baby_products"; "home"]%string
    then 1%Z else 0%Z in
  let is_discount_supermarket :=
    if in_list selected_supermarket ["Aldi"; "ASDA"]%string
    then 1%Z else 0%Z in
  [("price_unit_gbp"%string, FloatValue (price_unit_gbp latest_data))]
  ++ (let base :=
        dict_of_items
          (map (fun sm => (("supermarket_" ++ sm)%string, IntValue 0))
               ["ASDA"; "Aldi"; "Morrisons"; "Sains"; "Tesco"]%string) in
      if String.eqb selected_supermarket "Sainsbury's" then
        dict_set "supermarket_Sains" (IntValue 1) base
      else
        dict_set ("supermarket_" ++ selected_supermarket)%string (IntValue 1)
                 base)
  ++ dict_set ("category_" ++ selected_category)%string (IntValue 1)
       (dict_of_items
          (map (fun cat => (("category_" ++ cat)%string, IntValue 0))
               (unique (map category_name df_cleaned))))
  ++ [("unit_encoded",
       IntValue (dict_get
                   (dict_of_items [("kg", 0); ("l", 1); ("unit", 2)]%string%Z)
                   (unit_label latest_data) 2%Z));
      ("price_category_encoded",
       IntValue
         match price_category latest_data with
         | Some c =>
             dict_get
               (dict_of_items
                  [("Ucuz", 2); ("Orta", 0); ("Pahalı", 1)]%string%Z)
               c 0%Z
         | None => 0%Z
         end);
      ("is_own_brand",
       match is_own_brand latest_data with
       | Some b => FloatValue b
       | None => IntValue 0
       end);
      ("month", IntValue (month prediction_date));
      ("day", IntValue (day prediction_date));
      ("day_of_week", IntValue (weekday prediction_date));
      ("week", IntValue (isocalendar_week prediction_date));
      ("is_weekend",
       IntValue (if (5 <=? weekday prediction_date)%Z then 1 else 0));
      ("price_to_unit_ratio",
       QuotientValue
         (fdiv (column_mean (column_price_gbp product_data))
               (fadd (column_mean (column_price_unit_gbp product_data))
                     (Fin 0.001))));
      ("price_vs_category_avg", IntValue 0);
      ("price_vs_supermarket_avg", IntValue 0);
      ("is_month_start",
       IntValue (if (day prediction_date <=? 7)%Z then 1 else 0));
      ("is_month_end",
       IntValue (if (25 <=? day prediction_date)%Z then 1 else 0));
      ("season_encoded", IntValue season_encoded);
      ("is_premium_category", IntValue is_premium_category);
      ("is_discount_supermarket", IntValue is_discount_supermarket);
      ("premium_category_x_premium_supermarket",
       IntValue (is_premium_category * (1 - is_discount_supermarket)))
     ]%string.

(** The value an item list gives a key: the one it comes with last. *)
Fixpoint last_value {V : Type} (items : list (string * V)) (k : string)
  : option V :=
  match items with
  | [] => None
  | (k', v) :: rest =>
      match last_value rest k with
      | Some v' => Some v'
      | None => if String.eqb k' k then Some v else None
      end
  end.

(** Insertion sort of the observations by date. *)
Fixpoint insert_observation (r : Observation) (l : list Observation)
  : list Observation :=
  match l with
  | [] => [r]
  | r' :: rest =>
      if (capture_date r <=? capture_date r')%Z then r :: l
      else r' :: insert_observation r rest
  end.

Definition sort_by_date (l : list Observation) : list Observation :=
  fold_right insert_observation [] l.

Lemma insert_observation_perm r l :
  Permutation (r :: l) (insert_observation r l).
Proof.
  induction l as [|r' rest IH]; simpl; [apply Permutation_refl|].
  destruct (capture_date r <=? capture_date r')%Z;
    [apply Permutation_refl|].
  eapply perm_trans; [apply perm_swap|]. now apply perm_skip.
Qed.

Lemma sort_by_date_perm l : Permutation l (sort_by_date l).
Proof.
  induction l as [|r rest IH]; simpl; [constructor|].
  eapply perm_trans; [apply perm_skip, IH|apply insert_observation_perm].
Qed.

Lemma insert_observation_sorted r l :
  Sorted date_le l -> Sorted date_le (insert_observation r l).
Proof.
  induction 1 as [|r' rest Hs IH Hhd]; simpl; [repeat constructor|].
  destruct (Z.leb_spec (capture_date r) (capture_date r')) as [Hle|Hgt].
  - constructor; [now constructor|]. now constructor.
  - constructor; [exact IH|].
    destruct rest as [|r'' rest']; simpl.
    + constructor. unfold date_le. lia.
    + destruct (capture_date r <=? capture_date r'')%Z; constructor.
      * unfold date_le. lia.
      * now inversion Hhd.
Qed.

Lemma sort_by_date_sorted l : Sorted date_le (sort_by_date l).
Proof.
  induction l as [|r rest IH]; simpl; [constructor|].
  now apply insert_observation_sorted.
Qed.

Definition insertion_date_sort : date_sort :=
  {| sort_observations := sort_by_date;
     sort_observations_perm := sort_by_date_perm;
     sort_observations_sorted := sort_by_date_sorted |}.

(** Free-range eggs at Tesco, seen twice. *)
Definition eggs_history : list Observation :=
  [ {| product_name := "Eggs"; supermarket_name := "Tesco";
       category_name := "fresh_food"; capture_date := 20240110;
       price_gbp := Fin 2.00; price_unit_gbp := Fin 0.33;
       unit_label := "unit"; price_category := Some "Orta";
       is_own_brand := Some (Fin 1) |};
    {| product_name := "Eggs"; supermarket_name := "Tesco";
       category_name := "fresh_food"; capture_date := 20240301;
       price_gbp := Fin 2.20; price_unit_gbp := Fin 0.37;
       unit_label := "unit"; price_category := Some "Orta";
       is_own_brand := Some (Fin 1) |} ]%string.

(** Saturday 15 June 2024, week 24. *)
Definition mid_june : PredictionDate :=
  {| month := 6; day := 15; weekday := 5; isocalendar_week := 24 |}.

(** ** Lemmas on dictionaries built from items *)

Lemma dict_getitem_set {V : Type} (k' : string) (v : V) (d : dict V) k :
  dict_getitem (dict_set k' v d) k
  = if String.eqb k' k then Ok v else dict_getitem d k.
Proof.
  induction d as [|[k0 v0] rest IH]; simpl.
  - destruct (String.eqb k' k); reflexivity.
  - destruct (String.eqb k0 k') eqn:E0; simpl.
    + apply String.eqb_eq in E0. subst k0.
      destruct (String.eqb k' k); reflexivity.
    + destruct (String.eqb k0 k) eqn:E1; [|exact IH].
      apply String.eqb_eq in E1. subst k0.
      destruct (String.eqb k' k) eqn:E2; [|reflexivity].
      apply String.eqb_eq in E2. subst k'.
      rewrite String.eqb_refl in E0. discriminate.
Qed.

Lemma dict_getitem_fold {V : Type} (items : list (string * V)) (acc : dict V)
  k :
  dict_getitem (fold_left (fun d kv => dict_set (fst kv) (snd kv) d) items acc)
               k
  = match last_value items k with
    | Some v => Ok v
    | None => dict_getitem acc k
    end.
Proof.
  revert acc. induction items as [|[k' v] rest IH]; intros acc; simpl;
    [reflexivity|].
  rewrite IH. destruct (last_value rest k); [reflexivity|].
  rewrite dict_getitem_set. simpl. destruct (String.eqb k' k); reflexivity.
Qed.

Lemma dict_getitem_of_items {V : Type} (items : list (string * V)) k :
  dict_getitem (dict_of_items items) k
  = match last_value items k with
    | Some v => Ok v
    | None => Raise (KeyError k)
    end.
Proof.
  unfold dict_of_items. now rewrite dict_getitem_fold.
Qed.

Lemma last_value_app {V : Type} (l1 l2 : list (string * V)) k :
  last_value (l1 ++ l2) k
  = match last_value l2 k with
    | Some v => Some v
    | None => last_value l1 k
    end.
Proof.
  induction l1 as [|[k' v] rest IH]; simpl.
  - destruct (last_value l2 k); reflexivity.
  - rewrite IH. destruct (last_value l2 k); reflexivity.
Qed.

Lemma last_value_none {V : Type} (items : list (string * V)) k :
  ~ In k (map fst items) <-> last_value items k = None.
Proof.
  induction items as [|[k' v] rest IH]; simpl; [tauto|].
  destruct (last_value rest k) eqn:E.
  - split; [|discriminate]. intros H. exfalso.
    assert (Hrest : ~ In k (map fst rest)) by tauto.
    apply IH in Hrest. discriminate.
  - destruct (String.eqb k' k) eqn:Ek.
    + apply String.eqb_eq in Ek. split; [tauto|discriminate].
    + apply String.eqb_neq in Ek. split; [reflexivity|].
      intros _ [H|H]; [contradiction|]. now apply IH in H.
Qed.

Lemma last_value_In {V : Type} (items : list (string * V)) k v :
  last_value items k = Some v -> In (k, v) items.
Proof.
  induction items as [|[k' v'] rest IH]; simpl; [discriminate|].
  destruct (last_value rest k) eqn:E.
  - intros H. injection H as ->. right. now apply IH.
  - destruct (String.eqb k' k) eqn:Ek; [|discriminate].
    apply String.eqb_eq in Ek. intros H. injection H as ->. subst. now left.
Qed.

(** On a dictionary, whose keys are distinct, the last value of a key is
    its value. *)
Lemma last_value_dict {V : Type} (d : dict V) k :
  NoDup (map fst d) ->
  last_value d k = match dict_getitem d k with
                   | Ok v => Some v
                   | Raise _ => None
                   end.
Proof.
  induction d as [|[k' v] rest IH]; simpl; intros Hnd; [reflexivity|].
  inversion Hnd as [|? ? Hnotin Hnd']; subst.
  rewrite (IH Hnd').
  destruct (String.eqb k' k) eqn:Ek.
  - apply String.eqb_eq in Ek. subst k'.
    apply last_value_none in Hnotin. rewrite (IH Hnd') in Hnotin.
    now rewrite Hnotin.
  - destruct (dict_getitem rest k); reflexivity.
Qed.

Lemma dict_of_items_keys {V : Type} (items : list (string * V)) k :
  In k (map fst (dict_of_items items)) <-> In k (map fst items).
Proof.
  unfold dict_of_items.
  assert (H : forall acc,
            In k (map fst (fold_left
                             (fun d kv => dict_set (fst kv) (snd kv) d)
                             items acc))
            <-> In k (map fst acc) \/ In k (map fst items)).
  { induction items as [|[k' v] rest IH]; intros acc; simpl; [tauto|].
    rewrite IH, dict_set_keys_In. intuition. }
  rewrite H. simpl. tauto.
Qed.

Lemma dict_of_items_NoDup {V : Type} (items : list (string * V)) :
  NoDup (map fst (dict_of_items items)).
Proof.
  unfold dict_of_items.
  assert (H : forall acc, NoDup (map fst acc) ->
            NoDup (map fst (fold_left
                              (fun d kv => dict_set (fst kv) (snd kv) d)
                              items acc))).
  { induction items as [|[k' v] rest IH]; intros acc Hacc; simpl;
      [exact Hacc|]. apply IH. now apply dict_set_NoDup. }
  apply H. constructor.
Qed.

Lemma dict_getitem_Ok_iff {V : Type} (d : dict V) k :
  (exists v, dict_getitem d k = Ok v) <-> In k (map fst d).
Proof.
  induction d as [|[k' v'] rest IH]; simpl.
  - split; [intros [v H]; discriminate|tauto].
  - destruct (String.eqb k' k) eqn:E.
    + apply String.eqb_eq in E. split; [tauto|eauto].
    + apply String.eqb_neq in E. rewrite IH. tauto.
Qed.

Lemma dict_getitem_Raise {V : Type} (d : dict V) k e :
  dict_getitem d k = Raise e -> e = KeyError k /\ ~ In k (map fst d).
Proof.
  induction d as [|[k' v'] rest IH]; simpl.
  - intros H. injection H as <-. tauto.
  - destruct (String.eqb k' k) eqn:E; [discriminate|].
    apply String.eqb_neq in E. intros H. apply IH in H. tauto.
Qed.

(** ** Lemmas on the selection of columns *)

Lemma select_columns_Ok d names X :
  select_columns d names = Ok X ->
  map fst X = names /\ forall name v, In (name, v) X -> dict_getitem d name = Ok v.
Proof.
  revert X. induction names as [|name rest IH]; simpl; intros X H.
  - injection H as <-. split; [reflexivity|intros ? ? []].
  - destruct (dict_getitem d name) as [v|e] eqn:Ev; [|discriminate].
    simpl in H. destruct (select_columns d rest) as [others|e] eqn:Eo;
      [|discriminate].
    simpl in H. injection H as <-. destruct (IH others eq_refl) as [Hn Hv].
    split; [simpl; now rewrite Hn|].
    intros name' v' [E|Hin]; [injection E as <- <-; exact Ev|now apply Hv].
Qed.

Lemma select_columns_Raise d names e :
  select_columns d names = Raise e ->
  exists name, e = KeyError name /\ In name names /\ ~ In name (map fst d).
Proof.
  induction names as [|name rest IH]; simpl; intros H; [discriminate|].
  destruct (dict_getitem d name) as [v|e'] eqn:Ev.
  - simpl in H. destruct (select_columns d rest) as [others|e''] eqn:Eo;
      [discriminate|].
    simpl in H. injection H as <-.
    destruct (IH eq_refl) as (n & -> & Hin & Hk). exists n. tauto.
  - simpl in H. injection H as <-. apply dict_getitem_Raise in Ev.
    destruct Ev as [-> Hk]. exists name. tauto.
Qed.

Lemma select_columns_total d names :
  (forall name, In name names -> In name (map fst d)) ->
  exists X, select_columns d names = Ok X.
Proof.
  induction names as [|name rest IH]; simpl; intros H; [eauto|].
  destruct (proj2 (dict_getitem_Ok_iff d name) (H name (or_introl eq_refl)))
    as [v ->].
  destruct IH as [others ->]; [intros; apply H; now right|].
  simpl. eauto.
Qed.

(** ** What [prepare_features] returns *)

Lemma prepare_features_eq sort sp ss sc date df names :
  prepare_features sort sp ss sc date df names
  = let product_data := matching sp ss sc df in
    if (len product_data =? 0)%Z then Done None
    else
      latest_data <~ iloc (sort_observations sort product_data) (-1) ;;
      X_pred <~ lift (select_columns
                        (dict_of_items
                           (feature_items ss sc date df product_data
                                          latest_data))
                        names) ;;
      Done (Some (X_pred, product_data)).
Proof.
  reflexivity.
Qed.

Lemma strongly_sorted_last {A : Type} (R : A -> A -> Prop) :
  (forall x, R x x) -> (forall x y z, R x y -> R y z -> R x z) ->
  forall l x y, StronglySorted R (x :: l) -> In y (x :: l) -> R y (last l x).
Proof.
  intros Hrefl Htrans. induction l as [|a rest IH]; intros x y Hs Hin.
  - destruct Hin as [<-|[]]. apply Hrefl.
  - inversion Hs as [|? ? Hs' Hall]; subst.
    assert (E : last (a :: rest) x = last rest a).
    { destruct rest as [|b rest']; [reflexivity|].
      change (last (b :: rest') x = last (b :: rest') a).
      apply last_default. discriminate. }
    rewrite E. destruct Hin as [<-|Hin]; [|now apply IH].
    apply (Htrans _ a).
    + rewrite Forall_forall in Hall. apply Hall. now left.
    + apply IH; [exact Hs'|now left].
Qed.

(** The row read by [iloc[-1]] after the sort is a matching observation
    of the latest date. *)
Lemma latest_observation sort (pd : list Observation) :
  pd <> [] ->
  exists latest,
    iloc (sort_observations sort pd) (-1) = Done latest
    /\ In latest pd
    /\ forall r, In r pd -> (capture_date r <= capture_date latest)%Z.
Proof.
  intros Hne.
  pose proof (sort_observations_perm sort pd) as Hperm.
  pose proof (sort_observations_sorted sort pd) as Hsorted.
  destruct (sort_observations sort pd) as [|x l] eqn:E.
  - apply Permutation_sym, Permutation_nil in Hperm. congruence.
  - exists (last l x). split; [apply iloc_last|].
    apply Sorted_StronglySorted in Hsorted;
      [|intros a b c; unfold date_le; lia].
    assert (Hlast : In (last l x) (x :: l)).
    { destruct l as [|y l']; [now left|]. right.
      destruct (exists_last (l := y :: l')) as (l'' & a & El);
        [discriminate|].
      rewrite El, last_last. apply in_or_app. right. now left. }
    split.
    + apply (Permutation_in _ (Permutation_sym Hperm)), Hlast.
    + intros r Hr. apply (Permutation_in _ Hperm) in Hr.
      apply (strongly_sorted_last date_le); try assumption;
        unfold date_le; intros; lia.
Qed.

Lemma prepare_features_inv sort sp ss sc date df names X pd :
  prepare_features sort sp ss sc date df names = Done (Some (X, pd)) ->
  pd = matching sp ss sc df
  /\ pd <> []
  /\ exists latest,
       In latest pd
       /\ (forall r, In r pd -> (capture_date r <= capture_date latest)%Z)
       /\ select_columns
            (dict_of_items (feature_items ss sc date df pd latest)) names
          = Ok X.
Proof.
  rewrite prepare_features_eq. cbv zeta.
  destruct (matching sp ss sc df) as [|r0 rest] eqn:E; [discriminate|].
  replace (len (r0 :: rest) =? 0)%Z with false
    by (symmetry; apply Z.eqb_neq; unfold len; simpl; lia).
  destruct (latest_observation sort (r0 :: rest)) as (latest & -> & Hin & Hmax);
    [discriminate|].
  cbn [and_then].
  destruct (select_columns _ names) as [X'|e] eqn:Es; [|discriminate].
  cbn [lift and_then]. intros H. injection H as <- <-.
  split; [reflexivity|]. split; [discriminate|]. eauto.
Qed.

(** The keys of the feature dictionary. *)
Definition feature_keys (selected_supermarket selected_category : string)
  (df_cleaned : list Observation) : list string :=
  ["price_unit_gbp"; "supermarket_ASDA"; "supermarket_Aldi";
   "supermarket_Morrisons"; "supermarket_Sains"; "supermarket_Tesco"]%string
  ++ [if String.eqb selected_supermarket "Sainsbury's"
      then "supermarket_Sains"%string
      else ("supermarket_" ++ selected_supermarket)%string]
  ++ map (fun cat => ("category_" ++ cat)%string)
         (unique (map category_name df_cleaned))
  ++ [("category_" ++ selected_category)%string]
  ++ ["unit_encoded"; "price_category_encoded"; "is_own_brand"; "month";
      "day"; "day_of_week"; "week"; "is_weekend"; "price_to_unit_ratio";
      "price_vs_category_avg"; "price_vs_supermarket_avg"; "is_month_start";
      "is_month_end"; "season_encoded"; "is_premium_category";
      "is_discount_supermarket";
      "premium_category_x_premium_supermarket"]%string.

Lemma feature_items_keys ss sc date df pd latest k :
  In k (map fst (dict_of_items (feature_items ss sc date df pd latest)))
  <-> In k (feature_keys ss sc df).
Proof.
  rewrite dict_of_items_keys. unfold feature_items, feature_keys. cbv zeta.
  rewrite !map_app, !in_app_iff.
  rewrite !dict_set_keys_In, !dict_of_items_keys, !map_map.
  destruct (String.eqb ss "Sainsbury's");
    rewrite !dict_set_keys_In; simpl; intuition.
Qed.

Lemma category_part_none sc cats k :
  (forall x, k <> ("category_" ++ x)%string) ->
  last_value
    (dict_set ("category_" ++ sc)%string (IntValue 1)
       (dict_of_items
          (map (fun cat => (("category_" ++ cat)%string, IntValue 0)) cats)))
    k = None.
Proof.
  intros Hk. apply last_value_none.
  rewrite dict_set_keys_In, dict_of_items_keys, map_map.
  intros [H|H]; [now apply (Hk sc)|].
  apply in_map_iff in H. destruct H as (cat & H & _). simpl in H.
  now apply (Hk cat).
Qed.

Lemma supermarket_part_keys ss k :
  In k (map fst
          (let base :=
             dict_of_items
               (map (fun sm => (("supermarket_" ++ sm)%string, IntValue 0))
                    ["ASDA"; "Aldi"; "Morrisons"; "Sains"; "Tesco"]%string) in
           if String.eqb ss "Sainsbury's" then
             dict_set "supermarket_Sains" (IntValue 1) base
           else dict_set ("supermarket_" ++ ss)%string (IntValue 1) base)) ->
  exists x, k = ("supermarket_" ++ x)%string.
Proof.
  cbv zeta. destruct (String.eqb ss "Sainsbury's");
    rewrite dict_set_keys_In, dict_of_items_keys; simpl;
    intros H; repeat (destruct H as [H|H]); subst; try contradiction;
    eauto;
    first [now exists "ASDA"%string | now exists "Aldi"%string
          | now exists "Morrisons"%string | now exists "Sains"%string
          | now exists "Tesco"%string].
Qed.

(** X23.  [prepare_features] returns nothing exactly when no observation
    matches the selection.  When some do, it returns the feature vector,
    with the requested names in the requested order, exactly when every
    requested name is a key of the feature dictionary; the only way it can
    fail is a [KeyError] for a requested name that is not such a key. *)
Theorem X23_prepare_features_outcomes (sort : date_sort)
  (sp ss sc : string) (date : PredictionDate) (df : list Observation)
  (names : list string) :
  (prepare_features sort sp ss sc date df names = Done None
   <-> matching sp ss sc df = [])
  /\ (matching sp ss sc df <> [] ->
      ((exists X,
          prepare_features sort sp ss sc date df names
          = Done (Some (X, matching sp ss sc df))
          /\ map fst X = names)
       <-> forall name, In name names -> In name (feature_keys ss sc df)))
  /\ (forall e,
        prepare_features sort sp ss sc date df names = Failed e ->
        exists name,
          e = Lookup (KeyError name)
          /\ In name names
          /\ ~ In name (feature_keys ss sc df)).
Proof.
  rewrite prepare_features_eq. cbv zeta.
  destruct (matching sp ss sc df) as [|r0 rest] eqn:E.
  - split; [split; reflexivity|]. split; [congruence|discriminate].
  - replace (len (r0 :: rest) =? 0)%Z with false
      by (symmetry; apply Z.eqb_neq; unfold len; simpl; lia).
    destruct (latest_observation sort (r0 :: rest))
      as (latest & -> & _ & _); [discriminate|].
    cbn [and_then].
    set (d := dict_of_items (feature_items ss sc date df (r0 :: rest) latest)).
    assert (Hkeys : forall k, In k (map fst d) <-> In k (feature_keys ss sc df))
      by (intros k; apply feature_items_keys).
    destruct (select_columns d names) as [X|e] eqn:Es; cbn [lift and_then].
    + split; [split; discriminate|]. split.
      * intros _. split.
        -- intros _ name Hname.
           destruct (select_columns_Ok _ _ _ Es) as [Hn Hv].
           apply Hkeys. apply dict_getitem_Ok_iff.
           rewrite <- Hn in Hname. apply in_map_iff in Hname.
           destruct Hname as ([n v] & <- & Hin). exists v. now apply Hv.
        -- intros _. exists X. split; [reflexivity|].
           now apply select_columns_Ok in Es.
      * discriminate.
    + apply select_columns_Raise in Es.
      destruct Es as (name & -> & Hin & Hk).
      split; [split; discriminate|]. split.
      * intros _. split.
        -- intros (X & H & _). discriminate.
        -- intros Hall. exfalso. apply Hk, Hkeys, Hall, Hin.
      * intros e' H. injection H as <-. exists name.
        split; [reflexivity|]. split; [exact Hin|].
        intros H. apply Hk, Hkeys, H.
Qed.

(** The data knows one category, fresh food, and Tesco is selected: a
    model that asks for the column of the bakery category gets a
    [KeyError]. *)
Lemma X23_prepare_features_outcomes_witness :
  prepare_features insertion_date_sort "Eggs" "Tesco" "fresh_food" mid_june
                   eggs_history ["month"; "category_bakery"]%string
  = Failed (Lookup (KeyError "category_bakery"))
  /\ ~ In "category_bakery"%string
          (feature_keys "Tesco" "fresh_food" eggs_history).
Proof.
  split; [vm_compute; reflexivity|].
  destruct (X23_prepare_features_outcomes
              insertion_date_sort "Eggs"%string "Tesco"%string
              "fresh_food"%string mid_june eggs_history
              ["month"; "category_bakery"]%string) as (_ & _ & Hfail).
  destruct (Hfail (Lookup (KeyError "category_bakery")))
    as (name & E & _ & Hk); [vm_compute; reflexivity|].
  injection E as <-. exact Hk.
Defined.

(** A value of the returned vector is the last value its name has among
    the items of the feature dictionary. *)
Lemma vector_value sort sp ss sc date df names X pd name v :
  prepare_features sort sp ss sc date df names = Done (Some (X, pd)) ->
  In (name, v) X ->
  exists latest,
    In latest pd
    /\ (forall r, In r pd -> (capture_date r <= capture_date latest)%Z)
    /\ last_value (feature_items ss sc date df pd latest) name = Some v.
Proof.
  intros Hrun Hin. apply prepare_features_inv in Hrun.
  destruct Hrun as (_ & _ & latest & Hl & Hmax & Hsel).
  exists latest. split; [exact Hl|]. split; [exact Hmax|].
  apply select_columns_Ok in Hsel. destruct Hsel as [_ Hv].
  specialize (Hv name v Hin). rewrite dict_getitem_of_items in Hv.
  destruct (last_value _ name); [now injection Hv as ->|discriminate].
Qed.

(** X24.  In a returned feature vector the date features are those of the
    prediction date: for a month from 1 to 12 the season is the quotient
    by 3 of the month modulo 12 (winter 0 for December to February, up to
    autumn 3); the week-end flag is 1 from weekday 5 on; and the
    start-of-month and end-of-month flags are never both 1. *)
Theorem X24_date_features (sort : date_sort) (sp ss sc : string)
  (date : PredictionDate) (df : list Observation) (names : list string)
  (X : list (string * Value)) (pd : list Observation) :
  prepare_features sort sp ss sc date df names = Done (Some (X, pd)) ->
  (forall v, In ("season_encoded"%string, v) X ->
     (1 <= month date <= 12)%Z ->
     v = IntValue ((month date mod 12) / 3))
  /\ (forall v, In ("is_weekend"%string, v) X ->
        v = IntValue (if (5 <=? weekday date)%Z then 1 else 0))
  /\ (forall v1 v2,
        In ("is_month_start"%string, v1) X ->
        In ("is_month_end"%string, v2) X ->
        v1 = IntValue 1 -> v2 = IntValue 0)
  /\ (forall v, In ("month"%string, v) X -> v = IntValue (month date))
  /\ (forall v, In ("day"%string, v) X -> v = IntValue (day date))
  /\ (forall v, In ("week"%string, v) X ->
        v = IntValue (isocalendar_week date)).
Proof.
  intros Hrun.
  assert (Hval : forall name v, In (name, v) X ->
            exists latest,
              last_value (feature_items ss sc date df pd latest) name
              = Some v).
  { intros name v Hin.
    destruct (vector_value _ _ _ _ _ _ _ _ _ _ _ Hrun Hin)
      as (latest & _ & _ & H). eauto. }
  repeat split.
  - intros v Hin Hmonth. destruct (Hval _ _ Hin) as [latest H].
    unfold feature_items in H. cbv zeta in H. rewrite !last_value_app in H.
    cbn [last_value String.eqb Ascii.eqb Bool.eqb] in H.
    injection H as <-. f_equal.
    remember (month date) as mth eqn:Em. clear Em.
    assert (Hcases : (mth = 1 \/ mth = 2 \/ mth = 3 \/ mth = 4 \/ mth = 5
                      \/ mth = 6 \/ mth = 7 \/ mth = 8 \/ mth = 9
                      \/ mth = 10 \/ mth = 11 \/ mth = 12)%Z) by lia.
    repeat (destruct Hcases as [->|Hcases]; [reflexivity|]).
    subst. reflexivity.
  - intros v Hin. destruct (Hval _ _ Hin) as [latest H].
    unfold feature_items in H. cbv zeta in H. rewrite !last_value_app in H.
    cbn [last_value String.eqb Ascii.eqb Bool.eqb] in H.
    now injection H as <-.
  - intros v1 v2 Hin1 Hin2 E1.
    destruct (Hval _ _ Hin1) as [latest1 H1].
    destruct (Hval _ _ Hin2) as [latest2 H2].
    unfold feature_items in H1, H2. cbv zeta in H1, H2.
    rewrite !last_value_app in H1, H2.
    cbn [last_value String.eqb Ascii.eqb Bool.eqb] in H1, H2.
    injection H1 as <-. injection H2 as <-.
    destruct (Z.leb_spec (day date) 7); [|discriminate].
    destruct (Z.leb_spec 25 (day date)); [lia|reflexivity].
  - intros v Hin. destruct (Hval _ _ Hin) as [latest H].
    unfold feature_items in H. cbv zeta in H. rewrite !last_value_app in H.
    cbn [last_value String.eqb Ascii.eqb Bool.eqb] in H.
    now injection H as <-.
  - intros v Hin. destruct (Hval _ _ Hin) as [latest H].
    unfold feature_items in H. cbv zeta in H. rewrite !last_value_app in H.
    cbn [last_value String.eqb Ascii.eqb Bool.eqb] in H.
    now injection H as <-.
  - intros v Hin. destruct (Hval _ _ Hin) as [latest H].
    unfold feature_items in H. cbv zeta in H. rewrite !last_value_app in H.
    cbn [last_value String.eqb Ascii.eqb Bool.eqb] in H.
    now injection H as <-.
Qed.

(** For Saturday 15 June the season is 2 (summer) and the week-end flag
    is 1. *)
Lemma X24_date_features_witness :
  exists X pd,
    prepare_features insertion_date_sort "Eggs" "Tesco" "fresh_food" mid_june
                     eggs_history ["season_encoded"; "is_weekend"]%string
    = Done (Some (X, pd))
    /\ X = [("season_encoded", IntValue 2); ("is_weekend", IntValue 1)]%string.
Proof.
  do 2 eexists. split; [vm_compute; reflexivity|].
  destruct (X24_date_features
              insertion_date_sort "Eggs"%string "Tesco"%string
              "fresh_food"%string mid_june eggs_history
              ["season_encoded"; "is_weekend"]%string _ _ eq_refl)
    as (Hseason & Hweekend & _).
  rewrite (Hseason (IntValue 2)); [|now left|simpl; lia].
  rewrite (Hweekend (IntValue 1)); [|right; now left].
  reflexivity.
Defined.

(** The five supermarket columns. *)
Definition supermarket_columns : list string :=
  ["ASDA"; "Aldi"; "Morrisons"; "Sains"; "Tesco"]%string.

(** X25.  In a returned feature vector, the column of one of the five
    supermarkets ASDA, Aldi, Morrisons, Sains, Tesco is 1 when the
    selected supermarket has that name, or is Sainsbury's for the column
    Sains, and 0 otherwise: at most one of the five columns is 1, and
    they are all 0 for any other selected supermarket. *)
Theorem X25_supermarket_one_hot (sort : date_sort) (sp ss sc : string)
  (date : PredictionDate) (df : list Observation) (names : list string)
  (X : list (string * Value)) (pd : list Observation) :
  prepare_features sort sp ss sc date df names = Done (Some (X, pd)) ->
  forall sm v,
    In sm supermarket_columns ->
    In (("supermarket_" ++ sm)%string, v) X ->
    v = IntValue
          (if (if String.eqb ss "Sainsbury's" then String.eqb sm "Sains"
               else String.eqb ss sm)
           then 1 else 0).
Proof.
  intros Hrun sm v Hsm Hin.
  destruct (vector_value _ _ _ _ _ _ _ _ _ _ _ Hrun Hin)
    as (latest & _ & _ & H).
  unfold feature_items in H. cbv zeta in H. rewrite !last_value_app in H.
  rewrite category_part_none in H
    by (intros x; simpl; discriminate).
  assert (Hfixed : forall (items : list (string * Value)),
            (forall kv, In kv items ->
               forall x, fst kv <> ("supermarket_" ++ x)%string) ->
            last_value items ("supermarket_" ++ sm)%string = None).
  { intros items Hitems. apply last_value_none. intros Hk.
    apply in_map_iff in Hk. destruct Hk as (kv & Ek & Hkv).
    now apply (Hitems kv Hkv sm). }
  rewrite !Hfixed in H
    by (intros kv Hkv x; simpl in Hkv;
        repeat (destruct Hkv as [<-|Hkv]; [simpl; discriminate|]);
        contradiction).
  unfold supermarket_columns in Hsm. simpl in Hsm.
  destruct (String.eqb ss "Sainsbury's").
  - rewrite last_value_dict in H
      by apply dict_set_NoDup, dict_of_items_NoDup.
    rewrite dict_getitem_set in H.
    repeat (destruct Hsm as [<-|Hsm];
            [vm_compute in H; now injection H as <-|]).
    contradiction.
  - rewrite last_value_dict in H
      by apply dict_set_NoDup, dict_of_items_NoDup.
    rewrite dict_getitem_set in H.
    repeat (destruct Hsm as [<-|Hsm];
            [cbn [String.eqb Ascii.eqb Bool.eqb append] in H;
             destruct (String.eqb ss _);
             [now injection H as <-
             |vm_compute in H; now injection H as <-]|]).
    contradiction.
Qed.

(** With Tesco selected, the Tesco column is 1 and the ASDA column 0. *)
Lemma X25_supermarket_one_hot_witness :
  exists X pd,
    prepare_features insertion_date_sort "Eggs" "Tesco" "fresh_food" mid_june
                     eggs_history
                     ["supermarket_ASDA"; "supermarket_Tesco"]%string
    = Done (Some (X, pd))
    /\ X = [("supermarket_ASDA", IntValue 0);
            ("supermarket_Tesco", IntValue 1)]%string.
Proof.
  do 2 eexists. split; [vm_compute; reflexivity|].
  pose proof (X25_supermarket_one_hot
                insertion_date_sort "Eggs"%string "Tesco"%string
                "fresh_food"%string mid_june eggs_history
                ["supermarket_ASDA"; "supermarket_Tesco"]%string _ _ eq_refl)
    as Hcol.
  rewrite (Hcol "ASDA"%string (IntValue 0));
    [|vm_compute; tauto|now left].
  rewrite (Hcol "Tesco"%string (IntValue 1));
    [|vm_compute; tauto|right; now left].
  reflexivity.
Defined.

(** X26.  The features read from the history come from a matching
    observation that no matching observation is later than: the unit
    price is its unit price, and the unit code is 0 for its unit kg, 1
    for l and 2 for anything else. *)
Theorem X26_history_features (sort : date_sort) (sp ss sc : string)
  (date : PredictionDate) (df : list Observation) (names : list string)
  (X : list (string * Value)) (pd : list Observation) :
  prepare_features sort sp ss sc date df names = Done (Some (X, pd)) ->
  pd = matching sp ss sc df
  /\ (forall v, In ("price_unit_gbp"%string, v) X ->
        exists latest,
          In latest pd
          /\ (forall r, In r pd -> (capture_date r <= capture_date latest)%Z)
          /\ v = FloatValue (price_unit_gbp latest))
  /\ (forall v, In ("unit_encoded"%string, v) X ->
        exists latest,
          In latest pd
          /\ (forall r, In r pd -> (capture_date r <= capture_date latest)%Z)
          /\ v = IntValue
                   (if String.eqb (unit_label latest) "kg" then 0
                    else if String.eqb (unit_label latest) "l" then 1
                    else 2)).
Proof.
  intros Hrun. split; [now apply prepare_features_inv in Hrun|]. split.
  - intros v Hin.
    destruct (vector_value _ _ _ _ _ _ _ _ _ _ _ Hrun Hin)
      as (latest & Hl & Hmax & H).
    exists latest. split; [exact Hl|]. split; [exact Hmax|].
    unfold feature_items in H. cbv zeta in H. rewrite !last_value_app in H.
    rewrite category_part_none in H by (intros x; simpl; discriminate).
    cbn [last_value String.eqb Ascii.eqb Bool.eqb] in H.
    match type of H with
    | match last_value ?B ?k with _ => _ end = _ =>
        assert (Hnone : last_value B k = None)
    end.
    { apply last_value_none. intros Hk.
      apply supermarket_part_keys in Hk. destruct Hk as [x Hx].
      simpl in Hx. discriminate. }
    rewrite Hnone in H. now injection H as <-.
  - intros v Hin.
    destruct (vector_value _ _ _ _ _ _ _ _ _ _ _ Hrun Hin)
      as (latest & Hl & Hmax & H).
    exists latest. split; [exact Hl|]. split; [exact Hmax|].
    unfold feature_items in H. cbv zeta in H. rewrite !last_value_app in H.
    cbn [last_value String.eqb Ascii.eqb Bool.eqb] in H.
    injection H as <-. f_equal.
    change (dict_of_items [("kg", 0); ("l", 1); ("unit", 2)]%string%Z)
      with [("kg", 0); ("l", 1); ("unit", 2)]%string%Z.
    unfold dict_get. cbn [dict_getitem].
    rewrite (String.eqb_sym "kg"), (String.eqb_sym "l").
    destruct (String.eqb (unit_label latest) "kg"); [reflexivity|].
    destruct (String.eqb (unit_label latest) "l"); [reflexivity|].
    destruct (String.eqb "unit" (unit_label latest)); reflexivity.
Qed.

(** The eggs were last seen on 1 March at 0.37 a unit. *)
Lemma X26_history_features_witness :
  exists X pd,
    prepare_features insertion_date_sort "Eggs" "Tesco" "fresh_food" mid_june
                     eggs_history ["price_unit_gbp"; "unit_encoded"]%string
    = Done (Some (X, pd))
    /\ exists latest,
         In latest pd
         /\ In ("price_unit_gbp"%string, FloatValue (price_unit_gbp latest)) X
         /\ price_unit_gbp latest = Fin 0.37.
Proof.
  do 2 eexists. split; [vm_compute; reflexivity|].
  destruct (X26_history_features
              insertion_date_sort "Eggs"%string "Tesco"%string
              "fresh_food"%string mid_june eggs_history
              ["price_unit_gbp"; "unit_encoded"]%string _ _ eq_refl)
    as (_ & Hunit & _).
  destruct (Hunit (FloatValue (Fin 0.37)) (or_introl eq_refl))
    as (latest & Hl & _ & Hv).
  exists latest. split; [exact Hl|]. injection Hv as Hv.
  split; [rewrite <- Hv; now left|now symmetry].
Defined.
